(** * CommonNetworkMember: credential exchange, presentations, revocation

    A shallow embedding of the token lifecycle layer of the wallet core SDK
    (class [CommonNetworkMember]): share request / response tokens, DID-auth,
    W3C presentations, the revocation-list operations and the retried seed
    upload.  Remote services and library calls are collaborators of the
    member, gathered in [Env]; every asynchronous call is logged in the
    [trace] of the [World], and the JavaScript objects that the revocation
    code aliases live in an explicit [heap]. *)

From Stdlib Require Import Ascii String ZArith Lia.
From stdpp Require Import gmap strings list fin_maps pretty.

Local Open Scope string_scope.
Local Open Scope list_scope.

(** ** JavaScript values *)

(** A value that may be [undefined] or [null]. *)
Inductive JsOpt (A : Type) : Type :=
| Undefined
| Null
| Value (a : A).
Arguments Undefined {A}.
Arguments Null {A}.
Arguments Value {A} a.

(** [!x] is false exactly on truthy values; the empty string is falsy. *)
Definition truthyString (s : string) : bool := negb (String.eqb s EmptyString).

Definition truthy (v : JsOpt string) : bool :=
  match v with
  | Value s => truthyString s
  | _ => false
  end.

(** [typeof x !== 'undefined'] for an optional property. *)
Definition isDefined {A} (x : option A) : bool :=
  match x with Some _ => true | None => false end.

(** [haystack.includes(needle)] on strings. *)
Definition stringIncludes (haystack needle : string) : bool :=
  match String.index 0 needle haystack with Some _ => true | None => false end.

(** The double quote character, for messages that quote a parameter name. *)
Definition dq : string := String "034"%char EmptyString.

(** ** Data transfer objects *)

Record JwtOptions := {
  audienceDid : option string;
  expiresAt : option string;
  nonce : option string;
  callbackUrl : option string
}.

Record CredentialRequirement := {
  cr_type : list string;
  cr_constraints : list string
}.

Record SelectedCredential := { sel_type : string }.

(** [SignedCredential]: the current form carries [issuanceDate] and
    [credentialSubject], the legacy form [issued] and [claim]. *)
Record SignedCredential := {
  sc_id : option string;
  sc_type : list string;
  issued : option string;
  issuanceDate : option string;
  claim : option string;
  credentialSubject : option string;
  sc_holder : option string
}.

Record ClaimMetadata := {
  cm_type : list string;
  cm_context : list string
}.

Record SignCredentialOptionalInput := {
  requesterDid : JsOpt string;
  soi_credentialOfferResponseToken : JsOpt string
}.

Record VCV1Unsigned := {
  u_context : list string;
  u_id : string;
  u_type : list string;
  u_holder : string;
  u_credentialSubject : string;
  u_issuanceDate : string;
  u_expirationDate : option string
}.

(** The argument of [buildVCV1Skeleton] as [signCredential] fills it. *)
Record VCV1SkeletonParams := {
  sp_id : string;
  sp_credentialSubject : string;
  sp_holder : string;
  sp_type : list string;
  sp_context : list string
}.

(** A credential without its dates, as [buildVCV1Skeleton] returns it. *)
Record VCV1Skeleton := {
  sk_context : list string;
  sk_id : string;
  sk_type : list string;
  sk_holder : string;
  sk_credentialSubject : string
}.

Record VCV1 := {
  vc_id : string;
  vc_type : list string;
  vc_holder : string;
  vc_credentialSubject : string;
  vc_proof : string
}.

Record VPV1Unsigned := {
  vpu_id : string;
  vpu_vcs : list VCV1;
  vpu_holder : string
}.

Record VPProof := {
  challenge : string;
  domain : string
}.

Record VPV1 := {
  vp_id : string;
  vp_holder : string;
  verifiableCredential : list VCV1;
  proof : VPProof
}.

(** A value of TypeScript type [unknown], kept as received. *)
Definition Unknown := string.

Record InteractionToken := {
  credentialRequirements : list CredentialRequirement;
  selectedCredentials : list SelectedCredential;
  suppliedCredentials : list SignedCredential;
  callbackURL : option string
}.

Record JwtPayload := {
  jti : string;
  iss : string;
  aud : option string;
  interactionToken : InteractionToken
}.

Record JwtObject := {
  payload : JwtPayload;
  signature : option string
}.

(** The [params] object sent to the verifier API. *)
Record ShareRequestParams := {
  p_credentialRequirements : list CredentialRequirement;
  p_issuerDid : JsOpt string;
  p_audienceDid : option string;
  p_expiresAt : option string;
  p_nonce : option string;
  p_callbackUrl : option string
}.

Record CognitoUserTokens := {
  accessToken : string;
  idToken : string
}.

Record SignedListCredential := {
  slc_credential : string;
  slc_proof : string;
  slc_issuanceDate : string
}.

(** ** Thrown values *)

(** The [context] argument of an [SdkError], one shape per throw site. *)
Inductive Context :=
| CtxStructures (errors : list string) (credentials : list SignedCredential)
| CtxShareRequestToken (credentialShareRequestToken : JsOpt string)
| CtxAccessToken (accessToken : string)
| CtxOfferSigning (credentialOfferResponseToken : string)
                  (credentialParams : list VCV1Unsigned)
| CtxErrors (errors : list string).

#[warnings="-register-all"]
Inductive Thrown :=
| SdkError (code : string) (context : Context) (originalError : option Thrown)
| JsError (name message : string) (code : option string).

(** [error.code] *)
Definition errorCode (e : Thrown) : option string :=
  match e with
  | SdkError c _ _ => Some c
  | JsError _ _ c => c
  end.

Inductive Result (A : Type) : Type :=
| Ok (a : A)
| Err (e : Thrown).
Arguments Ok {A} a.
Arguments Err {A} e.

(** ** The heap of aliased JavaScript objects *)

Definition loc := nat.

Inductive Val :=
| VUndefined
| VNull
| VBool (b : bool)
| VStr (s : string)
| VRef (l : loc).

Inductive Cell :=
| CObj (fields : gmap string Val)
| CArr (elems : list Val).

(** ** Parameter validation rules *)

Inductive ParamType :=
| TJwt | TDid | TString | TBoolean | TObject | TIsoString | TVCV1
| TClass (name : string).

Inductive ParamValue :=
| PUndefined
| PNull
| PString (s : string)
| PBoolean (b : bool)
| PJwtOptions (o : JwtOptions)
| PRequirements (l : list CredentialRequirement)
| PSignedCredentials (l : list SignedCredential)
| PVCs (l : list VCV1)
| PUnsignedCredentials (l : list VCV1Unsigned)
| PClaimMetadata (m : ClaimMetadata)
| PSignInput (i : SignCredentialOptionalInput).

Record ParamRule := {
  isArray : bool;
  type : ParamType;
  isRequired : bool;
  value : ParamValue
}.

Definition ofOption {A} (f : A -> ParamValue) (x : option A) : ParamValue :=
  match x with Some a => f a | None => PUndefined end.

Definition ofJsOpt {A} (f : A -> ParamValue) (x : JsOpt A) : ParamValue :=
  match x with Value a => f a | Null => PNull | Undefined => PUndefined end.

(** ** Calls to collaborators *)

Inductive Event :=
| EvDateNow
| EvRandomBytes (size : nat)
| EvBuildCredentialRequest (params : ShareRequestParams)
| EvBuildCredentialResponse (token : string) (supplied : list SignedCredential)
| EvVerifyCredentialShareResponse (response : string) (request : JsOpt string)
                                  (shouldOwn : bool)
| EvVerifyPresentationChallenge (challenge did : string)
| EvResolveRequest (requestNonce : string)
| EvMetricsSend (link : option string) (secondaryLink metadata : string)
| EvSignCredential (unsigned : VCV1Unsigned)
| EvSignListCredential (listCredential : string)
| EvSignPresentation (vp : VPV1Unsigned) (challenge domain : string)
| EvValidatePresentation (vp : Unknown)
| EvBuildRevocationListStatus (credentialId subjectDid : Val) (token : string)
| EvRevokeCredential (credentialId reason token : string)
| EvPublishRevocationListCredential (signed : SignedListCredential)
                                    (token : string)
| EvCognitoSignIn (username password : string)
| EvPullEncryptionKey (accessToken : string)
| EvStoreEncryptedSeed (accessToken seedHexWithMethod encryptionKey : string).

(** The mutable world: the log of calls made so far, the heap, and the
    member's [cognitoUserTokens] field. *)
Record World := {
  trace : list Event;
  heap : list Cell;
  cognitoUserTokens : option CognitoUserTokens
}.

Definition logEvent (ev : Event) (w : World) : World :=
  {| trace := trace w ++ [ev]; heap := heap w;
     cognitoUserTokens := cognitoUserTokens w |}.

Definition setHeap (h : list Cell) (w : World) : World :=
  {| trace := trace w; heap := h; cognitoUserTokens := cognitoUserTokens w |}.

Definition setCognitoUserTokens (t : CognitoUserTokens) (w : World) : World :=
  {| trace := trace w; heap := heap w; cognitoUserTokens := Some t |}.

(** ** The monad of member operations: state and exceptions *)

Definition M (A : Type) : Type := World -> Result A * World.

Definition ret {A} (a : A) : M A := fun w => (Ok a, w).

Definition throw {A} (e : Thrown) : M A := fun w => (Err e, w).

Definition bind {A B} (m : M A) (k : A -> M B) : M B :=
  fun w =>
    match m w with
    | (Ok a, w') => k a w'
    | (Err e, w') => (Err e, w')
    end.

Notation "'let!' x ':=' m 'in' k" := (bind m (fun x => k))
  (at level 10, x name, m at level 200, k at level 200).

(** [try { m } catch (error) { handler(error) }] *)
Definition tryCatch {A} (m : M A) (handler : Thrown -> M A) : M A :=
  fun w =>
    match m w with
    | (Ok a, w') => (Ok a, w')
    | (Err e, w') => handler e w'
    end.

(** A synchronous library call: no event, the outcome is returned or thrown. *)
Definition lift {A} (r : Result A) : M A := fun w => (r, w).

(** An awaited call to a collaborator.  Its outcome may depend on everything
    that happened before; the call is appended to the log. *)
Definition call {A} (ev : Event) (oracle : list Event -> Result A) : M A :=
  fun w => (oracle (trace w), logEvent ev w).

Definition getWorld : M World := fun w => (Ok w, w).

Definition putWorld (w' : World) : M unit := fun _ => (Ok tt, w').

(** A call whose promise is dropped: logged, its outcome never observed. *)
Definition fireAndForget (ev : Event) : M unit :=
  fun w => (Ok tt, logEvent ev w).

(** [for (const x of xs) body(x)] *)
Fixpoint forOf {A} (xs : list A) (body : A -> M unit) : M unit :=
  match xs with
  | [] => ret tt
  | x :: rest => let! _ := body x in forOf rest body
  end.

(** ** Collaborators *)

Record BuildStatusResponse := {
  credentialStatus : Val;
  isPublisRequired : bool;
  bs_revocationListCredential : string
}.

Record RevokeResponse := { rv_revocationListCredential : string }.

Record ShareVerification := {
  sv_isValid : bool;
  sv_did : string;
  sv_jti : string;
  sv_suppliedCredentials : list SignedCredential;
  sv_errors : list string
}.

Inductive ValidatePresentationResponse :=
| ValidationPassed (data : VPV1)
| ValidationFailed (error : string).

(** The outcome of an awaited call, given the calls made before it. *)
Definition Oracle (A : Type) : Type := list Event -> Result A.

(** The member and everything it depends on.  [ParametersValidator], the
    helpers [isW3cCredential], [normalizeShortPassword] and [randomBytes],
    and the holder, revocation, Cognito and wallet storage services are
    modules of the SDK that are not part of the sources at hand; the JWT, key
    and DID document services, [Affinity], the presentation builder and the
    DID parser come from other packages.  None of them is fixed here: the
    operations below are stated for any behaviour of these collaborators. *)
Record Env := {
  (* fields of the member *)
  _encryptedSeed : string;
  _password : string;
  userPoolId : string;
  clientId : string;
  isTestEnvironment : bool;
  (* ParametersValidator *)
  validate : list ParamRule -> option Thrown;
  (* JwtService, KeysService, DidDocumentService *)
  fromJWT : string -> Result JwtObject;
  signJWT : JwtObject -> option string -> Result JwtObject;
  encodeObjectToJWT : JwtObject -> Result string;
  decryptSeed : Result string;
  getMyDid : string;
  getKeyId : string -> string;
  (* helpers *)
  isW3cCredential : CredentialRequirement -> bool;
  normalizeShortPassword : string -> string -> string;
  parseDid : JsOpt string -> Result string;
  dateGetTime : string -> option Z;
  toISOString : Z -> string;
  hexOfBytes : list Z -> string;
  buildVPV1Unsigned : string -> list VCV1 -> string -> VPV1Unsigned;
  buildVCV1Skeleton : VCV1SkeletonParams -> VCV1Skeleton;
  buildVCV1Unsigned : VCV1Skeleton -> string -> option string -> VCV1Unsigned;
  parseVcMetadata : SignedCredential -> string;
  (* remote services *)
  dateNow : list Event -> Z;
  randomBytes : nat -> Oracle (list Z);
  verifierApi_BuildCredentialRequest : ShareRequestParams -> Oracle JwtObject;
  holder_buildCredentialResponse :
    string -> list SignedCredential -> Oracle JwtObject;
  holder_verifyCredentialShareResponse :
    string -> JsOpt string -> bool -> Oracle ShareVerification;
  holder_verifyPresentationChallenge : string -> string -> Oracle unit;
  affinity_signCredential : VCV1Unsigned -> string -> string -> Oracle VCV1;
  affinity_signListCredential :
    string -> string -> string -> Oracle SignedListCredential;
  affinity_signPresentation :
    VPV1Unsigned -> string -> string -> string -> string -> Oracle VPV1;
  affinity_validatePresentation : Unknown -> Oracle ValidatePresentationResponse;
  revocation_buildRevocationListStatus :
    Val -> Val -> string -> Oracle BuildStatusResponse;
  revocation_revokeCredential : string -> string -> string -> Oracle RevokeResponse;
  revocation_publishRevocationListCredential :
    SignedListCredential -> string -> Oracle unit;
  cognito_signIn : string -> string -> string -> string -> Oracle CognitoUserTokens;
  walletStorage_pullEncryptionKey : string -> Oracle string;
  walletStorage_storeEncryptedSeed : string -> string -> string -> Oracle unit
}.

(** [await ParametersValidator.validate(rules)] *)
Definition validateParams (env : Env) (rules : list ParamRule) : M unit :=
  match validate env rules with
  | Some e => throw e
  | None => ret tt
  end.

(** [new Date().getTime()]: the clock is read, which cannot fail. *)
Definition currentTime (env : Env) : M Z :=
  fun w => (Ok (dateNow env (trace w)), logEvent EvDateNow w).

(** The getters [did] and [didDocumentKeyId]; both cache a value that the
    DID document service computes from the member's keys. *)
Definition did (env : Env) : string := getMyDid env.

Definition didDocumentKeyId (env : Env) : string := getKeyId env (did env).

(** ** Share requests and DID-auth requests *)

Definition jwtOptionsRule (options : option JwtOptions) : ParamRule :=
  {| isArray := false; type := TClass "JwtOptions"; isRequired := false;
     value := ofOption PJwtOptions options |}.

Definition jwtRule (required : bool) (token : ParamValue) : ParamRule :=
  {| isArray := false; type := TJwt; isRequired := required; value := token |}.

Definition generateCredentialShareRequestToken (env : Env)
    (credentialRequirements : list CredentialRequirement)
    (issuerDid : JsOpt string) (options : option JwtOptions) : M string :=
  let! _ := validateParams env
    [ {| isArray := true; type := TClass "CredentialRequirement";
         isRequired := true; value := PRequirements credentialRequirements |};
      {| isArray := false; type := TDid; isRequired := false;
         value := ofJsOpt PString issuerDid |};
      jwtOptionsRule options ] in
  let params :=
    match options with
    | Some o =>
        {| p_credentialRequirements := credentialRequirements;
           p_issuerDid := issuerDid;
           p_audienceDid := audienceDid o; p_expiresAt := expiresAt o;
           p_nonce := nonce o; p_callbackUrl := callbackUrl o |}
    | None =>
        {| p_credentialRequirements := credentialRequirements;
           p_issuerDid := issuerDid;
           p_audienceDid := None; p_expiresAt := None;
           p_nonce := None; p_callbackUrl := None |}
    end in
  let! credentialShareRequest :=
    call (EvBuildCredentialRequest params)
         (verifierApi_BuildCredentialRequest env params) in
  let! signedObject :=
    lift (signJWT env credentialShareRequest (Some (didDocumentKeyId env))) in
  lift (encodeObjectToJWT env signedObject).

Definition generateDidAuthRequest (env : Env) (options : option JwtOptions)
    : M string :=
  let! _ := validateParams env [ jwtOptionsRule options ] in
  generateCredentialShareRequestToken env [] Null options.

(** ** Share responses *)

Definition missingParameter (name : string) : string :=
  "Parameter " +:+ dq +:+ name +:+ dq +:+ " is missing for SignedCredential".

(** The loop of [_validateSignedCredentialsSupportedStructures]; [errors] is
    the array the loop pushes to. *)
Fixpoint structureErrors (credentials : list SignedCredential)
    (errors : list string) : list string :=
  match credentials with
  | [] => errors
  | credential :: rest =>
      let hasIssuedDate := isDefined (issued credential) in
      let hasIssuanceDate := isDefined (issuanceDate credential) in
      let isLegacyCredential := isDefined (claim credential) in
      let hasCredentialSubject := isDefined (credentialSubject credential) in
      if isLegacyCredential then
        let errors :=
          if negb hasIssuedDate
          then errors ++ [missingParameter "issued"] else errors in
        structureErrors rest errors
      else
        let errors :=
          if negb hasIssuanceDate
          then errors ++ [missingParameter "issuanceDate"] else errors in
        let errors :=
          if negb hasCredentialSubject
          then errors ++ [missingParameter "credentialSubject"] else errors in
        structureErrors rest errors
  end.

Definition _validateSignedCredentialsSupportedStructures
    (credentials : list SignedCredential) : Result unit :=
  let errors := structureErrors credentials [] in
  let areCredentialsValid := Nat.eqb (length errors) 0 in
  if negb areCredentialsValid
  then Err (SdkError "COR-1" (CtxStructures errors credentials) None)
  else Ok tt.

Definition createCredentialShareResponseToken (env : Env)
    (credentialShareRequestToken : string)
    (suppliedCredentials : list SignedCredential) : M string :=
  let! _ := validateParams env
    [ jwtRule true (PString credentialShareRequestToken);
      {| isArray := true; type := TClass "SignedCredential"; isRequired := true;
         value := PSignedCredentials suppliedCredentials |} ] in
  let! _ := lift (_validateSignedCredentialsSupportedStructures suppliedCredentials) in
  let! credentialResponse :=
    call (EvBuildCredentialResponse credentialShareRequestToken suppliedCredentials)
         (holder_buildCredentialResponse env credentialShareRequestToken
                                         suppliedCredentials) in
  let! signedObject :=
    lift (signJWT env credentialResponse (Some (didDocumentKeyId env))) in
  lift (encodeObjectToJWT env signedObject).

Definition createDidAuthResponse (env : Env) (didAuthRequestToken : string)
    : M string :=
  let! _ := validateParams env [ jwtRule true (PString didAuthRequestToken) ] in
  createCredentialShareResponseToken env didAuthRequestToken [].

(** [getCredentialTypes]: the second type tag of every requirement that is a
    W3C credential; [type[1]] is [undefined] when there is no second tag. *)
Fixpoint collectCredentialTypes (env : Env)
    (requirements : list CredentialRequirement)
    (credentialTypes : list (option string)) : list (option string) :=
  match requirements with
  | [] => credentialTypes
  | credential :: rest =>
      if isW3cCredential env credential
      then collectCredentialTypes env rest
             (credentialTypes ++ [cr_type credential !! 1%nat])
      else collectCredentialTypes env rest credentialTypes
  end.

Definition getCredentialTypes (env : Env) (credentialRequest : JwtObject)
    : list (option string) :=
  let interactionToken := interactionToken (payload credentialRequest) in
  let credentialRequirements := credentialRequirements interactionToken in
  collectCredentialTypes env credentialRequirements [].

(** [array.includes(x)] *)
Definition includes {A} `{EqDecision A} (array : list A) (x : A) : bool :=
  bool_decide (x ∈ array).

(** ** Verification of share responses *)

Inductive ShareRequestArg :=
| RequestToken (token : JsOpt string)
| RequestResolver (resolve : string -> Oracle (JsOpt string)).

Record CredentialShareResponseOutput := {
  isValid : bool;
  out_did : string;
  out_nonce : string;
  out_suppliedCredentials : list SignedCredential;
  out_errors : list string
}.

Definition _sendVCVerifiedPerPartyMetric (vcId : option string)
    (verifierDid : string) (metadata : string) : M unit :=
  fireAndForget (EvMetricsSend vcId verifierDid metadata).

Definition _sendVCVerifiedPerPartyMetrics (env : Env)
    (credentials : list SignedCredential) : M unit :=
  let verifierDid := did env in
  forOf credentials (fun credential =>
    let metadata := parseVcMetadata env credential in
    _sendVCVerifiedPerPartyMetric (sc_id credential) verifierDid metadata).

(** [JwtService.fromJWT] applied to a value that need not be a string. *)
Definition fromJWTValue (env : Env) (token : JsOpt string) : Result JwtObject :=
  match token with
  | Value t => fromJWT env t
  | _ => Err (JsError "Error" "Token can not be decoded" None)
  end.

Definition replayProtectionError (credentialShareRequestToken : JsOpt string)
    : Thrown :=
  SdkError "COR-15" (CtxShareRequestToken credentialShareRequestToken) None.

Definition verifyCredentialShareResponseToken (env : Env)
    (credentialShareResponseToken : string)
    (credentialShareRequest : ShareRequestArg)
    (shouldOwn : option bool) : M CredentialShareResponseOutput :=
  let shouldOwn := default true shouldOwn in
  let credentialShareRequestToken :=
    match credentialShareRequest with
    | RequestToken token => token
    | RequestResolver _ => Undefined
    end in
  let paramsToValidate :=
    [ jwtRule true (PString credentialShareResponseToken);
      jwtRule false (ofJsOpt PString credentialShareRequestToken);
      {| isArray := false; type := TBoolean; isRequired := false;
         value := PBoolean shouldOwn |} ] in
  let! _ := validateParams env paramsToValidate in
  let! credentialShareRequestToken :=
    match credentialShareRequest with
    | RequestResolver resolve =>
        let! credentialShareResponse :=
          lift (fromJWT env credentialShareResponseToken) in
        let requestNonce := jti (payload credentialShareResponse) in
        let! credentialShareRequestToken :=
          call (EvResolveRequest requestNonce) (resolve requestNonce) in
        if negb (truthy credentialShareRequestToken)
        then throw (replayProtectionError credentialShareRequestToken)
        else
          let! _ :=
            tryCatch
              (let! _ := lift (fromJWTValue env credentialShareRequestToken) in
               ret tt)
              (fun error =>
                 throw (replayProtectionError credentialShareRequestToken)) in
          ret credentialShareRequestToken
    | RequestToken _ => ret credentialShareRequestToken
    end in
  let! response :=
    call (EvVerifyCredentialShareResponse credentialShareResponseToken
            credentialShareRequestToken shouldOwn)
         (holder_verifyCredentialShareResponse env credentialShareResponseToken
            credentialShareRequestToken shouldOwn) in
  let! _ :=
    if sv_isValid response && negb (isTestEnvironment env)
    then _sendVCVerifiedPerPartyMetrics env (sv_suppliedCredentials response)
    else ret tt in
  ret {| isValid := sv_isValid response; out_did := sv_did response;
         out_nonce := sv_jti response;
         out_suppliedCredentials := sv_suppliedCredentials response;
         out_errors := sv_errors response |}.

(** An optional argument that the caller may have left out. *)
Definition optionalArgument {A} (x : option A) : JsOpt A :=
  match x with Some a => Value a | None => Undefined end.

Definition verifyDidAuthResponse (env : Env) (didAuthResponseToken : string)
    (didAuthRequestToken : option string) : M CredentialShareResponseOutput :=
  let! _ := validateParams env
    [ jwtRule true (PString didAuthResponseToken);
      jwtRule false (ofOption PString didAuthRequestToken) ] in
  verifyCredentialShareResponseToken env didAuthResponseToken
    (RequestToken (optionalArgument didAuthRequestToken)) None.

(** ** W3C presentations *)

Definition createPresentationFromChallenge (env : Env) (challenge : string)
    (vcs : list VCV1) (domain : string) : M VPV1 :=
  let! _ := validateParams env
    [ jwtRule true (PString challenge);
      {| isArray := true; type := TVCV1; isRequired := true;
         value := PVCs vcs |} ] in
  let! decodedChallenge := lift (fromJWT env challenge) in
  let requestedTypes := getCredentialTypes env decodedChallenge in
  let! bytes := call (EvRandomBytes 8) (randomBytes env 8) in
  let vp :=
    buildVPV1Unsigned env
      ("presentationId:" +:+ hexOfBytes env bytes)
      (List.filter (fun vc => includes requestedTypes (vc_type vc !! 1%nat)) vcs)
      (did env) in
  call (EvSignPresentation vp challenge domain)
       (affinity_signPresentation env vp (_encryptedSeed env) (_password env)
                                  challenge domain).

Inductive SuppliedPresentation :=
| ValidatedPresentation (data : VPV1)
| ReceivedPresentation (vp : Unknown).

Inductive PresentationError :=
| CaughtError (error : Thrown)
| ValidationError (error : string).

Record PresentationValidationOutput := {
  pv_isValid : bool;
  pv_did : option string;
  pv_challenge : option string;
  suppliedPresentation : SuppliedPresentation;
  pv_errors : option (list PresentationError)
}.

Definition verifyPresentation (env : Env) (vp : Unknown)
    : M PresentationValidationOutput :=
  let! response :=
    call (EvValidatePresentation vp) (affinity_validatePresentation env vp) in
  match response with
  | ValidationPassed data =>
      let! caught :=
        tryCatch
          (let! _ :=
             call (EvVerifyPresentationChallenge (challenge (proof data)) (did env))
                  (holder_verifyPresentationChallenge env
                     (challenge (proof data)) (did env)) in
           ret None)
          (fun error =>
             ret (Some {| pv_isValid := false;
                          pv_did := None;
                          pv_challenge := None;
                          suppliedPresentation := ValidatedPresentation data;
                          pv_errors := Some [CaughtError error] |})) in
      match caught with
      | Some output => ret output
      | None =>
          ret {| pv_isValid := true;
                 pv_did := Some (vp_holder data);
                 pv_challenge := Some (challenge (proof data));
                 suppliedPresentation := ValidatedPresentation data;
                 pv_errors := None |}
      end
  | ValidationFailed error =>
      ret {| pv_isValid := false;
             pv_did := None;
             pv_challenge := None;
             suppliedPresentation := ReceivedPresentation vp;
             pv_errors := Some [ValidationError error] |}
  end.

(** ** Signing offered credentials *)

(** [new Date(s).toISOString()], a [RangeError] on an invalid date. *)
Definition isoOfDateString (env : Env) (s : string) : Result string :=
  match dateGetTime env s with
  | Some t => Ok (toISOString env t)
  | None => Err (JsError "RangeError" "Invalid time value" None)
  end.

(** [signCredential].  The unsigned credential is built by
    [buildVCV1Skeleton] and [buildVCV1Unsigned] of the credential library,
    which is not among the sources at hand: both are parameters, pure
    functions of their arguments. *)
Definition signCredential (env : Env) (credentialSubject : string)
    (claimMetadata : ClaimMetadata)
    (signCredentialOptionalInput : SignCredentialOptionalInput)
    (expiresAt : option string) : M VCV1 :=
  let! _ := validateParams env
    [ {| isArray := false; type := TObject; isRequired := true;
         value := PString credentialSubject |};
      {| isArray := false; type := TClass "ClaimMetadata"; isRequired := true;
         value := PClaimMetadata claimMetadata |};
      {| isArray := false; type := TClass "SignCredentialOptionalInput";
         isRequired := true; value := PSignInput signCredentialOptionalInput |};
      {| isArray := false; type := TIsoString; isRequired := false;
         value := ofOption PString expiresAt |} ] in
  let! _ :=
    match expiresAt with
    | Some expiry =>
        let! now := currentTime env in
        match dateGetTime env expiry with
        | Some t =>
            if (t <? now)%Z
            then throw (JsError "Error"
                          "Expiry date should be greater than current date" None)
            else ret tt
        | None => ret tt
        end
    | None => ret tt
    end in
  let credentialOfferResponseToken :=
    soi_credentialOfferResponseToken signCredentialOptionalInput in
  let! requesterDid :=
    if truthy credentialOfferResponseToken
    then
      let! credentialOfferResponse :=
        lift (fromJWTValue env credentialOfferResponseToken) in
      ret (Value (iss (payload credentialOfferResponse)))
    else ret (requesterDid signCredentialOptionalInput) in
  let! bytes := call (EvRandomBytes 8) (randomBytes env 8) in
  let! holderDid := lift (parseDid env requesterDid) in
  let! now := currentTime env in
  let! expirationDate :=
    match expiresAt with
    | Some expiry =>
        if truthyString expiry
        then let! iso := lift (isoOfDateString env expiry) in ret (Some iso)
        else ret None
    | None => ret None
    end in
  let unsignedCredential :=
    buildVCV1Unsigned env
      (buildVCV1Skeleton env
         {| sp_id := "claimId:" +:+ hexOfBytes env bytes;
            sp_credentialSubject := credentialSubject;
            sp_holder := holderDid;
            sp_type := cm_type claimMetadata;
            sp_context := cm_context claimMetadata |})
      (toISOString env now)
      expirationDate in
  call (EvSignCredential unsignedCredential)
       (affinity_signCredential env unsignedCredential
                                (_encryptedSeed env) (_password env)).

(** [unsignedCredential.type.some((type) => types.includes(type))] *)
Definition isCredentialOffered (credentialTypesThatCanBeSigned : list string)
    (unsignedCredential : VCV1Unsigned) : bool :=
  existsb (fun type => includes credentialTypesThatCanBeSigned type)
          (u_type unsignedCredential).

(** The loop of [signCredentials]; [signedCredentials] is the array the loop
    pushes to. *)
Fixpoint signOffered (env : Env) (credentialOfferResponseToken : string)
    (credentialTypesThatCanBeSigned : list string)
    (credentialParams : list VCV1Unsigned) (signedCredentials : list VCV1)
    : M (list VCV1) :=
  match credentialParams with
  | [] => ret signedCredentials
  | unsignedCredential :: rest =>
      if negb (isCredentialOffered credentialTypesThatCanBeSigned unsignedCredential)
      then signOffered env credentialOfferResponseToken
             credentialTypesThatCanBeSigned rest signedCredentials
      else
        let credentialMetadata :=
          {| cm_type := u_type unsignedCredential;
             cm_context := u_context unsignedCredential |} in
        let! signedCredential :=
          signCredential env (u_credentialSubject unsignedCredential)
            credentialMetadata
            {| requesterDid := Undefined;
               soi_credentialOfferResponseToken :=
                 Value credentialOfferResponseToken |}
            (u_expirationDate unsignedCredential) in
        signOffered env credentialOfferResponseToken
          credentialTypesThatCanBeSigned rest
          (signedCredentials ++ [signedCredential])
  end.

Definition signCredentials (env : Env) (credentialOfferResponseToken : string)
    (credentialParams : list VCV1Unsigned) : M (list VCV1) :=
  let! _ := validateParams env
    [ jwtRule true (PString credentialOfferResponseToken);
      {| isArray := true; type := TObject; isRequired := true;
         value := PUnsignedCredentials credentialParams |} ] in
  let! credentialOfferResponse := lift (fromJWT env credentialOfferResponseToken) in
  let selectedCredentials :=
    selectedCredentials (interactionToken (payload credentialOfferResponse)) in
  let credentialTypesThatCanBeSigned := map sel_type selectedCredentials in
  let! signedCredentials :=
    signOffered env credentialOfferResponseToken credentialTypesThatCanBeSigned
                credentialParams [] in
  if Nat.eqb (length signedCredentials) 0
  then throw (SdkError "COR-22"
                (CtxOfferSigning credentialOfferResponseToken credentialParams)
                None)
  else ret signedCredentials.

(** ** Objects on the heap *)

(** The own enumerable properties of an array: its elements under their
    indices. *)
Definition indexedProperties (elems : list Val) : gmap string Val :=
  list_to_map (imap (fun i v => (pretty i, v)) elems).

Definition charsOf (s : string) : list Val :=
  map (fun c => VStr (String c EmptyString)) (list_ascii_of_string s).

(** What [Object.assign] copies from a source value. *)
Definition ownEnumerableProperties (h : list Cell) (source : Val)
    : gmap string Val :=
  match source with
  | VRef l =>
      match h !! l with
      | Some (CObj fields) => fields
      | Some (CArr elems) => indexedProperties elems
      | None => ∅
      end
  | VStr s => indexedProperties (charsOf s)
  | _ => ∅
  end.

(** [value.key] for a [key] that is neither an index nor a built-in property
    of arrays and strings; reading from [undefined] or [null] throws. *)
Definition getProperty (value : Val) (key : string) : M Val :=
  fun w =>
    match value with
    | VUndefined | VNull =>
        (Err (JsError "TypeError"
                ("Cannot read properties of undefined (reading '" +:+ key +:+ "')")
                None), w)
    | VRef l =>
        match heap w !! l with
        | Some (CObj fields) => (Ok (default VUndefined (fields !! key)), w)
        | _ => (Ok VUndefined, w)
        end
    | _ => (Ok VUndefined, w)
    end.

(** [value?.key] *)
Definition getOptionalProperty (value : Val) (key : string) : M Val :=
  match value with
  | VUndefined | VNull => ret VUndefined
  | _ => getProperty value key
  end.

(** [Object.assign({}, source, { [key]: v })]: a new object is allocated; the
    values of the copied properties, references included, are shared. *)
Definition assignWith (source : Val) (key : string) (v : Val) : M loc :=
  fun w =>
    let fields := <[key := v]> (ownEnumerableProperties (heap w) source) in
    (Ok (length (heap w)), setHeap (heap w ++ [CObj fields]) w).

(** [object[key].push(item)] *)
Definition pushToProperty (object : loc) (key : string) (item : Val) : M unit :=
  fun w =>
    match heap w !! object with
    | Some (CObj fields) =>
        match fields !! key with
        | Some (VRef a) =>
            match heap w !! a with
            | Some (CArr elems) =>
                (Ok tt, setHeap (<[a := CArr (elems ++ [item])]> (heap w)) w)
            | _ => (Err (JsError "TypeError" "push is not a function" None), w)
            end
        | None | Some VUndefined | Some VNull =>
            (Err (JsError "TypeError"
                    "Cannot read properties of undefined (reading 'push')" None), w)
        | Some _ => (Err (JsError "TypeError" "push is not a function" None), w)
        end
    | _ => (Err (JsError "TypeError" "push is not a function" None), w)
    end.

(** ** Revocation *)

Definition revocationListContext : string :=
  "https://w3id.org/vc-revocation-list-2020/v1".

Definition signAndPublishList (env : Env) (revocationListCredential : string)
    (revocationServiceAccessToken : string) : M unit :=
  let! signedListCredential :=
    call (EvSignListCredential revocationListCredential)
         (affinity_signListCredential env revocationListCredential
            (_encryptedSeed env) (_password env)) in
  let! now := currentTime env in
  let signedListCredential :=
    {| slc_credential := slc_credential signedListCredential;
       slc_proof := slc_proof signedListCredential;
       slc_issuanceDate := toISOString env now |} in
  call (EvPublishRevocationListCredential signedListCredential
          revocationServiceAccessToken)
       (revocation_publishRevocationListCredential env signedListCredential
          revocationServiceAccessToken).

Definition buildRevocationListStatus (env : Env) (unsignedCredential : Val)
    (revocationServiceAccessToken : string) : M Val :=
  let! credentialId := getProperty unsignedCredential "id" in
  let! holder := getProperty unsignedCredential "holder" in
  let! subjectDid := getOptionalProperty holder "id" in
  let! response :=
    call (EvBuildRevocationListStatus credentialId subjectDid
            revocationServiceAccessToken)
         (revocation_buildRevocationListStatus env credentialId subjectDid
            revocationServiceAccessToken) in
  let! revokableUnsignedCredential :=
    assignWith unsignedCredential "credentialStatus" (credentialStatus response) in
  let! _ :=
    pushToProperty revokableUnsignedCredential "@context"
                   (VStr revocationListContext) in
  let! _ :=
    if isPublisRequired response
    then signAndPublishList env (bs_revocationListCredential response)
                            revocationServiceAccessToken
    else ret tt in
  ret (VRef revokableUnsignedCredential).

Definition revokeCredential (env : Env) (credentialId revocationReason : string)
    (revocationServiceAccessToken : string) : M unit :=
  let! response :=
    call (EvRevokeCredential credentialId revocationReason
            revocationServiceAccessToken)
         (revocation_revokeCredential env credentialId revocationReason
            revocationServiceAccessToken) in
  signAndPublishList env (rv_revocationListCredential response)
                     revocationServiceAccessToken.

(** ** Storing the encrypted seed *)

(** How one run of the function given to [retry] ends when it does not
    throw: it resolves, or it has called [bail]. *)
Inductive Attempt (A : Type) : Type :=
| Resolved (a : A)
| Bailed (e : Thrown).
Arguments Resolved {A} a.
Arguments Bailed {A} e.

(** [retry(fn, { retries })] of the async-retry package: [fn] runs once and,
    while it throws, up to [retries] more times; [bail(e)] rejects with [e]
    at once; when the retries are used up the promise rejects with the error
    of the run that failed last (all errors thrown here carry one message). *)
Fixpoint retry {A} (fn : M (Attempt A)) (retries : nat) : M A :=
  fun w =>
    match fn w with
    | (Ok (Resolved a), w') => (Ok a, w')
    | (Ok (Bailed e), w') => (Err e, w')
    | (Err e, w') =>
        match retries with
        | O => (Err e, w')
        | S n => retry fn n w'
        end
    end.

Definition errorCodes : list string := ["COR-1"; "WAL-2"].

(** [errorCodes.indexOf(error.code) >= 0] *)
Definition isKnownError (error : Thrown) : bool :=
  match errorCode error with
  | Some c => includes errorCodes c
  | None => false
  end.

Definition storeAttempt (env : Env) (accessToken seedHexWithMethod : string)
    (encryptionKey : string) : M (Attempt unit) :=
  tryCatch
    (let! _ :=
       call (EvStoreEncryptedSeed accessToken seedHexWithMethod encryptionKey)
            (walletStorage_storeEncryptedSeed env accessToken seedHexWithMethod
               encryptionKey) in
     ret (Resolved tt))
    (fun error =>
       if isKnownError error
       then ret (Bailed error)
       else throw (SdkError "COR-18" (CtxAccessToken accessToken) (Some error))).

Definition storeEncryptedSeed (env : Env) (username password : string)
    (token : option string) : M unit :=
  let! _ := validateParams env
    [ {| isArray := false; type := TString; isRequired := true;
         value := PString username |};
      {| isArray := false; type := TString; isRequired := true;
         value := PString password |};
      jwtRule false (ofOption PString token) ] in
  let signIn : M string :=
    let password := normalizeShortPassword env password username in
    let! tokens :=
      call (EvCognitoSignIn username password)
           (cognito_signIn env (userPoolId env) (clientId env)
                           username password) in
    let! w := getWorld in
    let! _ := putWorld (setCognitoUserTokens tokens w) in
    ret (accessToken tokens) in
  let! accessToken :=
    match token with
    | Some t => if negb (truthyString t) then signIn else ret t
    | None => signIn
    end in
  let! seedHexWithMethod := lift (decryptSeed env) in
  let! encryptionKey :=
    call (EvPullEncryptionKey accessToken)
         (walletStorage_pullEncryptionKey env accessToken) in
  retry (storeAttempt env accessToken seedHexWithMethod encryptionKey) 3.

(** ** A concrete member, used to run the definitions *)

Module Demo.

Definition emptyInteraction : InteractionToken :=
  {| credentialRequirements := []; selectedCredentials := [];
     suppliedCredentials := []; callbackURL := None |}.

Definition emailRequirement : CredentialRequirement :=
  {| cr_type := ["Credential"; "EmailCredentialPersonV1"];
     cr_constraints := [] |}.

Definition tokenOf (id issuer : string) (it : InteractionToken) : JwtObject :=
  {| payload := {| jti := id; iss := issuer; aud := None;
                   interactionToken := it |};
     signature := Some "sig" |}.

Definition didAuthRequest : JwtObject :=
  tokenOf "nonce-1" "did:elem:verifier" emptyInteraction.

Definition emailRequest : JwtObject :=
  tokenOf "nonce-2" "did:elem:verifier"
    {| credentialRequirements := [emailRequirement];
       selectedCredentials := []; suppliedCredentials := [];
       callbackURL := None |}.

Definition shareResponse : JwtObject :=
  tokenOf "nonce-2" "did:elem:holder" emptyInteraction.

Definition didAuthResponse : JwtObject :=
  tokenOf "nonce-1" "did:elem:holder" emptyInteraction.

Definition offerResponse : JwtObject :=
  tokenOf "nonce-3" "did:elem:holder"
    {| credentialRequirements := [];
       selectedCredentials := [ {| sel_type := "EmailCredentialPersonV1" |} ];
       suppliedCredentials := []; callbackURL := None |}.

(** The tokens that decode. *)
Definition tokens : list (string * JwtObject) :=
  [ ("jwt.didauth.request", didAuthRequest);
    ("jwt.email.request", emailRequest);
    ("jwt.share.response", shareResponse);
    ("jwt.didauth.response", didAuthResponse);
    ("jwt.offer.response", offerResponse) ].

Fixpoint lookupToken (table : list (string * JwtObject)) (token : string)
    : Result JwtObject :=
  match table with
  | [] => Err (JsError "Error" "Token can not be decoded" None)
  | (name, object) :: rest =>
      if String.eqb name token then Ok object else lookupToken rest token
  end.

(** A validator that rejects a missing required value and an empty token. *)
Definition ruleFails (rule : ParamRule) : bool :=
  match value rule, type rule with
  | PUndefined, _ | PNull, _ => isRequired rule
  | PString s, TJwt => String.eqb s EmptyString
  | _, _ => false
  end.

Definition validateRules (rules : list ParamRule) : option Thrown :=
  if existsb ruleFails rules
  then Some (SdkError "COR-1" (CtxErrors ["invalid parameter"]) None)
  else None.

(** Modelled from the spec: [HolderService.buildCredentialResponse], whose
    file is not among the sources.  The holder response builder takes the
    received share request token and constructs the response payload from
    the supplied signed credentials, ready for signing; the response is
    bound to the nonce of the request and addressed to its issuer, and a
    DID-auth response is the share response with no credentials. *)
Definition buildCredentialResponse (holderDid : string) (token : string)
    (supplied : list SignedCredential) : Oracle JwtObject :=
  fun _ =>
    match lookupToken tokens token with
    | Ok request =>
        Ok {| payload :=
                {| jti := jti (payload request);
                   iss := holderDid;
                   aud := Some (iss (payload request));
                   interactionToken :=
                     {| credentialRequirements := [];
                        selectedCredentials := [];
                        suppliedCredentials := supplied;
                        callbackURL :=
                          callbackURL (interactionToken (payload request)) |} |};
              signature := None |}
    | Err e => Err e
    end.

Definition isStoreCall (ev : Event) : bool :=
  match ev with EvStoreEncryptedSeed _ _ _ => true | _ => false end.

(** A storage service that is unreachable twice and then accepts. *)
Definition flakyStore : Oracle unit :=
  fun history =>
    if Nat.ltb (length (List.filter isStoreCall history)) 2
    then Err (JsError "Error" "socket hang up" (Some "ECONNRESET"))
    else Ok tt.

Definition signedPresentation (vp : VPV1Unsigned) (challenge domain : string)
    : VPV1 :=
  {| vp_id := vpu_id vp; vp_holder := vpu_holder vp;
     verifiableCredential := vpu_vcs vp;
     proof := {| challenge := challenge; domain := domain |} |}.

(** A storage service that finds the seed already stored. *)
Definition conflictingStore : Oracle unit :=
  fun _ => Err (SdkError "WAL-2" (CtxErrors ["seed exists"]) None).

(** A storage service that is never reachable. *)
Definition deadStore : Oracle unit :=
  fun _ => Err (JsError "Error" "socket hang up" (Some "ECONNRESET")).

Definition memberWith (store : Oracle unit) : Env :=
  {| _encryptedSeed := "encrypted-seed";
     _password := "password";
     userPoolId := "pool";
     clientId := "client";
     isTestEnvironment := false;
     validate := validateRules;
     fromJWT := lookupToken tokens;
     signJWT := fun object keyId =>
       Ok {| payload := payload object;
             signature := Some ("signed-by:" +:+ default EmptyString keyId) |};
     encodeObjectToJWT := fun object =>
       Ok ("jwt." +:+ iss (payload object) +:+ "." +:+ jti (payload object));
     decryptSeed := Ok "seed++elem";
     getMyDid := "did:elem:holder";
     getKeyId := fun did => did +:+ "#primary";
     isW3cCredential := fun requirement =>
       match cr_type requirement with [] => false | _ => true end;
     normalizeShortPassword := fun password _ => password;
     parseDid := fun did =>
       match did with
       | Value d => Ok d
       | _ => Err (JsError "Error" "Invalid DID" None)
       end;
     dateGetTime := fun _ => None;
     toISOString := fun _ => "2021-01-01T00:00:00.000Z";
     hexOfBytes := fun _ => "00";
     buildVPV1Unsigned := fun id vcs holder =>
       {| vpu_id := id; vpu_vcs := vcs; vpu_holder := holder |};
     buildVCV1Skeleton := fun params =>
       {| sk_context :=
            "https://www.w3.org/2018/credentials/v1" :: sp_context params;
          sk_id := sp_id params;
          sk_type := "VerifiableCredential" :: sp_type params;
          sk_holder := sp_holder params;
          sk_credentialSubject := sp_credentialSubject params |};
     buildVCV1Unsigned := fun skeleton issuanceDate expirationDate =>
       {| u_context := sk_context skeleton;
          u_id := sk_id skeleton;
          u_type := sk_type skeleton;
          u_holder := sk_holder skeleton;
          u_credentialSubject := sk_credentialSubject skeleton;
          u_issuanceDate := issuanceDate;
          u_expirationDate := expirationDate |};
     parseVcMetadata := fun _ => "metadata";
     dateNow := fun _ => 1609459200000%Z;
     randomBytes := fun size _ => Ok (repeat 0%Z size);
     verifierApi_BuildCredentialRequest := fun params _ =>
       Ok (tokenOf (default "nonce-0" (p_nonce params)) "did:elem:verifier"
             {| credentialRequirements := p_credentialRequirements params;
                selectedCredentials := []; suppliedCredentials := [];
                callbackURL := p_callbackUrl params |});
     holder_buildCredentialResponse := buildCredentialResponse "did:elem:holder";
     holder_verifyCredentialShareResponse := fun response request shouldOwn _ =>
       match lookupToken tokens response with
       | Ok decoded =>
           Ok {| sv_isValid := true;
                 sv_did := iss (payload decoded);
                 sv_jti := jti (payload decoded);
                 sv_suppliedCredentials :=
                   suppliedCredentials (interactionToken (payload decoded));
                 sv_errors := [] |}
       | Err e => Err e
       end;
     holder_verifyPresentationChallenge := fun challenge did _ =>
       match lookupToken tokens challenge with
       | Ok _ => Ok tt
       | Err e => Err e
       end;
     affinity_signCredential := fun unsigned _ _ _ =>
       Ok {| vc_id := u_id unsigned; vc_type := u_type unsigned;
             vc_holder := u_holder unsigned;
             vc_credentialSubject := u_credentialSubject unsigned;
             vc_proof := "proof" |};
     affinity_signListCredential := fun credential _ _ _ =>
       Ok {| slc_credential := credential; slc_proof := "proof";
             slc_issuanceDate := EmptyString |};
     affinity_signPresentation := fun vp _ _ challenge domain _ =>
       Ok (signedPresentation vp challenge domain);
     affinity_validatePresentation := fun vp _ =>
       if String.eqb vp EmptyString then Ok (ValidationFailed "empty presentation")
       else Ok (ValidationPassed
                  {| vp_id := "presentationId:00";
                     vp_holder := "did:elem:holder";
                     verifiableCredential := [];
                     proof := {| challenge := vp; domain := EmptyString |} |});
     revocation_buildRevocationListStatus := fun credentialId subjectDid _ history =>
       Ok {| credentialStatus := VStr "list#1";
             isPublisRequired :=
               match history with [] => true | _ => false end;
             bs_revocationListCredential := "list" |};
     revocation_revokeCredential := fun _ _ _ _ =>
       Ok {| rv_revocationListCredential := "list" |};
     revocation_publishRevocationListCredential := fun _ _ _ => Ok tt;
     cognito_signIn := fun _ _ username _ _ =>
       Ok {| accessToken := "access." +:+ username; idToken := "id" |};
     walletStorage_pullEncryptionKey := fun _ _ => Ok "key";
     walletStorage_storeEncryptedSeed := fun _ _ _ => store |}.

Definition env : Env := memberWith flakyStore.

Definition world : World :=
  {| trace := []; heap := []; cognitoUserTokens := None |}.

(** A current-form credential that lacks its issuance date. *)
Definition undatedCredential : SignedCredential :=
  {| sc_id := Some "claimId:63b5d11c0d1b5566";
     sc_type := ["Credential"; "EmailCredentialPersonV1"];
     issued := None; issuanceDate := None; claim := None;
     credentialSubject := Some "subject";
     sc_holder := Some "did:elem:holder" |}.

Definition emailCredential : SignedCredential :=
  {| sc_id := Some "claimId:aa11";
     sc_type := ["Credential"; "EmailCredentialPersonV1"];
     issued := None; issuanceDate := Some "2021-01-01T00:00:00.000Z";
     claim := None; credentialSubject := Some "subject";
     sc_holder := Some "did:elem:holder" |}.

Definition phoneParams : VCV1Unsigned :=
  {| u_context := ["https://www.w3.org/2018/credentials/v1"];
     u_id := EmptyString;
     u_type := ["VerifiableCredential"; "PhoneCredentialPersonV1"];
     u_holder := "did:elem:holder";
     u_credentialSubject := "subject";
     u_issuanceDate := "2021-01-01T00:00:00.000Z";
     u_expirationDate := None |}.

Definition emailVC : VCV1 :=
  {| vc_id := "claimId:aa11";
     vc_type := ["VerifiableCredential"; "EmailCredentialPersonV1"];
     vc_holder := "did:elem:holder";
     vc_credentialSubject := "subject"; vc_proof := "proof" |}.

Definition phoneVC : VCV1 :=
  {| vc_id := "claimId:bb22";
     vc_type := ["VerifiableCredential"; "PhoneCredentialPersonV1"];
     vc_holder := "did:elem:holder";
     vc_credentialSubject := "subject"; vc_proof := "proof" |}.

(** An unsigned credential at location 2: its context array is at
    location 0 and its holder object at location 1. *)
Definition credentialFields : gmap string Val :=
  <["@context" := VRef 0]>
    (<["id" := VStr "credId:1"]> (<["holder" := VRef 1]> ∅)).

Definition credentialHeap (context : list Val) : list Cell :=
  [ CArr context;
    CObj {[ "id" := VStr "did:elem:holder" ]};
    CObj credentialFields ].

Definition credentialsContext : Val :=
  VStr "https://www.w3.org/2018/credentials/v1".

Definition issuing (context : list Val) : World :=
  {| trace := []; heap := credentialHeap context; cognitoUserTokens := None |}.

(** A verifier's lookup of the request it sent under a nonce. *)
Definition requestByNonce (requestNonce : string) : Oracle (JsOpt string) :=
  fun _ =>
    if String.eqb requestNonce "nonce-2" then Ok (Value "jwt.email.request")
    else Ok Undefined.

End Demo.

(** * Specifications *)

(** The parameter rules of [createCredentialShareResponseToken]. *)
Definition shareResponseRules (credentialShareRequestToken : string)
    (suppliedCredentials : list SignedCredential) : list ParamRule :=
  [ jwtRule true (PString credentialShareRequestToken);
    {| isArray := true; type := TClass "SignedCredential"; isRequired := true;
       value := PSignedCredentials suppliedCredentials |} ].

(** The parameter rules of [signCredentials]. *)
Definition signCredentialsRules (credentialOfferResponseToken : string)
    (credentialParams : list VCV1Unsigned) : list ParamRule :=
  [ jwtRule true (PString credentialOfferResponseToken);
    {| isArray := true; type := TObject; isRequired := true;
       value := PUnsignedCredentials credentialParams |} ].

(** The structural check on one credential: a legacy credential (one with a
    [claim]) needs [issued]; a current one needs [issuanceDate] and
    [credentialSubject]. *)
Definition structureOk (c : SignedCredential) : bool :=
  if isDefined (claim c) then isDefined (issued c)
  else isDefined (issuanceDate c) && isDefined (credentialSubject c).

(** The messages one credential adds to the error list. *)
Definition errorsOfCredential (c : SignedCredential) : list string :=
  if isDefined (claim c) then
    if isDefined (issued c) then [] else [missingParameter "issued"]
  else
    (if isDefined (issuanceDate c) then [] else [missingParameter "issuanceDate"])
    ++ (if isDefined (credentialSubject c) then []
        else [missingParameter "credentialSubject"]).

Definition structureMessages : list string :=
  [ missingParameter "issued"; missingParameter "issuanceDate";
    missingParameter "credentialSubject" ].

(** An error list names the offending credentials when the identifier of
    every failing credential occurs in one of its entries. *)
Definition enumeratesIdentifiers (errors : list string)
    (credentials : list SignedCredential) : Prop :=
  forall c id, c ∈ credentials -> structureOk c = false -> sc_id c = Some id ->
    exists message, message ∈ errors /\ stringIncludes message id = true.

(** A request's constraints applied to the supplied credentials: those whose
    second type tag is among the request's credential types. *)
Definition matchingCredentials (env : Env) (request : JwtObject)
    (supplied : list SignedCredential) : list SignedCredential :=
  List.filter (fun c => includes (getCredentialTypes env request)
                                 (sc_type c !! 1%nat))
              supplied.

(** What the share response builder is handed, and what becomes of its
    answer. *)
Definition signAndEncode (env : Env) (response : Result JwtObject)
    : Result string :=
  match response with
  | Ok credentialResponse =>
      match signJWT env credentialResponse (Some (didDocumentKeyId env)) with
      | Ok signedObject => encodeObjectToJWT env signedObject
      | Err e => Err e
      end
  | Err e => Err e
  end.

Definition noMatchingCredentialsError (credentialOfferResponseToken : string)
    (credentialParams : list VCV1Unsigned) : Thrown :=
  SdkError "COR-22"
    (CtxOfferSigning credentialOfferResponseToken credentialParams) None.

(** The parameter rules of [verifyCredentialShareResponseToken]. *)
Definition verifyShareResponseRules (credentialShareResponseToken : string)
    (credentialShareRequestToken : JsOpt string) (shouldOwn : bool)
    : list ParamRule :=
  [ jwtRule true (PString credentialShareResponseToken);
    jwtRule false (ofJsOpt PString credentialShareRequestToken);
    {| isArray := false; type := TBoolean; isRequired := false;
       value := PBoolean shouldOwn |} ].

(** Whether [JwtService.fromJWT] returns on a value. *)
Definition decodes (env : Env) (token : JsOpt string) : bool :=
  match fromJWTValue env token with Ok _ => true | Err _ => false end.

(** Verification once the request token is known: the holder service checks
    the response against it, metrics are sent for a valid response outside
    the test environment, and the service's answer is returned. *)
Definition verifyAgainstRequest (env : Env) (credentialShareResponseToken : string)
    (credentialShareRequestToken : JsOpt string) (shouldOwn : bool)
    : M CredentialShareResponseOutput :=
  let! response :=
    call (EvVerifyCredentialShareResponse credentialShareResponseToken
            credentialShareRequestToken shouldOwn)
         (holder_verifyCredentialShareResponse env credentialShareResponseToken
            credentialShareRequestToken shouldOwn) in
  let! _ :=
    if sv_isValid response && negb (isTestEnvironment env)
    then _sendVCVerifiedPerPartyMetrics env (sv_suppliedCredentials response)
    else ret tt in
  ret {| isValid := sv_isValid response; out_did := sv_did response;
         out_nonce := sv_jti response;
         out_suppliedCredentials := sv_suppliedCredentials response;
         out_errors := sv_errors response |}.

(** The parameter rules of [createPresentationFromChallenge]. *)
Definition presentationRules (challenge : string) (vcs : list VCV1)
    : list ParamRule :=
  [ jwtRule true (PString challenge);
    {| isArray := true; type := TVCV1; isRequired := true; value := PVCs vcs |} ].

(** The credentials of [vcs] that answer a decoded challenge. *)
Definition requestedCredentials (env : Env) (decodedChallenge : JwtObject)
    (vcs : list VCV1) : list VCV1 :=
  List.filter
    (fun vc => includes (getCredentialTypes env decodedChallenge)
                        (vc_type vc !! 1%nat))
    vcs.

(** The output built from the holder service's answer. *)
Definition outputOf (response : ShareVerification)
    : CredentialShareResponseOutput :=
  {| isValid := sv_isValid response; out_did := sv_did response;
     out_nonce := sv_jti response;
     out_suppliedCredentials := sv_suppliedCredentials response;
     out_errors := sv_errors response |}.

(** [value.key] read off a heap, [undefined] when [value] has no such
    property. *)
Definition readProperty (h : list Cell) (value : Val) (key : string) : Val :=
  match value with
  | VRef l =>
      match h !! l with
      | Some (CObj fields) => default VUndefined (fields !! key)
      | _ => VUndefined
      end
  | _ => VUndefined
  end.

(** The signed list credential as it is published: stamped with the time
    read after signing. *)
Definition stamped (env : Env) (signed : SignedListCredential)
    (history : list Event) : SignedListCredential :=
  {| slc_credential := slc_credential signed;
     slc_proof := slc_proof signed;
     slc_issuanceDate := toISOString env (dateNow env history) |}.

(** The calls that signing and publishing a list credential makes, from a
    given history: when signing fails nothing is published. *)
Definition publicationEvents (env : Env) (listCredential token : string)
    (history : list Event) : list Event :=
  match
    affinity_signListCredential env listCredential (_encryptedSeed env)
      (_password env) history
  with
  | Ok signed =>
      [ EvSignListCredential listCredential;
        EvDateNow;
        EvPublishRevocationListCredential
          (stamped env signed (history ++ [EvSignListCredential listCredential]))
          token ]
  | Err _ => [ EvSignListCredential listCredential ]
  end.

(** The calls of [revokeCredential], from a given history. *)
Definition revocationEvents (env : Env) (credentialId reason token : string)
    (history : list Event) : list Event :=
  EvRevokeCredential credentialId reason token ::
  match revocation_revokeCredential env credentialId reason token history with
  | Ok response =>
      publicationEvents env (rv_revocationListCredential response) token
        (history ++ [EvRevokeCredential credentialId reason token])
  | Err _ => []
  end.

(** How often the revocation-list context occurs in a context array. *)
Definition revocationContextCount (context : list Val) : nat :=
  length (List.filter
            (fun v => match v with
                      | VStr s => String.eqb s revocationListContext
                      | _ => false
                      end) context).

(** The shape of a credential that [buildRevocationListStatus] can extend:
    an object whose ["@context"] property refers to an array. *)
Definition credentialAt (w : World) (l : loc) (fields : gmap string Val)
    (a : loc) (context : list Val) : Prop :=
  heap w !! l = Some (CObj fields)
  /\ fields !! "@context" = Some (VRef a)
  /\ heap w !! a = Some (CArr context).

(** The heap once the status is attached: a new object at the end, and the
    context array, the one the input refers to, extended in place. *)
Definition revokableHeap (h : list Cell) (fields : gmap string Val) (a : loc)
    (context : list Val) (status : Val) : list Cell :=
  <[a := CArr (context ++ [VStr revocationListContext])]>
    (h ++ [CObj (<["credentialStatus" := status]> fields)]).

(** The steps of [storeEncryptedSeed] that come before the retried call:
    they settle the access token, the seed and the encryption key. *)
Definition prepareStore (env : Env) (username password : string)
    (token : option string) : M (string * string * string) :=
  let! _ := validateParams env
    [ {| isArray := false; type := TString; isRequired := true;
         value := PString username |};
      {| isArray := false; type := TString; isRequired := true;
         value := PString password |};
      jwtRule false (ofOption PString token) ] in
  let signIn : M string :=
    let password := normalizeShortPassword env password username in
    let! tokens :=
      call (EvCognitoSignIn username password)
           (cognito_signIn env (userPoolId env) (clientId env)
                           username password) in
    let! w := getWorld in
    let! _ := putWorld (setCognitoUserTokens tokens w) in
    ret (accessToken tokens) in
  let! accessToken :=
    match token with
    | Some t => if negb (truthyString t) then signIn else ret t
    | None => signIn
    end in
  let! seedHexWithMethod := lift (decryptSeed env) in
  let! encryptionKey :=
    call (EvPullEncryptionKey accessToken)
         (walletStorage_pullEncryptionKey env accessToken) in
  ret (accessToken, seedHexWithMethod, encryptionKey).

(** A world after some more calls. *)
Definition logEvents (evs : list Event) (w : World) : World :=
  {| trace := trace w ++ evs; heap := heap w;
     cognitoUserTokens := cognitoUserTokens w |}.

(** An error that is not to be retried: its code is COR-1 or WAL-2. *)
Definition nonRetryable (e : Thrown) : bool :=
  match errorCode e with
  | Some code => String.eqb code "COR-1" || String.eqb code "WAL-2"
  | None => false
  end.

(** An outcome of the store call after which [retry] runs it again, if
    retries are left: a failure whose code is neither COR-1 nor WAL-2. *)
Definition retryable (outcome : Result unit) : bool :=
  match outcome with
  | Ok _ => false
  | Err e => negb (nonRetryable e)
  end.

(** What the caller gets when the store call ends the retries with a given
    outcome: nothing, or the error itself if its code is COR-1 or WAL-2, or
    the error wrapped as COR-18. *)
Definition settled (accessToken : string) (outcome : Result unit)
    : Result unit :=
  match outcome with
  | Ok _ => Ok tt
  | Err e =>
      if nonRetryable e then Err e
      else Err (SdkError "COR-18" (CtxAccessToken accessToken) (Some e))
  end.

(** * Further operations of the member *)

(** [getShareCredential]: the credentials of [options.credentials] that a
    share request asks for. *)
Definition getShareCredential (env : Env) (credentialShareRequestToken : string)
    (credentials : list SignedCredential) : Result (list SignedCredential) :=
  match fromJWT env credentialShareRequestToken with
  | Ok credentialShareRequest =>
      let types := getCredentialTypes env credentialShareRequest in
      let filteredCredentials :=
        List.filter (fun cred => includes types (sc_type cred !! 1%nat))
                    credentials in
      Ok filteredCredentials
  | Err e => Err e
  end.

(** [generatePresentationChallenge]: a share request signed without a key
    identifier. *)
Definition generatePresentationChallenge (env : Env)
    (credentialRequirements : list CredentialRequirement)
    (issuerDid : JsOpt string) (options : option JwtOptions) : M string :=
  let! _ := validateParams env
    [ {| isArray := true; type := TClass "CredentialRequirement";
         isRequired := true; value := PRequirements credentialRequirements |};
      {| isArray := false; type := TDid; isRequired := false;
         value := ofJsOpt PString issuerDid |};
      jwtOptionsRule options ] in
  let params :=
    match options with
    | Some o =>
        {| p_credentialRequirements := credentialRequirements;
           p_issuerDid := issuerDid;
           p_audienceDid := audienceDid o; p_expiresAt := expiresAt o;
           p_nonce := nonce o; p_callbackUrl := callbackUrl o |}
    | None =>
        {| p_credentialRequirements := credentialRequirements;
           p_issuerDid := issuerDid;
           p_audienceDid := None; p_expiresAt := None;
           p_nonce := None; p_callbackUrl := None |}
    end in
  let! credentialShareRequest :=
    call (EvBuildCredentialRequest params)
         (verifierApi_BuildCredentialRequest env params) in
  let! signedObject := lift (signJWT env credentialShareRequest None) in
  lift (encodeObjectToJWT env signedObject).

(** ** Keys, DID documents and accounts *)

(** The operations below touch none of the state of the share and
    revocation flows; they have their own log of calls and, since their
    errors carry other contexts, their own thrown values. *)
Module Account.

(** The [context] of an [SdkError] as the properties it is built from. *)
#[warnings="-register-all"]
Inductive Failure :=
| SdkFailure (code : string) (context : list (string * string))
             (originalError : option Failure)
| JsFailure (name message : string) (code : option string).

(** [error.code] *)
Definition failureCode (e : Failure) : option string :=
  match e with
  | SdkFailure c _ _ => Some c
  | JsFailure _ _ c => c
  end.

Inductive Outcome (A : Type) : Type :=
| Done (a : A)
| Failed (e : Failure).
Arguments Done {A} a.
Arguments Failed {A} e.

Record DidDocument := {
  dd_id : string;
  dd_content : string
}.

Record KeyParams := {
  kp_encryptedSeed : string;
  kp_password : string
}.

(** What [KeysService.decryptSeed] returns. *)
Record DecryptedSeed := {
  seedHex : string;
  didMethod : string;
  seedHexWithMethod : string
}.

Record SdkOptions := {
  opt_env : option string;
  opt_didMethod : option string;
  opt_skipBackupEncryptedSeed : bool
}.

Record MessageParameters := {
  mp_message : string;
  mp_subject : option string;
  mp_htmlMessage : option string
}.

(** What [validateUsername] finds out about a username. *)
Record UsernameKind := {
  isUsername : bool;
  isEmailValid : bool;
  isPhoneNumberValid : bool
}.

(** A value in the [params] of a registry API call. *)
Inductive ApiValue :=
| ANumber (n : Z)
| AString (s : string)
| ADocument (d : DidDocument).

(** The [body] of a registry API answer. *)
Record ApiBody := {
  body_hash : string;
  body_digestHex : JsOpt string;
  body_transactionCount : Z
}.

Inductive Argument :=
| ArgUndefined
| ArgNull
| ArgString (s : string)
| ArgOptions (o : SdkOptions)
| ArgMessage (m : MessageParameters)
| ArgDocument (d : DidDocument).

Record Rule := {
  rule_isArray : bool;
  rule_type : string;
  rule_isRequired : bool;
  rule_value : Argument
}.

Definition argOfOption {A} (f : A -> Argument) (x : option A) : Argument :=
  match x with Some a => f a | None => ArgUndefined end.

Definition argOfJsOpt {A} (f : A -> Argument) (x : JsOpt A) : Argument :=
  match x with Value a => f a | Null => ArgNull | Undefined => ArgUndefined end.

Inductive Call :=
| CallRandomBytes (size : nat)
| CallSignDidDocument (didDocument : DidDocument)
| CallCreateTransactionSignature (digestHex seedHex : string)
| CallRegistry (operation : string) (params : list (string * ApiValue))
| CallConsoleLog (message : string) (error : Failure)
| CallCognitoSignUp (username password : string)
                    (messageParameters : option MessageParameters)
| CallCognitoConfirmSignUp (username confirmationCode : string)
| CallAdminConfirmUser (username : string)
| CallFetchAllDecryptedCredentials.

(** The log of calls, and the [_credentials] field of a wallet. *)
Record State := {
  calls : list Call;
  _credentials : list SignedCredential
}.

Definition logCall (c : Call) (st : State) : State :=
  {| calls := calls st ++ [c]; _credentials := _credentials st |}.

Definition setCredentials (credentials : list SignedCredential) (st : State)
    : State :=
  {| calls := calls st; _credentials := credentials |}.

Definition P (A : Type) : Type := State -> Outcome A * State.

Definition pret {A} (a : A) : P A := fun st => (Done a, st).

Definition pthrow {A} (e : Failure) : P A := fun st => (Failed e, st).

Definition pbind {A B} (m : P A) (k : A -> P B) : P B :=
  fun st =>
    match m st with
    | (Done a, st') => k a st'
    | (Failed e, st') => (Failed e, st')
    end.

Notation "'do!' x ':=' m 'in' k" := (pbind m (fun x => k))
  (at level 10, x name, m at level 200, k at level 200).

Definition ptry {A} (m : P A) (handler : Failure -> P A) : P A :=
  fun st =>
    match m st with
    | (Done a, st') => (Done a, st')
    | (Failed e, st') => handler e st'
    end.

Definition plift {A} (r : Outcome A) : P A := fun st => (r, st).

Definition Answer (A : Type) : Type := list Call -> Outcome A.

Definition pcall {A} (c : Call) (answer : Answer A) : P A :=
  fun st => (answer (calls st), logCall c st).

(** [console.log(message, error)] *)
Definition consoleLog (message : string) (error : Failure) : P unit :=
  fun st => (Done tt, logCall (CallConsoleLog message error) st).

(** The member's keys and the services of this part of the SDK.  The DID
    methods are constants of a configuration module, the validators and the
    wallet storage and Cognito services are modules of the SDK, and the keys
    service is a library: none is part of the sources at hand, and all are
    parameters.  The registry, Cognito and wallet storage services stand for
    the ones that the functions set up from their [options]; the options
    themselves are only handed on. *)
Record Services := {
  ELEM_DID_METHOD : string;
  SUPPORTED_DID_METHODS : list string;
  member_did : string;
  member_encryptedSeed : string;
  member_password : string;
  validateRules : list Rule -> option Failure;
  validateUsername : string -> UsernameKind;
  normalizeShortPassword : string -> string -> string;
  decryptSeed : string -> string -> Outcome DecryptedSeed;
  getAnchorTransactionPublicKey : string -> string -> string;
  signDidDocument : string -> string -> DidDocument -> Answer DidDocument;
  createTransactionSignature :
    string -> string -> string -> string -> Answer string;
  registry_execute : string -> list (string * ApiValue) -> Answer ApiBody;
  randomBytesHex : nat -> Answer string;
  cognito_signUp :
    string -> string -> option MessageParameters -> Answer unit;
  cognito_confirmSignUp : string -> string -> Answer unit;
  walletStorage_adminConfirmUser : string -> Answer unit;
  walletStorage_fetchAllDecryptedCredentials : Answer (list SignedCredential);
  walletStorage_filterCredentials :
    string -> list SignedCredential -> Outcome (list SignedCredential)
}.

Definition validateAll (sv : Services) (rules : list Rule) : P unit :=
  match validateRules sv rules with
  | Some e => pthrow e
  | None => pret tt
  end.

(** *** Keys *)

(** [_validateKeys]: the seed must decrypt, to a supported DID method. *)
Definition _validateKeys (sv : Services) (keyParams : KeyParams)
    : Outcome unit :=
  match decryptSeed sv (kp_encryptedSeed keyParams) (kp_password keyParams) with
  | Failed error => Failed (SdkFailure "COR-24" [] (Some error))
  | Done keys =>
      let didMethod := didMethod keys in
      if negb (includes (SUPPORTED_DID_METHODS sv) didMethod)
      then
        let supportedDidMethods :=
          String.concat ", " (SUPPORTED_DID_METHODS sv) in
        Failed (SdkFailure "COR-25"
                  [("didMethod", didMethod);
                   ("supportedDidMethods", supportedDidMethods)] None)
      else Done tt
  end.

(** *** Anchoring a DID *)

Definition anchorDid (sv : Services) (encryptedSeed password : string)
    (didDocument : DidDocument) (nonce : Z) : P unit :=
  let did := dd_id didDocument in
  do! keys := plift (decryptSeed sv encryptedSeed password) in
  let seedHex := seedHex keys in
  let didMethod := didMethod keys in
  do! _ :=
    if negb (String.eqb didMethod (ELEM_DID_METHOD sv))
    then
      do! signedDidDocument :=
        pcall (CallSignDidDocument didDocument)
              (signDidDocument sv encryptedSeed password didDocument) in
      do! bodyDidDocument :=
        pcall (CallRegistry "PutDocumentInIpfs"
                 [("document", ADocument signedDidDocument)])
              (registry_execute sv "PutDocumentInIpfs"
                 [("document", ADocument signedDidDocument)]) in
      let didDocumentAddress := body_hash bodyDidDocument in
      let transactionParams :=
        [("nonce", ANumber nonce); ("did", AString did);
         ("didDocumentAddress", AString didDocumentAddress)] in
      do! body :=
        pcall (CallRegistry "CreateAnchorTransaction" transactionParams)
              (registry_execute sv "CreateAnchorTransaction" transactionParams) in
      do! transactionSignatureJson :=
        match body_digestHex body with
        | Value digestHex =>
            if truthyString digestHex && negb (String.eqb digestHex EmptyString)
            then pcall (CallCreateTransactionSignature digestHex seedHex)
                       (createTransactionSignature sv encryptedSeed password
                          digestHex seedHex)
            else pret EmptyString
        | _ => pret EmptyString
        end in
      let ethereumPublicKeyHex :=
        getAnchorTransactionPublicKey sv seedHex didMethod in
      let anchorParams :=
        [("did", AString did);
         ("didDocumentAddress", AString didDocumentAddress);
         ("ethereumPublicKeyHex", AString ethereumPublicKeyHex);
         ("transactionSignatureJson", AString transactionSignatureJson);
         ("nonce", ANumber nonce)] in
      do! _ :=
        pcall (CallRegistry "AnchorDid" anchorParams)
              (registry_execute sv "AnchorDid" anchorParams) in
      pret tt
    else pret tt in
  if String.eqb didMethod (ELEM_DID_METHOD sv)
  then
    let anchorParams :=
      [("did", AString did);
       ("didDocumentAddress", AString EmptyString);
       ("ethereumPublicKeyHex", AString EmptyString);
       ("transactionSignatureJson", AString EmptyString)] in
    ptry
      (do! _ :=
         pcall (CallRegistry "AnchorDid" anchorParams)
               (registry_execute sv "AnchorDid" anchorParams) in
       pret tt)
      (fun error => consoleLog "to check logs at the backend" error)
  else pret tt.

Definition updateDidDocument (sv : Services) (didDocument : DidDocument)
    : P unit :=
  do! _ := validateAll sv
    [ {| rule_isArray := false; rule_type := "object"; rule_isRequired := true;
         rule_value := ArgDocument didDocument |} ] in
  let did := dd_id didDocument in
  let isJoloMethod := String.prefix "did:jolo" did in
  if negb isJoloMethod
  then pthrow (SdkFailure "COR-20" [("did", did)] None)
  else
    let instanceDid := member_did sv in
    if negb (String.eqb instanceDid did)
    then pthrow (SdkFailure "COR-21"
                   [("did", did); ("instanceDid", instanceDid)] None)
    else
      do! keys :=
        plift (decryptSeed sv (member_encryptedSeed sv) (member_password sv)) in
      let ethereumPublicKeyHex :=
        getAnchorTransactionPublicKey sv (seedHex keys) (didMethod keys) in
      do! body :=
        pcall (CallRegistry "TransactionCount"
                 [("ethereumPublicKeyHex", AString ethereumPublicKeyHex)])
              (registry_execute sv "TransactionCount"
                 [("ethereumPublicKeyHex", AString ethereumPublicKeyHex)]) in
      let nonce := body_transactionCount body in
      anchorDid sv (member_encryptedSeed sv) (member_password sv) didDocument
                nonce.

(** *** Sign-up tokens *)

(** The pieces of [s] between the occurrences of a non-empty separator,
    scanned from the left; [skip] counts the characters of a separator just
    found that are still to be passed over. *)
Fixpoint splitFrom (separator s : string) (skip : nat) (piece : string)
    : list string :=
  match s with
  | EmptyString => [piece]
  | String c rest =>
      match skip with
      | S k => splitFrom separator rest k piece
      | O =>
          if String.prefix separator s
          then piece
               :: splitFrom separator rest (String.length separator - 1)
                    EmptyString
          else splitFrom separator rest 0 (piece +:+ String c EmptyString)
      end
  end.

(** [s.split(separator)]; an empty separator splits into characters. *)
Definition split (s separator : string) : list string :=
  match separator with
  | EmptyString =>
      map (fun c => String c EmptyString) (list_ascii_of_string s)
  | _ => splitFrom separator s 0 EmptyString
  end.

Definition isHexLetter (c : ascii) : bool :=
  let n := nat_of_ascii c in Nat.leb 97 n && Nat.leb n 102.

(** [s.replace(/[a-f]/, 'A')]: the first letter from a to f becomes [A]. *)
Fixpoint replaceFirstHexLetter (s : string) : string :=
  match s with
  | EmptyString => EmptyString
  | String c rest =>
      if isHexLetter c then String "A"%char rest
      else String c (replaceFirstHexLetter rest)
  end.

Record SignUpResult := {
  su_token : string;
  su_isUsername : bool
}.

Definition _signUp (sv : Services) (username : string)
    (password : JsOpt string) (options : option SdkOptions)
    (messageParameters : option MessageParameters) : P SignUpResult :=
  let isUsername := isUsername (validateUsername sv username) in
  let passwordMustBeProvided := if isUsername then true else false in
  do! _ := validateAll sv
    [ {| rule_isArray := false; rule_type := "string"; rule_isRequired := true;
         rule_value := ArgString username |};
      {| rule_isArray := false; rule_type := "password";
         rule_isRequired := passwordMustBeProvided;
         rule_value := argOfJsOpt ArgString password |};
      {| rule_isArray := false; rule_type := "SdkOptions";
         rule_isRequired := false;
         rule_value := argOfOption ArgOptions options |};
      {| rule_isArray := false; rule_type := "MessageParameters";
         rule_isRequired := false;
         rule_value := argOfOption ArgMessage messageParameters |} ] in
  do! randomPassword := pcall (CallRandomBytes 32) (randomBytesHex sv 32) in
  let normalizedPassword := replaceFirstHexLetter randomPassword in
  let password :=
    match password with
    | Value p => if truthyString p then p else normalizedPassword
    | _ => normalizedPassword
    end in
  let password := normalizeShortPassword sv password username in
  do! _ :=
    pcall (CallCognitoSignUp username password messageParameters)
          (cognito_signUp sv username password messageParameters) in
  let token := username +:+ "::" +:+ password in
  pret {| su_token := token; su_isUsername := isUsername |}.

(** [_confirmSignUpUser]: an arbitrary username is confirmed by the wallet
    storage service, an email or phone number by Cognito with the code.  The
    Cognito service object that it hands back to its caller is left out. *)
Definition _confirmSignUpUser (sv : Services) (token confirmationCode : string)
    (options : option SdkOptions) : P unit :=
  let username := default EmptyString (split token "::" !! 0%nat) in
  let isUsername := isUsername (validateUsername sv username) in
  if isUsername
  then pcall (CallAdminConfirmUser username)
             (walletStorage_adminConfirmUser sv username)
  else pcall (CallCognitoConfirmSignUp username confirmationCode)
             (cognito_confirmSignUp sv username confirmationCode).

Section StaticMethods.

(** The class that the static methods are called on: the type of its
    instances, and the methods that [this] resolves to. *)
Variable Member : Type.
Variable confirmSignUp : string -> string -> option SdkOptions -> P Member.
Variable completeLoginChallenge :
  string -> string -> option SdkOptions -> P Member.
Variable passwordlessLogin :
  string -> option SdkOptions -> option MessageParameters -> P string.

Inductive SignUpOutcome :=
| TokenToConfirm (token : string)
| SignedUp (member : Member).

Definition signUp (sv : Services) (username : string) (password : JsOpt string)
    (options : option SdkOptions)
    (messageParameters : option MessageParameters) : P SignUpOutcome :=
  do! result := _signUp sv username password options messageParameters in
  if negb (su_isUsername result)
  then pret (TokenToConfirm (su_token result))
  else
    do! member := confirmSignUp (su_token result) EmptyString options in
    pret (SignedUp member).

Definition signIn (sv : Services) (username : string)
    (options : option SdkOptions)
    (messageParameters : option MessageParameters) : P SignUpOutcome :=
  do! _ := validateAll sv
    [ {| rule_isArray := false; rule_type := "string"; rule_isRequired := true;
         rule_value := ArgString username |};
      {| rule_isArray := false; rule_type := "SdkOptions";
         rule_isRequired := false;
         rule_value := argOfOption ArgOptions options |};
      {| rule_isArray := false; rule_type := "MessageParameters";
         rule_isRequired := false;
         rule_value := argOfOption ArgMessage messageParameters |} ] in
  ptry
    (signUp sv username Null options messageParameters)
    (fun error =>
       if bool_decide (failureCode error = Some "COR-7")
       then
         do! token := passwordlessLogin username options messageParameters in
         pret (TokenToConfirm token)
       else pthrow error).

Record ConfirmSignInResult := {
  isNew : bool;
  commonNetworkMember : Member
}.

Definition confirmSignIn (sv : Services) (token confirmationCode : string)
    (options : option SdkOptions) : P ConfirmSignInResult :=
  do! _ := validateAll sv
    [ {| rule_isArray := false; rule_type := "string"; rule_isRequired := true;
         rule_value := ArgString token |};
      {| rule_isArray := false; rule_type := "confirmationCode";
         rule_isRequired := true; rule_value := ArgString confirmationCode |};
      {| rule_isArray := false; rule_type := "SdkOptions";
         rule_isRequired := false;
         rule_value := argOfOption ArgOptions options |} ] in
  let isSignUpToken :=
    match split token "::" !! 1%nat with Some _ => true | None => false end in
  if isSignUpToken
  then
    do! commonNetworkMember := confirmSignUp token confirmationCode options in
    pret {| isNew := true; commonNetworkMember := commonNetworkMember |}
  else
    do! commonNetworkMember :=
      completeLoginChallenge token confirmationCode options in
    pret {| isNew := false; commonNetworkMember := commonNetworkMember |}.

End StaticMethods.

(** *** The credentials of a wallet *)

Definition fetchAllCredentials (sv : Services) : P (list SignedCredential) :=
  do! credentials :=
    pcall CallFetchAllDecryptedCredentials
          (walletStorage_fetchAllDecryptedCredentials sv) in
  do! _ := (fun st => (Done tt, setCredentials credentials st)) in
  pret credentials.

Definition getCredentials (sv : Services)
    (credentialShareRequestToken : JsOpt string)
    (fetchBackupCredentials : bool) : P (list SignedCredential) :=
  do! credentials :=
    if fetchBackupCredentials then fetchAllCredentials sv
    else (fun st => (Done (_credentials st), st)) in
  if truthy credentialShareRequestToken
  then
    match credentialShareRequestToken with
    | Value token =>
        plift (walletStorage_filterCredentials sv token credentials)
    | _ => pret credentials
    end
  else pret credentials.

End Account.

(** ** Sample keys, registry and accounts *)

Module AccountSample.

Import Account.

Definition joloDocument : DidDocument :=
  {| dd_id := "did:jolo:6df6fd4a876dcd375fbc5d630e64e7529f27e9612aecbbbf3213861a2b0b6e9d";
     dd_content := "keys" |}.

Definition elemDocument : DidDocument :=
  {| dd_id := "did:elem:EiBOWH8368BI9NSaVZTmeJkxFRiQaWlUxnETM8OCkdKKvw";
     dd_content := "keys" |}.

(** A seed whose text names its DID method after [++]. *)
Definition decrypt (encryptedSeed password : string) : Outcome DecryptedSeed :=
  if String.eqb password "password"
  then
    Done {| seedHex := "5eed";
            didMethod :=
              if String.prefix "jolo" encryptedSeed then "jolo"
              else if String.prefix "elem" encryptedSeed then "elem"
              else "ethr";
            seedHexWithMethod := encryptedSeed |}
  else Failed (JsFailure "Error" "unable to decrypt" None).

(** A registry that is down for the operation [AnchorDid]. *)
Definition registry (operation : string) (params : list (string * ApiValue))
    : Answer ApiBody :=
  fun _ =>
    if String.eqb operation "AnchorDid"
    then Failed (JsFailure "Error" "registry is down" (Some "ECONNRESET"))
    else Done {| body_hash := "QmHash"; body_digestHex := Value "d1935";
                 body_transactionCount := 7 |}.

Definition workingRegistry (operation : string)
    (params : list (string * ApiValue)) : Answer ApiBody :=
  fun _ =>
    Done {| body_hash := "QmHash"; body_digestHex := Value "d1935";
            body_transactionCount := 7 |}.

Definition kindOf (username : string) : UsernameKind :=
  let isEmail := stringIncludes username "@" in
  let isPhone := String.prefix "+" username in
  {| isUsername := negb (isEmail || isPhone);
     isEmailValid := isEmail; isPhoneNumberValid := isPhone |}.

Definition servicesWith (did seed : string)
    (registryAnswer : string -> list (string * ApiValue) -> Answer ApiBody)
    (signUpAnswer : Answer unit) : Services :=
  {| ELEM_DID_METHOD := "elem";
     SUPPORTED_DID_METHODS := ["jolo"; "elem"];
     member_did := did;
     member_encryptedSeed := seed;
     member_password := "password";
     validateRules := fun _ => None;
     validateUsername := kindOf;
     normalizeShortPassword := fun password username =>
       if Nat.ltb (String.length password) 6 then password +:+ username
       else password;
     decryptSeed := decrypt;
     getAnchorTransactionPublicKey := fun seedHex didMethod =>
       "04" +:+ seedHex;
     signDidDocument := fun _ _ d _ =>
       Done {| dd_id := dd_id d; dd_content := dd_content d +:+ ".signed" |};
     createTransactionSignature := fun _ _ digestHex _ _ =>
       Done ("signature-of-" +:+ digestHex);
     registry_execute := registryAnswer;
     randomBytesHex := fun _ _ => Done "0123456789abcdef";
     cognito_signUp := fun _ _ _ => signUpAnswer;
     cognito_confirmSignUp := fun _ _ _ => Done tt;
     walletStorage_adminConfirmUser := fun _ _ => Done tt;
     walletStorage_fetchAllDecryptedCredentials := fun _ =>
       Done [Demo.emailCredential; Demo.undatedCredential];
     walletStorage_filterCredentials := fun token credentials =>
       if String.eqb token "garbage"
       then Failed (JsFailure "Error" "Token can not be decoded" None)
       else Done (List.filter (fun c => isDefined (issuanceDate c)) credentials)
  |}.

Definition services : Services :=
  servicesWith (dd_id joloDocument) "jolo-seed" workingRegistry
    (fun _ => Done tt).

(** A member of the sidetree network. *)
Definition elemServices : Services :=
  servicesWith (dd_id elemDocument) "elem-seed" registry (fun _ => Done tt).

(** A user pool in which every username is taken. *)
Definition takenServices : Services :=
  servicesWith (dd_id joloDocument) "jolo-seed" workingRegistry
    (fun _ => Failed (SdkFailure "COR-7" [] None)).

Definition fresh : State := {| calls := []; _credentials := [] |}.

End AccountSample.

(** ** More sample data *)

Module Sample.

Definition emailParams : VCV1Unsigned :=
  {| u_context := ["https://www.w3.org/2018/credentials/v1"];
     u_id := EmptyString;
     u_type := ["VerifiableCredential"; "EmailCredentialPersonV1"];
     u_holder := "did:elem:holder";
     u_credentialSubject := "email subject";
     u_issuanceDate := "2021-01-01T00:00:00.000Z";
     u_expirationDate := None |}.

Definition emailMetadata : ClaimMetadata :=
  {| cm_type := ["EmailCredentialPersonV1"];
     cm_context := ["https://schema.affinidi.com/EmailCredentialPersonV1"] |}.

Definition phoneCredential : SignedCredential :=
  {| sc_id := Some "claimId:cc33";
     sc_type := ["Credential"; "PhoneCredentialPersonV1"];
     issued := None; issuanceDate := Some "2021-01-01T00:00:00.000Z";
     claim := None; credentialSubject := Some "subject";
     sc_holder := Some "did:elem:holder" |}.

(** A response token that carries two credentials. *)
Definition verification : ShareVerification :=
  {| sv_isValid := true; sv_did := "did:elem:holder"; sv_jti := "nonce-2";
     sv_suppliedCredentials := [Demo.emailCredential; Demo.undatedCredential];
     sv_errors := [] |}.

(** A member whose library parses dates: an ISO date of the year 2020 lies
    before the clock of [Demo.env], any other string is no date.  Its holder
    service finds two credentials in every response, and its revocation
    service asks for a publish every time. *)
Definition datedMember : Env :=
  {| _encryptedSeed := _encryptedSeed Demo.env;
     _password := _password Demo.env;
     userPoolId := userPoolId Demo.env;
     clientId := clientId Demo.env;
     isTestEnvironment := isTestEnvironment Demo.env;
     validate := validate Demo.env;
     fromJWT := fromJWT Demo.env;
     signJWT := signJWT Demo.env;
     encodeObjectToJWT := encodeObjectToJWT Demo.env;
     decryptSeed := decryptSeed Demo.env;
     getMyDid := getMyDid Demo.env;
     getKeyId := getKeyId Demo.env;
     isW3cCredential := isW3cCredential Demo.env;
     normalizeShortPassword := fun password username =>
       if Nat.ltb (String.length password) 6 then password +:+ username
       else password;
     parseDid := parseDid Demo.env;
     dateGetTime := fun s =>
       if String.prefix "2020-" s then Some 1577836800000%Z else None;
     toISOString := toISOString Demo.env;
     hexOfBytes := hexOfBytes Demo.env;
     buildVPV1Unsigned := buildVPV1Unsigned Demo.env;
     buildVCV1Skeleton := buildVCV1Skeleton Demo.env;
     buildVCV1Unsigned := buildVCV1Unsigned Demo.env;
     parseVcMetadata := parseVcMetadata Demo.env;
     dateNow := dateNow Demo.env;
     randomBytes := randomBytes Demo.env;
     verifierApi_BuildCredentialRequest :=
       verifierApi_BuildCredentialRequest Demo.env;
     holder_buildCredentialResponse := holder_buildCredentialResponse Demo.env;
     holder_verifyCredentialShareResponse := fun _ _ _ _ => Ok verification;
     holder_verifyPresentationChallenge :=
       holder_verifyPresentationChallenge Demo.env;
     affinity_signCredential := affinity_signCredential Demo.env;
     affinity_signListCredential := affinity_signListCredential Demo.env;
     affinity_signPresentation := affinity_signPresentation Demo.env;
     affinity_validatePresentation := affinity_validatePresentation Demo.env;
     revocation_buildRevocationListStatus := fun _ _ _ _ =>
       Ok {| credentialStatus := VStr "list#1"; isPublisRequired := true;
             bs_revocationListCredential := "list" |};
     revocation_revokeCredential := revocation_revokeCredential Demo.env;
     revocation_publishRevocationListCredential :=
       revocation_publishRevocationListCredential Demo.env;
     cognito_signIn := cognito_signIn Demo.env;
     walletStorage_pullEncryptionKey := walletStorage_pullEncryptionKey Demo.env;
     walletStorage_storeEncryptedSeed :=
       walletStorage_storeEncryptedSeed Demo.env |}.

End Sample.

(** * Further specifications *)

(** The second type tag, [type[1]]. *)
Definition secondTag (type : list string) : option string := type !! 1%nat.

(** The unsigned credentials that were handed to [Affinity.signCredential],
    in the order of the calls. *)
Fixpoint signingRequests (history : list Event) : list VCV1Unsigned :=
  match history with
  | [] => []
  | EvSignCredential unsigned :: rest => unsigned :: signingRequests rest
  | _ :: rest => signingRequests rest
  end.

(** The unsigned credential that [signCredential] has the credential
    library build: from the subject, the metadata's type and context, the
    holder, an identifier made of random bytes, the time of the clock as the
    issuance date, and the expiry date. *)
Definition credentialFor (env : Env) (credentialSubject : string)
    (claimMetadata : ClaimMetadata) (holderDid : string)
    (expirationDate : option string) (bytes : list Z) (now : Z)
    : VCV1Unsigned :=
  buildVCV1Unsigned env
    (buildVCV1Skeleton env
       {| sp_id := "claimId:" +:+ hexOfBytes env bytes;
          sp_credentialSubject := credentialSubject;
          sp_holder := holderDid;
          sp_type := cm_type claimMetadata;
          sp_context := cm_context claimMetadata |})
    (toISOString env now)
    expirationDate.

(** The expiry date of a credential signed for [expiresAt]: the date in ISO
    form, none without [expiresAt] or for the empty string. *)
Definition expirationOf (env : Env) (expiresAt : option string)
    : option string :=
  match expiresAt with
  | Some expiry =>
      if truthyString expiry
      then match isoOfDateString env expiry with
           | Ok iso => Some iso
           | Err _ => None
           end
      else None
  | None => None
  end.

(** Whose credential [signCredential] signs: the issuer of the offer
    response token if a token is given, else [requesterDid]. *)
Definition requesterIs (env : Env) (input : SignCredentialOptionalInput)
    (requester : JsOpt string) : Prop :=
  if truthy (soi_credentialOfferResponseToken input)
  then exists response,
         fromJWTValue env (soi_credentialOfferResponseToken input) = Ok response
         /\ requester = Value (iss (payload response))
  else requester = requesterDid input.

(** An unsigned credential as [signCredential] builds it for its
    arguments. *)
Definition builtBy (env : Env) (credentialSubject : string)
    (claimMetadata : ClaimMetadata) (input : SignCredentialOptionalInput)
    (expiresAt : option string) (u : VCV1Unsigned) : Prop :=
  exists requester holderDid bytes now,
    requesterIs env input requester
    /\ parseDid env requester = Ok holderDid
    /\ u = credentialFor env credentialSubject claimMetadata holderDid
             (expirationOf env expiresAt) bytes now.



(** The parameter rules of [signCredential]. *)
Definition signCredentialRules (credentialSubject : string)
    (claimMetadata : ClaimMetadata)
    (signCredentialOptionalInput : SignCredentialOptionalInput)
    (expiresAt : option string) : list ParamRule :=
  [ {| isArray := false; type := TObject; isRequired := true;
       value := PString credentialSubject |};
    {| isArray := false; type := TClass "ClaimMetadata"; isRequired := true;
       value := PClaimMetadata claimMetadata |};
    {| isArray := false; type := TClass "SignCredentialOptionalInput";
       isRequired := true; value := PSignInput signCredentialOptionalInput |};
    {| isArray := false; type := TIsoString; isRequired := false;
       value := ofOption PString expiresAt |} ].

(** The metrics events sent for verified credentials. *)
Definition verifiedMetrics (env : Env) (credentials : list SignedCredential)
    : list Event :=
  map (fun credential =>
         EvMetricsSend (sc_id credential) (did env)
                       (parseVcMetadata env credential))
      credentials.

(** The parameter rules of [storeEncryptedSeed]. *)
Definition storeSeedRules (username password : string) (token : option string)
    : list ParamRule :=
  [ {| isArray := false; type := TString; isRequired := true;
       value := PString username |};
    {| isArray := false; type := TString; isRequired := true;
       value := PString password |};
    jwtRule false (ofOption PString token) ].

(** Calls of the wallet storage service that [storeEncryptedSeed] makes with
    a given access token. *)
Definition isStorageCallWith (token : string) (ev : Event) : bool :=
  match ev with
  | EvPullEncryptionKey t => String.eqb t token
  | EvStoreEncryptedSeed t _ _ => String.eqb t token
  | _ => false
  end.

(** A computation that never calls [Affinity.signCredential]. *)
Definition quiet {A} (m : M A) : Prop :=
  forall w, signingRequests (trace (snd (m w))) = signingRequests (trace w).

(** A computation that either fails without a call to
    [Affinity.signCredential], or makes exactly one, for a credential of the
    given kind. *)
Definition signsOnce {A} (kind : VCV1Unsigned -> Prop) (m : M A) : Prop :=
  forall w,
    (signingRequests (trace (snd (m w))) = signingRequests (trace w)
     /\ exists e, fst (m w) = Err e)
    \/ (exists u,
          signingRequests (trace (snd (m w)))
          = signingRequests (trace w) ++ [u]
          /\ kind u).

(** A computation that fails, and never calls [Affinity.signCredential]. *)
Definition failsQuietly {A} (m : M A) : Prop :=
  forall w,
    signingRequests (trace (snd (m w))) = signingRequests (trace w)
    /\ exists e, fst (m w) = Err e.

(** The error of [signCredential] for an expiry date that has passed. *)
Definition expiryError : Thrown :=
  JsError "Error" "Expiry date should be greater than current date" None.

(** [storeEncryptedSeed] from the point where the access token is known. *)
Definition storeWith (env : Env) (accessToken : string) : M unit :=
  let! seedHexWithMethod := lift (decryptSeed env) in
  let! encryptionKey :=
    call (EvPullEncryptionKey accessToken)
         (walletStorage_pullEncryptionKey env accessToken) in
  retry (storeAttempt env accessToken seedHexWithMethod encryptionKey) 3.

(** A run in which the member's tokens are [tokens] at the end and, after
    the calls [before], only the wallet storage service was called, with
    the access token [token]. *)
Definition storesUnder (w : World) (before : list Event) (token : string)
    (tokens : option CognitoUserTokens) (run : Result unit * World) : Prop :=
  cognitoUserTokens (snd run) = tokens
  /\ exists evs,
       trace (snd run) = trace w ++ before ++ evs
       /\ forallb (isStorageCallWith token) evs = true.

(** A run that begins by signing in to Cognito with the normalised
    password: the error of the sign-in ends it; otherwise the tokens
    received are kept by the member and their access token is used. *)
Definition signsInFirst (env : Env) (username password : string) (w : World)
    (run : Result unit * World) : Prop :=
  let normalized := normalizeShortPassword env password username in
  match
    cognito_signIn env (userPoolId env) (clientId env) username normalized
      (trace w)
  with
  | Err e => run = (Err e, logEvent (EvCognitoSignIn username normalized) w)
  | Ok tokens =>
      storesUnder w [EvCognitoSignIn username normalized] (accessToken tokens)
        (Some tokens) run
  end.

(** A string without a colon. *)
Fixpoint noColon (s : string) : bool :=
  match s with
  | EmptyString => true
  | String c rest => negb (Ascii.eqb c ":"%char) && noColon rest
  end.

(** The keys of a member decrypt to a DID method that is, or is not, the
    one of the sidetree network. *)
Definition seedMethod (sv : Account.Services) (encryptedSeed password : string)
    (keys : Account.DecryptedSeed) (isElem : bool) : Prop :=
  Account.decryptSeed sv encryptedSeed password = Account.Done keys
  /\ String.eqb (Account.didMethod keys) (Account.ELEM_DID_METHOD sv) = isElem.

(** The parameters of the registry's [AnchorDid] for a sidetree DID. *)
Definition elemAnchorParams (did : string)
    : list (string * Account.ApiValue) :=
  [("did", Account.AString did);
   ("didDocumentAddress", Account.AString EmptyString);
   ("ethereumPublicKeyHex", Account.AString EmptyString);
   ("transactionSignatureJson", Account.AString EmptyString)].

(** The parameter rule of [updateDidDocument]. *)
Definition updateDidDocumentRules (didDocument : Account.DidDocument)
    : list Account.Rule :=
  [ {| Account.rule_isArray := false; Account.rule_type := "object";
       Account.rule_isRequired := true;
       Account.rule_value := Account.ArgDocument didDocument |} ].

(** The parameter rules of [_signUp]. *)
Definition signUpRules (sv : Account.Services) (username : string)
    (password : JsOpt string) (options : option Account.SdkOptions)
    (messageParameters : option Account.MessageParameters)
    : list Account.Rule :=
  [ {| Account.rule_isArray := false; Account.rule_type := "string";
       Account.rule_isRequired := true;
       Account.rule_value := Account.ArgString username |};
    {| Account.rule_isArray := false; Account.rule_type := "password";
       Account.rule_isRequired :=
         if Account.isUsername (Account.validateUsername sv username)
         then true else false;
       Account.rule_value := Account.argOfJsOpt Account.ArgString password |};
    {| Account.rule_isArray := false; Account.rule_type := "SdkOptions";
       Account.rule_isRequired := false;
       Account.rule_value := Account.argOfOption Account.ArgOptions options |};
    {| Account.rule_isArray := false; Account.rule_type := "MessageParameters";
       Account.rule_isRequired := false;
       Account.rule_value :=
         Account.argOfOption Account.ArgMessage messageParameters |} ].

(** The parameter rules of [signIn]. *)
Definition signInRules (username : string)
    (options : option Account.SdkOptions)
    (messageParameters : option Account.MessageParameters)
    : list Account.Rule :=
  [ {| Account.rule_isArray := false; Account.rule_type := "string";
       Account.rule_isRequired := true;
       Account.rule_value := Account.ArgString username |};
    {| Account.rule_isArray := false; Account.rule_type := "SdkOptions";
       Account.rule_isRequired := false;
       Account.rule_value := Account.argOfOption Account.ArgOptions options |};
    {| Account.rule_isArray := false; Account.rule_type := "MessageParameters";
       Account.rule_isRequired := false;
       Account.rule_value :=
         Account.argOfOption Account.ArgMessage messageParameters |} ].

(** The parameter rules of [confirmSignIn]. *)
Definition confirmSignInRules (token confirmationCode : string)
    (options : option Account.SdkOptions) : list Account.Rule :=
  [ {| Account.rule_isArray := false; Account.rule_type := "string";
       Account.rule_isRequired := true;
       Account.rule_value := Account.ArgString token |};
    {| Account.rule_isArray := false; Account.rule_type := "confirmationCode";
       Account.rule_isRequired := true;
       Account.rule_value := Account.ArgString confirmationCode |};
    {| Account.rule_isArray := false; Account.rule_type := "SdkOptions";
       Account.rule_isRequired := false;
       Account.rule_value := Account.argOfOption Account.ArgOptions options |} ].

(** The share request signed as [generateCredentialShareRequestToken] and
    [generatePresentationChallenge] do, with a key identifier or none. *)
Definition signedWith (env : Env) (keyId : option string) (request : JwtObject)
    : Result string :=
  match signJWT env request keyId with
  | Ok signedObject => encodeObjectToJWT env signedObject
  | Err e => Err e
  end.

(** The parameter rules of the two share request builders. *)
Definition shareRequestRules
    (credentialRequirements : list CredentialRequirement)
    (issuerDid : JsOpt string) (options : option JwtOptions)
    : list ParamRule :=
  [ {| isArray := true; type := TClass "CredentialRequirement";
       isRequired := true; value := PRequirements credentialRequirements |};
    {| isArray := false; type := TDid; isRequired := false;
       value := ofJsOpt PString issuerDid |};
    jwtOptionsRule options ].

(** The [params] that both builders send to the verifier API. *)
Definition shareRequestParams
    (credentialRequirements : list CredentialRequirement)
    (issuerDid : JsOpt string) (options : option JwtOptions)
    : ShareRequestParams :=
  match options with
  | Some o =>
      {| p_credentialRequirements := credentialRequirements;
         p_issuerDid := issuerDid;
         p_audienceDid := audienceDid o; p_expiresAt := expiresAt o;
         p_nonce := nonce o; p_callbackUrl := callbackUrl o |}
  | None =>
      {| p_credentialRequirements := credentialRequirements;
         p_issuerDid := issuerDid;
         p_audienceDid := None; p_expiresAt := None;
         p_nonce := None; p_callbackUrl := None |}
  end.

(** The calls of [anchorDid] for a seed of another network than the
    sidetree one, when all of them succeed: the document is signed and
    stored, the anchor transaction is created and, if it has a digest,
    signed, and the DID is anchored. *)
Definition anchoringCalls (sv : Account.Services) (keys : Account.DecryptedSeed)
    (didDocument signedDidDocument : Account.DidDocument) (nonce : Z)
    (didDocumentAddress : string) (digestHex : JsOpt string)
    (transactionSignatureJson : string) : list Account.Call :=
  [ Account.CallSignDidDocument didDocument;
    Account.CallRegistry "PutDocumentInIpfs"
      [("document", Account.ADocument signedDidDocument)];
    Account.CallRegistry "CreateAnchorTransaction"
      [("nonce", Account.ANumber nonce);
       ("did", Account.AString (Account.dd_id didDocument));
       ("didDocumentAddress", Account.AString didDocumentAddress)] ]
  ++ match digestHex with
     | Value digest =>
         if String.eqb digest EmptyString then []
         else [Account.CallCreateTransactionSignature digest
                 (Account.seedHex keys)]
     | _ => []
     end
  ++ [ Account.CallRegistry "AnchorDid"
         [("did", Account.AString (Account.dd_id didDocument));
          ("didDocumentAddress", Account.AString didDocumentAddress);
          ("ethereumPublicKeyHex",
           Account.AString
             (Account.getAnchorTransactionPublicKey sv (Account.seedHex keys)
                (Account.didMethod keys)));
          ("transactionSignatureJson",
           Account.AString transactionSignatureJson);
          ("nonce", Account.ANumber nonce)] ].

(** The signature that [anchorDid] sends for a transaction digest: the keys
    service's signature of a digest that is there and not empty, the empty
    string otherwise. *)
Definition signedDigest (sv : Account.Services) (keys : Account.DecryptedSeed)
    (encryptedSeed password : string) (digestHex : JsOpt string)
    (history : list Account.Call) : Account.Outcome string :=
  match digestHex with
  | Value digest =>
      if String.eqb digest EmptyString then Account.Done EmptyString
      else Account.createTransactionSignature sv encryptedSeed password digest
             (Account.seedHex keys) history
  | _ => Account.Done EmptyString
  end.

(** The parameters of the registry's [CreateAnchorTransaction]. *)
Definition transactionParams (did : string) (nonce : Z)
    (didDocumentAddress : string) : list (string * Account.ApiValue) :=
  [("nonce", Account.ANumber nonce); ("did", Account.AString did);
   ("didDocumentAddress", Account.AString didDocumentAddress)].

(** The answers that [anchorDid] gets, from a given history of calls, for a
    seed of another network than the sidetree one: the signed document from
    the keys service, its storing and the anchor transaction from the
    registry, and the signature of the transaction's digest. *)
Definition anchoringAnswers (sv : Account.Services)
    (keys : Account.DecryptedSeed) (encryptedSeed password : string)
    (didDocument : Account.DidDocument) (nonce : Z)
    (history : list Account.Call)
    (signedDidDocument : Account.DidDocument)
    (stored transaction : Account.ApiBody) (signature : string) : Prop :=
  let sign := Account.CallSignDidDocument didDocument in
  let put :=
    Account.CallRegistry "PutDocumentInIpfs"
      [("document", Account.ADocument signedDidDocument)] in
  let create :=
    Account.CallRegistry "CreateAnchorTransaction"
      (transactionParams (Account.dd_id didDocument) nonce
         (Account.body_hash stored)) in
  Account.signDidDocument sv encryptedSeed password didDocument history
  = Account.Done signedDidDocument
  /\ Account.registry_execute sv "PutDocumentInIpfs"
       [("document", Account.ADocument signedDidDocument)] (history ++ [sign])
     = Account.Done stored
  /\ Account.registry_execute sv "CreateAnchorTransaction"
       (transactionParams (Account.dd_id didDocument) nonce
          (Account.body_hash stored))
       (history ++ [sign; put])
     = Account.Done transaction
  /\ signedDigest sv keys encryptedSeed password
       (Account.body_digestHex transaction) (history ++ [sign; put; create])
     = Account.Done signature.

(** A state after some more calls. *)
Definition logCalls (log : list Account.Call) (st : Account.State)
    : Account.State :=
  {| Account.calls := Account.calls st ++ log;
     Account._credentials := Account._credentials st |}.

(** What [getCredentials] returns of a list of credentials: the list
    itself, or with a share request token its filtering by the token. *)
Definition filteredBy (sv : Account.Services)
    (credentialShareRequestToken : JsOpt string)
    (credentials : list SignedCredential)
    : Account.Outcome (list SignedCredential) :=
  match credentialShareRequestToken with
  | Value token =>
      if truthyString token
      then Account.walletStorage_filterCredentials sv token credentials
      else Account.Done credentials
  | _ => Account.Done credentials
  end.

(** * Properties *)

(** ** Running the monad *)

Ltac unfold_monad :=
  unfold bind, ret, throw, lift, call, tryCatch, validateParams,
    fireAndForget, getWorld, putWorld in *.

Lemma bind_ok {A B} (m : M A) (k : A -> M B) w a w' :
  m w = (Ok a, w') -> bind m k w = k a w'.
Proof. intros H. unfold bind. now rewrite H. Qed.

Lemma bind_err {A B} (m : M A) (k : A -> M B) w e w' :
  m w = (Err e, w') -> bind m k w = (Err e, w').
Proof. intros H. unfold bind. now rewrite H. Qed.

Lemma bind_assoc {A B C} (m : M A) (k : A -> M B) (f : B -> M C) w :
  bind (bind m k) f w = bind m (fun x => bind (k x) f) w.
Proof. unfold bind. destruct (m w) as [[a|e] w']; reflexivity. Qed.

Lemma bind_ext {A B} (m : M A) (k1 k2 : A -> M B) w :
  (forall a w', k1 a w' = k2 a w') -> bind m k1 w = bind m k2 w.
Proof.
  intros H. unfold bind. destruct (m w) as [[a|e] w']; [apply H|reflexivity].
Qed.

Lemma validateParams_ok env rules w :
  validate env rules = None -> validateParams env rules w = (Ok tt, w).
Proof. intros H. unfold validateParams. now rewrite H. Qed.

(** ** The structural check of supplied credentials *)

Example stringIncludes_inside :
  stringIncludes "credential claimId:7" "claimId:7" = true.
Proof. reflexivity. Qed.

Example stringIncludes_absent :
  stringIncludes "credential" "claimId:7" = false.
Proof. reflexivity. Qed.

Lemma errorsOfCredential_nil c :
  errorsOfCredential c = [] <-> structureOk c = true.
Proof.
  unfold errorsOfCredential, structureOk.
  destruct (claim c), (issued c), (issuanceDate c), (credentialSubject c);
    simpl; split; intros H; try reflexivity; discriminate.
Qed.

Lemma structureErrors_flat_map credentials errors :
  structureErrors credentials errors
  = errors ++ flat_map errorsOfCredential credentials.
Proof.
  revert errors.
  induction credentials as [|c rest IH]; intros errors; simpl.
  - now rewrite app_nil_r.
  - unfold errorsOfCredential.
    destruct (isDefined (claim c)).
    + rewrite IH. destruct (isDefined (issued c)); simpl.
      * reflexivity.
      * now rewrite <- app_assoc.
    + rewrite IH.
      destruct (isDefined (issuanceDate c)), (isDefined (credentialSubject c));
        simpl; rewrite <- ?app_assoc; reflexivity.
Qed.

Lemma flat_map_errors_nil credentials :
  flat_map errorsOfCredential credentials = []
  <-> forallb structureOk credentials = true.
Proof.
  induction credentials as [|c rest IH]; simpl.
  - tauto.
  - rewrite andb_true_iff, <- IH, <- errorsOfCredential_nil.
    split.
    + intros H. apply app_eq_nil in H. exact H.
    + intros [H1 H2]. now rewrite H1, H2.
Qed.

Lemma errorsOfCredential_known c message :
  message ∈ errorsOfCredential c -> message ∈ structureMessages.
Proof.
  unfold errorsOfCredential, structureMessages.
  destruct (isDefined (claim c)), (isDefined (issued c)),
    (isDefined (issuanceDate c)), (isDefined (credentialSubject c));
    rewrite !list_elem_of_In; simpl; tauto.
Qed.

Lemma validateStructures_ok credentials :
  forallb structureOk credentials = true ->
  _validateSignedCredentialsSupportedStructures credentials = Ok tt.
Proof.
  intros H. unfold _validateSignedCredentialsSupportedStructures.
  rewrite structureErrors_flat_map. simpl.
  apply flat_map_errors_nil in H. now rewrite H.
Qed.

Lemma validateStructures_fail credentials :
  forallb structureOk credentials = false ->
  _validateSignedCredentialsSupportedStructures credentials
  = Err (SdkError "COR-1"
           (CtxStructures (flat_map errorsOfCredential credentials) credentials)
           None).
Proof.
  intros H. unfold _validateSignedCredentialsSupportedStructures.
  rewrite structureErrors_flat_map. simpl.
  destruct (flat_map errorsOfCredential credentials) eqn:E.
  - apply flat_map_errors_nil in E. congruence.
  - reflexivity.
Qed.

Lemma createShareResponse_invalid env token credentials w :
  validate env (shareResponseRules token credentials) = None ->
  forallb structureOk credentials = false ->
  createCredentialShareResponseToken env token credentials w
  = (Err (SdkError "COR-1"
            (CtxStructures (flat_map errorsOfCredential credentials) credentials)
            None), w).
Proof.
  intros Hv Hs. unfold createCredentialShareResponseToken.
  rewrite (bind_ok _ _ w tt w) by now apply validateParams_ok.
  apply bind_err. unfold lift. now rewrite validateStructures_fail.
Qed.

Lemma createShareResponse_valid env token credentials w :
  validate env (shareResponseRules token credentials) = None ->
  forallb structureOk credentials = true ->
  createCredentialShareResponseToken env token credentials w
  = (signAndEncode env
       (holder_buildCredentialResponse env token credentials (trace w)),
     logEvent (EvBuildCredentialResponse token credentials) w).
Proof.
  intros Hv Hs. unfold createCredentialShareResponseToken.
  rewrite (bind_ok _ _ w tt w) by now apply validateParams_ok.
  rewrite (bind_ok _ _ w tt w)
    by (unfold lift; now rewrite validateStructures_ok).
  unfold_monad. unfold signAndEncode.
  destruct (holder_buildCredentialResponse env token credentials (trace w));
    [|reflexivity].
  destruct (signJWT env a (Some (didDocumentKeyId env))); reflexivity.
Qed.

(** C2 (as the code has it).  When parameter validation has passed and at
    least one supplied credential fails the structural check,
    [createCredentialShareResponseToken] throws a COR-1 error and calls no
    collaborator.  Its error list is made, in the order of the credentials,
    of the messages of every failing credential, not only of the first: a
    credential contributes no message exactly when it passes.  Every message
    is one of three fixed texts that name the missing parameter, never the
    credential; the context of the error carries the whole supplied
    sequence. *)
Theorem structural_check_reports_every_failure
    env token (credentials : list SignedCredential) w :
  validate env (shareResponseRules token credentials) = None ->
  forallb structureOk credentials = false ->
  createCredentialShareResponseToken env token credentials w
  = (Err (SdkError "COR-1"
            (CtxStructures (flat_map errorsOfCredential credentials) credentials)
            None), w)
  /\ (forall c, errorsOfCredential c = [] <-> structureOk c = true)
  /\ (forall message, message ∈ flat_map errorsOfCredential credentials ->
        message ∈ structureMessages).
Proof.
  intros Hv Hs. split; [|split].
  - now apply createShareResponse_invalid.
  - apply errorsOfCredential_nil.
  - intros message H. apply list_elem_of_In, in_flat_map in H.
    destruct H as (c & _ & H). apply list_elem_of_In in H.
    now apply errorsOfCredential_known with c.
Qed.

Lemma structural_check_reports_every_failure_witness :
  createCredentialShareResponseToken Demo.env "jwt.email.request"
    [Demo.undatedCredential; Demo.emailCredential; Demo.undatedCredential]
    Demo.world
  = (Err (SdkError "COR-1"
            (CtxStructures
               [missingParameter "issuanceDate"; missingParameter "issuanceDate"]
               [Demo.undatedCredential; Demo.emailCredential;
                Demo.undatedCredential])
            None), Demo.world).
Proof.
  apply (structural_check_reports_every_failure Demo.env "jwt.email.request"
           [Demo.undatedCredential; Demo.emailCredential; Demo.undatedCredential]
           Demo.world); reflexivity.
Defined.

(** C2 as stated fails: the error list of the thrown COR-1 error does not
    contain the identifier of the offending credential. *)
Lemma error_list_omits_identifiers :
  exists errors,
    fst (createCredentialShareResponseToken Demo.env "jwt.email.request"
           [Demo.undatedCredential] Demo.world)
    = Err (SdkError "COR-1" (CtxStructures errors [Demo.undatedCredential]) None)
    /\ ~ enumeratesIdentifiers errors [Demo.undatedCredential].
Proof.
  exists [missingParameter "issuanceDate"]. split; [reflexivity|].
  intros H.
  destruct (H Demo.undatedCredential "claimId:63b5d11c0d1b5566")
    as (message & Hin & Hinc).
  - apply list_elem_of_In. now left.
  - reflexivity.
  - reflexivity.
  - apply list_elem_of_In in Hin. destruct Hin as [<-|[]].
    vm_compute in Hinc. discriminate.
Qed.

(** ** Building a share response; signing offered credentials *)

Lemma signOffered_none env token types params signed w :
  List.filter (isCredentialOffered types) params = [] ->
  signOffered env token types params signed w = (Ok signed, w).
Proof.
  induction params as [|u rest IH]; simpl; intros H.
  - reflexivity.
  - destruct (isCredentialOffered types u); simpl.
    + discriminate.
    + now apply IH.
Qed.

Lemma signOffered_length env token types params :
  forall signed w result w',
    signOffered env token types params signed w = (Ok result, w') ->
    length result
    = (length signed + length (List.filter (isCredentialOffered types) params))%nat.
Proof.
  induction params as [|u rest IH]; simpl; intros signed w result w' H.
  - unfold ret in H. injection H as <- _. lia.
  - destruct (isCredentialOffered types u); simpl in *.
    + unfold bind in H at 1.
      destruct (signCredential env _ _ _ _ w) as [[vc|e] w1]; [|discriminate].
      apply IH in H. rewrite H, length_app. simpl. lia.
    + now apply IH in H.
Qed.

Lemma signCredentials_decoded env token params w offerResponse :
  validate env (signCredentialsRules token params) = None ->
  fromJWT env token = Ok offerResponse ->
  signCredentials env token params w
  = bind (signOffered env token
            (map sel_type
               (selectedCredentials (interactionToken (payload offerResponse))))
            params [])
         (fun signedCredentials =>
            if Nat.eqb (length signedCredentials) 0
            then throw (noMatchingCredentialsError token params)
            else ret signedCredentials) w.
Proof.
  intros Hv Hd. unfold signCredentials.
  rewrite (bind_ok _ _ w tt w) by now apply validateParams_ok.
  rewrite (bind_ok _ _ w offerResponse w) by (unfold lift; now rewrite Hd).
  reflexivity.
Qed.

(** C1 (as the code has it).  [createCredentialShareResponseToken] does not
    filter: once its parameter validation and the structural check have
    passed, it hands the supplied credentials, all of them and unchanged, to
    the holder service's response builder, and its outcome is the builder's
    answer signed and encoded (or the error of one of these three steps); it
    throws no COR-22 of its own.  The error for "nothing left after
    filtering" belongs to [signCredentials]: it throws COR-22, without
    signing anything, when no credential parameter has a type among the types
    selected in the offer response, and what it returns otherwise has one
    signed credential per matching parameter. *)
Theorem share_response_forwards_unfiltered
    env token (credentials : list SignedCredential) w
    offerToken (params : list VCV1Unsigned) w2 offerResponse :
  validate env (shareResponseRules token credentials) = None ->
  forallb structureOk credentials = true ->
  validate env (signCredentialsRules offerToken params) = None ->
  fromJWT env offerToken = Ok offerResponse ->
  createCredentialShareResponseToken env token credentials w
  = (signAndEncode env
       (holder_buildCredentialResponse env token credentials (trace w)),
     logEvent (EvBuildCredentialResponse token credentials) w)
  /\ match
       List.filter
         (isCredentialOffered
            (map sel_type
               (selectedCredentials (interactionToken (payload offerResponse)))))
         params
     with
     | [] =>
         signCredentials env offerToken params w2
         = (Err (noMatchingCredentialsError offerToken params), w2)
     | offered =>
         match fst (signCredentials env offerToken params w2) with
         | Ok signed => length signed = length offered
         | Err _ => True
         end
     end.
Proof.
  intros Hv Hs Hv2 Hd. split.
  - now apply createShareResponse_valid.
  - rewrite (signCredentials_decoded _ _ _ _ _ Hv2 Hd).
    set (types := map sel_type _).
    destruct (List.filter (isCredentialOffered types) params) as [|u offered] eqn:E.
    + now rewrite (bind_ok _ _ w2 [] w2) by now apply signOffered_none.
    + unfold bind.
      destruct (signOffered env offerToken types params [] w2)
        as [[signed|e] w3] eqn:Hrun; [|exact I].
      apply signOffered_length in Hrun. rewrite E in Hrun. simpl in Hrun.
      destruct signed as [|vc signed]; [discriminate|].
      simpl. exact Hrun.
Qed.

Lemma share_response_forwards_unfiltered_witness :
  createCredentialShareResponseToken Demo.env "jwt.email.request"
    [Demo.emailCredential] Demo.world
  = (Ok "jwt.did:elem:holder.nonce-2",
     logEvent (EvBuildCredentialResponse "jwt.email.request"
                 [Demo.emailCredential]) Demo.world)
  /\ signCredentials Demo.env "jwt.offer.response" [Demo.phoneParams] Demo.world
     = (Err (noMatchingCredentialsError "jwt.offer.response" [Demo.phoneParams]),
        Demo.world).
Proof.
  apply (share_response_forwards_unfiltered Demo.env "jwt.email.request"
           [Demo.emailCredential] Demo.world
           "jwt.offer.response" [Demo.phoneParams] Demo.world
           Demo.offerResponse);
    reflexivity.
Defined.

(** C1 as stated fails: answering a DID-auth request supplies no credential,
    so nothing is left after filtering, and the response is built and signed
    all the same. *)
Lemma did_auth_response_is_built :
  fromJWT Demo.env "jwt.didauth.request" = Ok Demo.didAuthRequest
  /\ matchingCredentials Demo.env Demo.didAuthRequest [] = []
  /\ fst (createCredentialShareResponseToken Demo.env "jwt.didauth.request" []
            Demo.world)
     = Ok "jwt.did:elem:holder.nonce-1"
  /\ fst (createDidAuthResponse Demo.env "jwt.didauth.request" Demo.world)
     = Ok "jwt.did:elem:holder.nonce-1".
Proof. repeat split. Qed.

(** ** Verifying a share response through a resolver *)

Lemma verifyShareResponse_literal env responseToken requestToken shouldOwn w :
  validate env (verifyShareResponseRules responseToken requestToken
                  (default true shouldOwn)) = None ->
  verifyCredentialShareResponseToken env responseToken (RequestToken requestToken)
    shouldOwn w
  = verifyAgainstRequest env responseToken requestToken (default true shouldOwn) w.
Proof.
  intros Hv. unfold verifyCredentialShareResponseToken.
  rewrite (bind_ok _ _ w tt w) by now apply validateParams_ok.
  reflexivity.
Qed.

(** C3.  Called with a resolver, with parameters that validate and a response
    token that decodes, [verifyCredentialShareResponseToken] asks the
    resolver for the request under the response's [jti].  An error of the
    resolver itself is passed on.  When the resolver returns, COR-15 is
    thrown in exactly two cases, a falsy value or a token that does not
    decode, and the holder service is then never asked; otherwise
    verification goes on with the resolved token. *)
Theorem resolver_replay_protection
    env responseToken (resolve : string -> Oracle (JsOpt string)) shouldOwn w
    response :
  validate env (verifyShareResponseRules responseToken Undefined
                  (default true shouldOwn)) = None ->
  fromJWT env responseToken = Ok response ->
  verifyCredentialShareResponseToken env responseToken (RequestResolver resolve)
    shouldOwn w
  = let requestNonce := jti (payload response) in
    let w1 := logEvent (EvResolveRequest requestNonce) w in
    match resolve requestNonce (trace w) with
    | Err e => (Err e, w1)
    | Ok resolved =>
        if negb (truthy resolved) || negb (decodes env resolved)
        then (Err (replayProtectionError resolved), w1)
        else verifyAgainstRequest env responseToken resolved
               (default true shouldOwn) w1
    end.
Proof.
  intros Hv Hd. unfold verifyCredentialShareResponseToken.
  rewrite (bind_ok _ _ w tt w) by now apply validateParams_ok.
  cbv zeta. unfold bind at 1. unfold bind at 1.
  unfold lift at 1. rewrite Hd.
  unfold bind at 1. unfold call at 1.
  destruct (resolve (jti (payload response)) (trace w)) as [resolved|e];
    [|reflexivity].
  destruct (truthy resolved); simpl; [|reflexivity].
  unfold decodes, bind at 1, tryCatch, bind at 1, lift at 1.
  destruct (fromJWTValue env resolved); reflexivity.
Qed.

Lemma resolver_replay_protection_witness :
  fst (verifyCredentialShareResponseToken Demo.env "jwt.share.response"
         (RequestResolver Demo.requestByNonce) None Demo.world)
  = fst (verifyAgainstRequest Demo.env "jwt.share.response"
           (Value "jwt.email.request") true
           (logEvent (EvResolveRequest "nonce-2") Demo.world)).
Proof.
  rewrite (resolver_replay_protection Demo.env "jwt.share.response"
             Demo.requestByNonce None Demo.world Demo.shareResponse);
    reflexivity.
Defined.

(** A resolver that knows no request under the nonce. *)
Example resolver_returns_nothing :
  verifyCredentialShareResponseToken Demo.env "jwt.didauth.response"
    (RequestResolver Demo.requestByNonce) None Demo.world
  = (Err (replayProtectionError Undefined),
     logEvent (EvResolveRequest "nonce-1") Demo.world).
Proof. reflexivity. Qed.

(** A resolver that returns a string that is no token. *)
Example resolver_returns_garbage :
  verifyCredentialShareResponseToken Demo.env "jwt.share.response"
    (RequestResolver (fun _ _ => Ok (Value "not-a-token"))) (Some false)
    Demo.world
  = (Err (replayProtectionError (Value "not-a-token")),
     logEvent (EvResolveRequest "nonce-2") Demo.world).
Proof. reflexivity. Qed.

(** A resolver that fails: its error is passed on as it is. *)
Example resolver_throws :
  fst (verifyCredentialShareResponseToken Demo.env "jwt.share.response"
         (RequestResolver
            (fun _ _ => Err (JsError "Error" "database is down" None)))
         None Demo.world)
  = Err (JsError "Error" "database is down" None).
Proof. reflexivity. Qed.

(** ** Presentations *)

Lemma requestedCredentials_spec env decodedChallenge vcs vc :
  vc ∈ requestedCredentials env decodedChallenge vcs
  <-> vc ∈ vcs
      /\ vc_type vc !! 1%nat ∈ getCredentialTypes env decodedChallenge.
Proof.
  unfold requestedCredentials, includes.
  rewrite list_elem_of_In, filter_In, bool_decide_eq_true, <- list_elem_of_In.
  reflexivity.
Qed.

(** C5.  With parameters that validate and a challenge that decodes,
    [createPresentationFromChallenge] signs the presentation built from
    exactly the credentials whose second type tag is among the challenge's
    credential types, in their order; the others are dropped and nothing is
    thrown for them: the signing call is made whatever is left, an empty
    sequence included. *)
Theorem presentation_keeps_requested_credentials
    env challenge (vcs : list VCV1) domain w decodedChallenge :
  validate env (presentationRules challenge vcs) = None ->
  fromJWT env challenge = Ok decodedChallenge ->
  createPresentationFromChallenge env challenge vcs domain w
  = (let w1 := logEvent (EvRandomBytes 8) w in
     match randomBytes env 8 (trace w) with
     | Err e => (Err e, w1)
     | Ok bytes =>
         let vp :=
           buildVPV1Unsigned env ("presentationId:" +:+ hexOfBytes env bytes)
             (requestedCredentials env decodedChallenge vcs) (did env) in
         (affinity_signPresentation env vp (_encryptedSeed env) (_password env)
            challenge domain (trace w1),
          logEvent (EvSignPresentation vp challenge domain) w1)
     end)
  /\ (forall vc,
        vc ∈ requestedCredentials env decodedChallenge vcs
        <-> vc ∈ vcs
            /\ vc_type vc !! 1%nat ∈ getCredentialTypes env decodedChallenge).
Proof.
  intros Hv Hd. split; [|intros vc; apply requestedCredentials_spec].
  unfold createPresentationFromChallenge.
  rewrite (bind_ok _ _ w tt w) by now apply validateParams_ok.
  rewrite (bind_ok _ _ w decodedChallenge w) by (unfold lift; now rewrite Hd).
  unfold bind, call. cbv zeta.
  destruct (randomBytes env 8 (trace w)); reflexivity.
Qed.

Lemma presentation_keeps_requested_credentials_witness :
  fst (createPresentationFromChallenge Demo.env "jwt.email.request"
         [Demo.phoneVC; Demo.emailVC] "domain" Demo.world)
  = Ok (Demo.signedPresentation
          {| vpu_id := "presentationId:00"; vpu_vcs := [Demo.emailVC];
             vpu_holder := "did:elem:holder" |}
          "jwt.email.request" "domain").
Proof.
  destruct (presentation_keeps_requested_credentials Demo.env
              "jwt.email.request" [Demo.phoneVC; Demo.emailVC] "domain"
              Demo.world Demo.emailRequest) as [H _];
    [reflexivity | reflexivity |].
  rewrite H. reflexivity.
Defined.

(** No credential of the requested type: the empty presentation is signed. *)
Example presentation_may_be_empty :
  fst (createPresentationFromChallenge Demo.env "jwt.email.request"
         [Demo.phoneVC] "domain" Demo.world)
  = Ok (Demo.signedPresentation
          {| vpu_id := "presentationId:00"; vpu_vcs := [];
             vpu_holder := "did:elem:holder" |}
          "jwt.email.request" "domain").
Proof. reflexivity. Qed.

(** C6.  When the presentation passes validation, [verifyPresentation]
    checks the challenge it embeds against the member's DID.  If that check
    throws, the result is returned, not thrown: [isValid] is false, the
    supplied presentation is the validated data and [errors] holds the
    exception.  If it passes, [isValid] is true, [did] is the holder of the
    presentation and [challenge] the challenge of its proof. *)
Theorem presentation_challenge_phase env (vp : Unknown) w data :
  affinity_validatePresentation env vp (trace w) = Ok (ValidationPassed data) ->
  verifyPresentation env vp w
  = (let w1 := logEvent (EvValidatePresentation vp) w in
     let w2 :=
       logEvent (EvVerifyPresentationChallenge (challenge (proof data)) (did env))
                w1 in
     match
       holder_verifyPresentationChallenge env (challenge (proof data)) (did env)
         (trace w1)
     with
     | Err error =>
         (Ok {| pv_isValid := false; pv_did := None; pv_challenge := None;
                suppliedPresentation := ValidatedPresentation data;
                pv_errors := Some [CaughtError error] |}, w2)
     | Ok _ =>
         (Ok {| pv_isValid := true;
                pv_did := Some (vp_holder data);
                pv_challenge := Some (challenge (proof data));
                suppliedPresentation := ValidatedPresentation data;
                pv_errors := None |}, w2)
     end).
Proof.
  intros Hp. unfold verifyPresentation.
  unfold bind at 1. unfold call at 1. rewrite Hp.
  unfold bind, tryCatch, call, ret. cbv zeta.
  destruct (holder_verifyPresentationChallenge env _ _ _); reflexivity.
Qed.

Lemma presentation_challenge_phase_witness :
  fst (verifyPresentation Demo.env "jwt.expired.challenge" Demo.world)
  = Ok {| pv_isValid := false; pv_did := None; pv_challenge := None;
          suppliedPresentation :=
            ValidatedPresentation
              {| vp_id := "presentationId:00"; vp_holder := "did:elem:holder";
                 verifiableCredential := [];
                 proof := {| challenge := "jwt.expired.challenge";
                             domain := EmptyString |} |};
          pv_errors :=
            Some [CaughtError (JsError "Error" "Token can not be decoded" None)] |}.
Proof.
  rewrite (presentation_challenge_phase Demo.env "jwt.expired.challenge"
             Demo.world
             {| vp_id := "presentationId:00"; vp_holder := "did:elem:holder";
                verifiableCredential := [];
                proof := {| challenge := "jwt.expired.challenge";
                            domain := EmptyString |} |});
    reflexivity.
Defined.

Example presentation_accepted :
  fst (verifyPresentation Demo.env "jwt.email.request" Demo.world)
  = Ok {| pv_isValid := true; pv_did := Some "did:elem:holder";
          pv_challenge := Some "jwt.email.request";
          suppliedPresentation :=
            ValidatedPresentation
              {| vp_id := "presentationId:00"; vp_holder := "did:elem:holder";
                 verifiableCredential := [];
                 proof := {| challenge := "jwt.email.request"; domain := EmptyString |} |};
          pv_errors := None |}.
Proof. reflexivity. Qed.

(** ** DID-auth *)

Lemma sendMetrics_returns env credentials w :
  fst (_sendVCVerifiedPerPartyMetrics env credentials w) = Ok tt.
Proof.
  unfold _sendVCVerifiedPerPartyMetrics. revert w.
  induction credentials as [|c rest IH]; intros w; simpl.
  - reflexivity.
  - unfold bind, _sendVCVerifiedPerPartyMetric, fireAndForget. apply IH.
Qed.

Lemma verifyAgainstRequest_result env responseToken requestToken shouldOwn w :
  fst (verifyAgainstRequest env responseToken requestToken shouldOwn w)
  = match
      holder_verifyCredentialShareResponse env responseToken requestToken
        shouldOwn (trace w)
    with
    | Ok response => Ok (outputOf response)
    | Err e => Err e
    end.
Proof.
  unfold verifyAgainstRequest. unfold bind at 1. unfold call at 1.
  destruct (holder_verifyCredentialShareResponse env _ _ _ _) as [response|e];
    [|reflexivity].
  unfold bind at 1.
  destruct (sv_isValid response && negb (isTestEnvironment env)).
  - pose proof (sendMetrics_returns env (sv_suppliedCredentials response)
                  (logEvent (EvVerifyCredentialShareResponse responseToken
                               requestToken shouldOwn) w)) as H.
    destruct (_sendVCVerifiedPerPartyMetrics env _ _) as [r w'].
    simpl in H. subst r. reflexivity.
  - reflexivity.
Qed.

(** C8.  Past the validation of their own parameters, the three DID-auth
    operations are the share operations at the empty case:
    [generateDidAuthRequest options] is
    [generateCredentialShareRequestToken [] null options],
    [createDidAuthResponse token] is
    [createCredentialShareResponseToken token []], and
    [verifyDidAuthResponse] is [verifyCredentialShareResponseToken] on the
    same two tokens.  The member then matches no credential types itself:
    the result of the verification is the holder service's answer. *)
Theorem did_auth_is_empty_share
    env (options : option JwtOptions) (requestToken responseToken : string)
    (sentRequest : option string) w :
  validate env [jwtOptionsRule options] = None ->
  validate env [jwtRule true (PString requestToken)] = None ->
  validate env [jwtRule true (PString responseToken);
                jwtRule false (ofOption PString sentRequest)] = None ->
  validate env (verifyShareResponseRules responseToken
                  (optionalArgument sentRequest) true) = None ->
  generateDidAuthRequest env options w
  = generateCredentialShareRequestToken env [] Null options w
  /\ createDidAuthResponse env requestToken w
     = createCredentialShareResponseToken env requestToken [] w
  /\ verifyDidAuthResponse env responseToken sentRequest w
     = verifyCredentialShareResponseToken env responseToken
         (RequestToken (optionalArgument sentRequest)) None w
  /\ fst (verifyDidAuthResponse env responseToken sentRequest w)
     = match
         holder_verifyCredentialShareResponse env responseToken
           (optionalArgument sentRequest) true (trace w)
       with
       | Ok response => Ok (outputOf response)
       | Err e => Err e
       end.
Proof.
  intros H1 H2 H3 H4.
  assert (Hverify :
    verifyDidAuthResponse env responseToken sentRequest w
    = verifyCredentialShareResponseToken env responseToken
        (RequestToken (optionalArgument sentRequest)) None w).
  { unfold verifyDidAuthResponse.
    now rewrite (bind_ok _ _ w tt w) by now apply validateParams_ok. }
  repeat split.
  - unfold generateDidAuthRequest.
    now rewrite (bind_ok _ _ w tt w) by now apply validateParams_ok.
  - unfold createDidAuthResponse.
    now rewrite (bind_ok _ _ w tt w) by now apply validateParams_ok.
  - exact Hverify.
  - rewrite Hverify, verifyShareResponse_literal by exact H4.
    apply verifyAgainstRequest_result.
Qed.

Lemma did_auth_is_empty_share_witness :
  generateDidAuthRequest Demo.env None Demo.world
  = generateCredentialShareRequestToken Demo.env [] Null None Demo.world
  /\ createDidAuthResponse Demo.env "jwt.didauth.request" Demo.world
     = createCredentialShareResponseToken Demo.env "jwt.didauth.request" []
         Demo.world
  /\ verifyDidAuthResponse Demo.env "jwt.didauth.response"
       (Some "jwt.didauth.request") Demo.world
     = verifyCredentialShareResponseToken Demo.env "jwt.didauth.response"
         (RequestToken (Value "jwt.didauth.request")) None Demo.world
  /\ fst (verifyDidAuthResponse Demo.env "jwt.didauth.response"
            (Some "jwt.didauth.request") Demo.world)
     = Ok {| isValid := true; out_did := "did:elem:holder";
             out_nonce := "nonce-1"; out_suppliedCredentials := [];
             out_errors := [] |}.
Proof.
  apply (did_auth_is_empty_share Demo.env None "jwt.didauth.request"
           "jwt.didauth.response" (Some "jwt.didauth.request") Demo.world);
    reflexivity.
Defined.

(** ** Revocation *)

Lemma getProperty_object l fields key w :
  heap w !! l = Some (CObj fields) ->
  getProperty (VRef l) key w = (Ok (default VUndefined (fields !! key)), w).
Proof. intros H. unfold getProperty. now rewrite H. Qed.

Lemma getOptionalProperty_read value key w :
  getOptionalProperty value key w = (Ok (readProperty (heap w) value key), w).
Proof.
  destruct value as [| | b | s | l]; try reflexivity.
  simpl. unfold getProperty.
  destruct (heap w !! l) as [[fields|elems]|]; reflexivity.
Qed.

Lemma signAndPublishList_heap env listCredential token w :
  heap (snd (signAndPublishList env listCredential token w)) = heap w.
Proof.
  unfold signAndPublishList, bind, call, currentTime.
  destruct (affinity_signListCredential env _ _ _ _); reflexivity.
Qed.

Lemma signAndPublishList_trace env listCredential token w :
  trace (snd (signAndPublishList env listCredential token w))
  = trace w ++ publicationEvents env listCredential token (trace w).
Proof.
  unfold signAndPublishList, publicationEvents, bind, call, currentTime.
  destruct (affinity_signListCredential env _ _ _ _); simpl.
  - now rewrite <- !app_assoc.
  - reflexivity.
Qed.

Lemma pushToProperty_array object key item w fields a elems :
  heap w !! object = Some (CObj fields) ->
  fields !! key = Some (VRef a) ->
  heap w !! a = Some (CArr elems) ->
  pushToProperty object key item w
  = (Ok tt, setHeap (<[a := CArr (elems ++ [item])]> (heap w)) w).
Proof.
  intros Ho Hk Ha. unfold pushToProperty. now rewrite Ho, Hk, Ha.
Qed.

Lemma assignWith_object l key v w fields :
  heap w !! l = Some (CObj fields) ->
  assignWith (VRef l) key v w
  = (Ok (length (heap w)),
     setHeap (heap w ++ [CObj (<[key := v]> fields)]) w).
Proof.
  intros Hl. unfold assignWith, ownEnumerableProperties. now rewrite Hl.
Qed.

Lemma buildRevocationListStatus_run env l token w fields a context response :
  credentialAt w l fields a context ->
  revocation_buildRevocationListStatus env
    (default VUndefined (fields !! "id"))
    (readProperty (heap w) (default VUndefined (fields !! "holder")) "id")
    token (trace w) = Ok response ->
  buildRevocationListStatus env (VRef l) token w
  = let w1 :=
      logEvent (EvBuildRevocationListStatus
                  (default VUndefined (fields !! "id"))
                  (readProperty (heap w)
                     (default VUndefined (fields !! "holder")) "id")
                  token) w in
    let w2 :=
      setHeap (revokableHeap (heap w) fields a context
                 (credentialStatus response)) w1 in
    if isPublisRequired response
    then
      match
        signAndPublishList env (bs_revocationListCredential response) token w2
      with
      | (Ok _, w3) => (Ok (VRef (length (heap w))), w3)
      | (Err e, w3) => (Err e, w3)
      end
    else (Ok (VRef (length (heap w))), w2).
Proof.
  intros (Hl & Hc & Ha) Hs. unfold buildRevocationListStatus.
  rewrite (bind_ok _ _ w _ w (getProperty_object _ _ _ _ Hl)).
  rewrite (bind_ok _ _ w _ w (getProperty_object _ _ _ _ Hl)).
  rewrite (bind_ok _ _ w _ w (getOptionalProperty_read _ _ _)).
  unfold bind at 1. unfold call at 1. rewrite Hs.
  set (w1 := logEvent _ w).
  assert (Hl1 : heap w1 !! l = Some (CObj fields)) by exact Hl.
  rewrite (bind_ok _ _ w1 _ _ (assignWith_object _ _ _ _ _ Hl1)).
  change (heap w1) with (heap w).
  set (fields' := <["credentialStatus" := credentialStatus response]> fields).
  set (w1' := setHeap _ w1).
  assert (Hn : heap w1' !! length (heap w) = Some (CObj fields'))
    by apply (list_lookup_middle (heap w) [] _ (length (heap w)) eq_refl).
  assert (Hc' : fields' !! "@context" = Some (VRef a))
    by (unfold fields'; now rewrite lookup_insert_ne by discriminate).
  assert (Ha' : heap w1' !! a = Some (CArr context)).
  { simpl. rewrite lookup_app_l by (eapply lookup_lt_Some; exact Ha).
    exact Ha. }
  rewrite (bind_ok _ _ w1' tt _ (pushToProperty_array _ _ _ _ _ _ _ Hn Hc' Ha')).
  unfold bind at 1.
  destruct (isPublisRequired response); [|reflexivity].
  unfold revokableHeap.
  destruct (signAndPublishList env _ _ _) as [[[]|e] w3]; reflexivity.
Qed.

Lemma buildRevocationListStatus_heap env l token w fields a context response :
  credentialAt w l fields a context ->
  revocation_buildRevocationListStatus env
    (default VUndefined (fields !! "id"))
    (readProperty (heap w) (default VUndefined (fields !! "holder")) "id")
    token (trace w) = Ok response ->
  heap (snd (buildRevocationListStatus env (VRef l) token w))
  = revokableHeap (heap w) fields a context (credentialStatus response).
Proof.
  intros Hshape Hs.
  rewrite (buildRevocationListStatus_run _ _ _ _ _ _ _ _ Hshape Hs). cbv zeta.
  destruct (isPublisRequired response); [|reflexivity].
  match goal with
  | |- context [signAndPublishList ?e ?c ?t ?w2] =>
      pose proof (signAndPublishList_heap e c t w2) as H;
      destruct (signAndPublishList e c t w2) as [[[]|err] w3]
  end; exact H.
Qed.

Lemma buildRevocationListStatus_trace env l token w fields a context response :
  credentialAt w l fields a context ->
  revocation_buildRevocationListStatus env
    (default VUndefined (fields !! "id"))
    (readProperty (heap w) (default VUndefined (fields !! "holder")) "id")
    token (trace w) = Ok response ->
  trace (snd (buildRevocationListStatus env (VRef l) token w))
  = let asked :=
      EvBuildRevocationListStatus
        (default VUndefined (fields !! "id"))
        (readProperty (heap w) (default VUndefined (fields !! "holder")) "id")
        token in
    trace w ++ asked ::
      (if isPublisRequired response
       then publicationEvents env (bs_revocationListCredential response) token
              (trace w ++ [asked])
       else []).
Proof.
  intros Hshape Hs.
  rewrite (buildRevocationListStatus_run _ _ _ _ _ _ _ _ Hshape Hs). cbv zeta.
  destruct (isPublisRequired response); [|reflexivity].
  match goal with
  | |- context [signAndPublishList ?e ?c ?t ?w2] =>
      pose proof (signAndPublishList_trace e c t w2) as H;
      destruct (signAndPublishList e c t w2) as [[[]|err] w3]
  end; simpl in *; rewrite H, <- app_assoc; reflexivity.
Qed.

Lemma revokeCredential_trace env credentialId reason token w :
  trace (snd (revokeCredential env credentialId reason token w))
  = trace w ++ revocationEvents env credentialId reason token (trace w).
Proof.
  unfold revokeCredential, revocationEvents. unfold bind at 1. unfold call at 1.
  destruct (revocation_revokeCredential env _ _ _ _) as [response|e];
    [|reflexivity].
  rewrite signAndPublishList_trace. simpl. now rewrite <- app_assoc.
Qed.

(** C4.  [buildRevocationListStatus], on a credential it can extend and
    with an answer from the revocation service, signs and publishes the
    list credential exactly when the answer says that a publish is
    required: otherwise its only call is the one to the service.
    [revokeCredential] looks at no such flag: whenever the service answers,
    the list credential is signed and, signing done, published. *)
Theorem publish_is_conditional_only_when_issuing
    env l token w fields a context response
    credentialId reason revokeToken w' :
  credentialAt w l fields a context ->
  revocation_buildRevocationListStatus env
    (default VUndefined (fields !! "id"))
    (readProperty (heap w) (default VUndefined (fields !! "holder")) "id")
    token (trace w) = Ok response ->
  trace (snd (buildRevocationListStatus env (VRef l) token w))
  = (let asked :=
       EvBuildRevocationListStatus
         (default VUndefined (fields !! "id"))
         (readProperty (heap w) (default VUndefined (fields !! "holder")) "id")
         token in
     trace w ++ asked ::
       (if isPublisRequired response
        then publicationEvents env (bs_revocationListCredential response) token
               (trace w ++ [asked])
        else []))
  /\ trace (snd (revokeCredential env credentialId reason revokeToken w'))
     = trace w'
       ++ EvRevokeCredential credentialId reason revokeToken ::
          match
            revocation_revokeCredential env credentialId reason revokeToken
              (trace w')
          with
          | Ok revoked =>
              publicationEvents env (rv_revocationListCredential revoked)
                revokeToken
                (trace w' ++ [EvRevokeCredential credentialId reason revokeToken])
          | Err _ => []
          end.
Proof.
  intros Hshape Hs. split.
  - now apply buildRevocationListStatus_trace with a context.
  - apply revokeCredential_trace.
Qed.

Lemma publish_is_conditional_only_when_issuing_witness :
  trace (snd (buildRevocationListStatus Demo.env (VRef 2) "access-token"
                (Demo.issuing [Demo.credentialsContext])))
  = [ EvBuildRevocationListStatus (VStr "credId:1") (VStr "did:elem:holder")
        "access-token";
      EvSignListCredential "list";
      EvDateNow;
      EvPublishRevocationListCredential
        {| slc_credential := "list"; slc_proof := "proof";
           slc_issuanceDate := "2021-01-01T00:00:00.000Z" |}
        "access-token" ]
  /\ trace (snd (revokeCredential Demo.env "credId:1" "Status changed"
                   "access-token" Demo.world))
     = [ EvRevokeCredential "credId:1" "Status changed" "access-token";
         EvSignListCredential "list";
         EvDateNow;
         EvPublishRevocationListCredential
           {| slc_credential := "list"; slc_proof := "proof";
              slc_issuanceDate := "2021-01-01T00:00:00.000Z" |}
           "access-token" ].
Proof.
  assert (Hshape : credentialAt (Demo.issuing [Demo.credentialsContext]) 2
                     Demo.credentialFields 0 [Demo.credentialsContext])
    by (repeat split).
  pose proof (publish_is_conditional_only_when_issuing Demo.env 2 "access-token"
                (Demo.issuing [Demo.credentialsContext])
                Demo.credentialFields 0 [Demo.credentialsContext]
                {| credentialStatus := VStr "list#1"; isPublisRequired := true;
                   bs_revocationListCredential := "list" |}
                "credId:1" "Status changed" "access-token" Demo.world
                Hshape eq_refl) as H.
  vm_compute in H. vm_compute. exact H.
Defined.

Lemma revocationContextCount_push context :
  revocationContextCount (context ++ [VStr revocationListContext])
  = S (revocationContextCount context).
Proof.
  unfold revocationContextCount.
  rewrite List.filter_app, length_app. simpl. lia.
Qed.

Lemma revokableHeap_context h fields a context status :
  h !! a = Some (CArr context) ->
  revokableHeap h fields a context status !! a
  = Some (CArr (context ++ [VStr revocationListContext])).
Proof.
  intros Ha. unfold revokableHeap. apply list_lookup_insert_eq.
  rewrite length_app. apply lookup_lt_Some in Ha. lia.
Qed.

Lemma revokableHeap_other h fields a context status k :
  k <> a ->
  revokableHeap h fields a context status !! k
  = (h ++ [CObj (<["credentialStatus" := status]> fields)]) !! k.
Proof.
  intros Hk. unfold revokableHeap. now apply list_lookup_insert_ne.
Qed.

Lemma revokableHeap_output h fields a context status :
  h !! a = Some (CArr context) ->
  revokableHeap h fields a context status !! length h
  = Some (CObj (<["credentialStatus" := status]> fields)).
Proof.
  intros Ha. rewrite revokableHeap_other.
  - apply (list_lookup_middle h [] _ (length h) eq_refl).
  - apply lookup_lt_Some in Ha. lia.
Qed.

(** C7 (as the code has it).  On a credential it can extend and with an
    answer from the revocation service, [buildRevocationListStatus] leaves,
    whether or not publishing succeeds, a new object that is the credential
    with [credentialStatus] set to the returned status, and the context
    array with the revocation-list context appended at its end.  The append
    is unconditional: the context holds that URI once more than before, also
    when it was already there. *)
Theorem revocation_context_is_always_appended
    env l token w fields a context response :
  credentialAt w l fields a context ->
  revocation_buildRevocationListStatus env
    (default VUndefined (fields !! "id"))
    (readProperty (heap w) (default VUndefined (fields !! "holder")) "id")
    token (trace w) = Ok response ->
  let after := heap (snd (buildRevocationListStatus env (VRef l) token w)) in
  after !! length (heap w)
  = Some (CObj (<["credentialStatus" := credentialStatus response]> fields))
  /\ (<["credentialStatus" := credentialStatus response]> fields) !! "@context"
     = Some (VRef a)
  /\ after !! a = Some (CArr (context ++ [VStr revocationListContext]))
  /\ revocationContextCount (context ++ [VStr revocationListContext])
     = S (revocationContextCount context)
  /\ match fst (buildRevocationListStatus env (VRef l) token w) with
     | Ok revokable => revokable = VRef (length (heap w))
     | Err _ => isPublisRequired response = true
     end.
Proof.
  intros Hshape Hs after. unfold after.
  rewrite (buildRevocationListStatus_heap _ _ _ _ _ _ _ _ Hshape Hs).
  destruct Hshape as (Hl & Hc & Ha).
  split; [now apply revokableHeap_output|].
  split; [now rewrite lookup_insert_ne by discriminate|].
  split; [now apply revokableHeap_context|].
  split; [apply revocationContextCount_push|].
  rewrite (buildRevocationListStatus_run _ _ _ _ _ _ _ _
             (conj Hl (conj Hc Ha)) Hs). cbv zeta.
  destruct (isPublisRequired response); [|reflexivity].
  destruct (signAndPublishList env _ _ _) as [[[]|err] w3]; reflexivity.
Qed.

Lemma revocation_context_is_always_appended_witness :
  let after :=
    heap (snd (buildRevocationListStatus Demo.env (VRef 2) "access-token"
                 (Demo.issuing [Demo.credentialsContext]))) in
  after !! 3%nat
  = Some (CObj (<["credentialStatus" := VStr "list#1"]> Demo.credentialFields))
  /\ after !! 0%nat
     = Some (CArr [Demo.credentialsContext; VStr revocationListContext]).
Proof.
  assert (Hshape : credentialAt (Demo.issuing [Demo.credentialsContext]) 2
                     Demo.credentialFields 0 [Demo.credentialsContext])
    by (repeat split).
  pose proof (revocation_context_is_always_appended Demo.env 2 "access-token"
                (Demo.issuing [Demo.credentialsContext])
                Demo.credentialFields 0 [Demo.credentialsContext]
                {| credentialStatus := VStr "list#1"; isPublisRequired := true;
                   bs_revocationListCredential := "list" |}
                Hshape eq_refl) as (H1 & _ & H2 & _).
  split; [exact H1 | exact H2].
Defined.

(** C7 as stated fails: a credential whose context already has the
    revocation-list URI gets it a second time. *)
Lemma revocation_context_is_duplicated :
  let before := Demo.issuing [Demo.credentialsContext;
                              VStr revocationListContext] in
  let run := buildRevocationListStatus Demo.env (VRef 2) "access-token" before in
  heap before !! 0%nat
  = Some (CArr [Demo.credentialsContext; VStr revocationListContext])
  /\ fst run = Ok (VRef 3)
  /\ heap (snd run) !! 0%nat
     = Some (CArr [Demo.credentialsContext; VStr revocationListContext;
                   VStr revocationListContext]).
Proof. vm_compute. repeat split. Qed.

(** C10.  [buildRevocationListStatus] changes its argument.  On a
    credential it can extend and with an answer from the revocation service,
    after the call, whether or not publishing succeeds: the object passed in
    has the properties it had, each with the value it had; the array its
    ["@context"] refers to, which the returned object shares, is one entry
    longer, the revocation-list context; every other cell the heap had is
    as it was, and one object, the returned one, is new. *)
Theorem input_context_is_mutated env l token w fields a context response :
  credentialAt w l fields a context ->
  revocation_buildRevocationListStatus env
    (default VUndefined (fields !! "id"))
    (readProperty (heap w) (default VUndefined (fields !! "holder")) "id")
    token (trace w) = Ok response ->
  let after := heap (snd (buildRevocationListStatus env (VRef l) token w)) in
  after !! l = Some (CObj fields)
  /\ readProperty after (VRef l) "@context" = VRef a
  /\ readProperty after (VRef (length (heap w))) "@context" = VRef a
  /\ after !! a = Some (CArr (context ++ [VStr revocationListContext]))
  /\ (forall k, k <> a -> (k < length (heap w))%nat -> after !! k = heap w !! k)
  /\ length after = S (length (heap w)).
Proof.
  intros Hshape Hs after. unfold after.
  rewrite (buildRevocationListStatus_heap _ _ _ _ _ _ _ _ Hshape Hs).
  destruct Hshape as (Hl & Hc & Ha).
  assert (Hla : l <> a) by (intros ->; rewrite Hl in Ha; discriminate).
  assert (Hkeep : forall k, k <> a -> (k < length (heap w))%nat ->
            revokableHeap (heap w) fields a context (credentialStatus response)
              !! k = heap w !! k).
  { intros k Hk Hlt. rewrite revokableHeap_other by exact Hk.
    now apply lookup_app_l. }
  assert (Hsame :
    revokableHeap (heap w) fields a context (credentialStatus response) !! l
    = Some (CObj fields)).
  { rewrite Hkeep; [exact Hl | exact Hla | now apply lookup_lt_Some in Hl]. }
  split; [exact Hsame|].
  split; [unfold readProperty; now rewrite Hsame, Hc|].
  split.
  { unfold readProperty. rewrite revokableHeap_output by exact Ha.
    now rewrite lookup_insert_ne, Hc by discriminate. }
  split; [now apply revokableHeap_context|].
  split; [exact Hkeep|].
  unfold revokableHeap. rewrite length_insert, length_app. simpl. lia.
Qed.

Lemma input_context_is_mutated_witness :
  let before := Demo.issuing [Demo.credentialsContext] in
  let after :=
    heap (snd (buildRevocationListStatus Demo.env (VRef 2) "access-token"
                 before)) in
  after !! 2%nat = heap before !! 2%nat
  /\ heap before !! 0%nat = Some (CArr [Demo.credentialsContext])
  /\ after !! 0%nat
     = Some (CArr [Demo.credentialsContext; VStr revocationListContext]).
Proof.
  assert (Hshape : credentialAt (Demo.issuing [Demo.credentialsContext]) 2
                     Demo.credentialFields 0 [Demo.credentialsContext])
    by (repeat split).
  pose proof (input_context_is_mutated Demo.env 2 "access-token"
                (Demo.issuing [Demo.credentialsContext])
                Demo.credentialFields 0 [Demo.credentialsContext]
                {| credentialStatus := VStr "list#1"; isPublisRequired := true;
                   bs_revocationListCredential := "list" |}
                Hshape eq_refl) as (H1 & _ & _ & H2 & _).
  split; [exact H1 | split; [reflexivity | exact H2]].
Defined.

(** ** Storing the encrypted seed *)

(** The codes that [storeEncryptedSeed] bails out on are COR-1 and WAL-2,
    and no other. *)
Lemma isKnownError_codes e : isKnownError e = nonRetryable e.
Proof.
  unfold isKnownError, nonRetryable, includes, errorCodes.
  destruct (errorCode e) as [code|]; [|reflexivity].
  destruct (String.eqb_spec code "COR-1") as [->|H1]; [reflexivity|].
  destruct (String.eqb_spec code "WAL-2") as [->|H2]; [reflexivity|].
  apply bool_decide_eq_false.
  rewrite list_elem_of_In. simpl. intros [H|[H|[]]]; congruence.
Qed.

Section Retry.

Variable env : Env.
Variables accessToken seedHexWithMethod encryptionKey : string.

Let ev : Event :=
  EvStoreEncryptedSeed accessToken seedHexWithMethod encryptionKey.

Let store : Oracle unit :=
  walletStorage_storeEncryptedSeed env accessToken seedHexWithMethod
    encryptionKey.

Let attempt : M (Attempt unit) :=
  storeAttempt env accessToken seedHexWithMethod encryptionKey.

Lemma logEvent_logEvents evs w :
  logEvents evs (logEvent ev w) = logEvents (ev :: evs) w.
Proof. unfold logEvents, logEvent. simpl. now rewrite <- app_assoc. Qed.

Lemma logEvent_once w : logEvent ev w = logEvents [ev] w.
Proof. reflexivity. Qed.

Lemma storeAttempt_run w :
  attempt w
  = (match store (trace w) with
     | Ok _ => Ok (Resolved tt)
     | Err e =>
         if nonRetryable e then Ok (Bailed e)
         else Err (SdkError "COR-18" (CtxAccessToken accessToken) (Some e))
     end, logEvent ev w).
Proof.
  unfold attempt, storeAttempt, tryCatch, bind, call, store.
  destruct (walletStorage_storeEncryptedSeed env _ _ _ _) as [[]|e];
    [reflexivity|].
  rewrite isKnownError_codes.
  destruct (nonRetryable e); reflexivity.
Qed.

(** The first outcome that is not retryable ends the retries. *)
Lemma retry_stops k :
  forall retries w,
    (k <= retries)%nat ->
    (forall j, (j < k)%nat ->
               retryable (store (trace w ++ repeat ev j)) = true) ->
    retryable (store (trace w ++ repeat ev k)) = false ->
    retry attempt retries w
    = (settled accessToken (store (trace w ++ repeat ev k)),
       logEvents (repeat ev (S k)) w).
Proof.
  induction k as [|k IH]; intros retries w Hle Hbefore Hstop.
  - simpl in Hstop. rewrite app_nil_r in Hstop.
    destruct retries; simpl; rewrite storeAttempt_run, app_nil_r;
      unfold retryable, settled in *;
      destruct (store (trace w)) as [[]|e]; try reflexivity;
      destruct (nonRetryable e); try discriminate; reflexivity.
  - destruct retries as [|retries]; [lia|].
    pose proof (Hbefore 0%nat ltac:(lia)) as H0.
    simpl in H0. rewrite app_nil_r in H0.
    simpl retry. rewrite storeAttempt_run.
    unfold retryable in H0.
    destruct (store (trace w)) as [[]|e]; [discriminate|].
    destruct (nonRetryable e); [discriminate|].
    rewrite (IH retries (logEvent ev w)).
    + rewrite logEvent_logEvents. simpl trace.
      now rewrite <- app_assoc.
    + lia.
    + intros j Hj. simpl trace. rewrite <- app_assoc.
      apply (Hbefore (S j)). lia.
    + simpl trace. rewrite <- app_assoc. exact Hstop.
Qed.

(** When every outcome is retryable the call is made once and then once
    per retry, and the last failure is thrown, wrapped. *)
Lemma retry_exhausted retries :
  forall w,
    (forall j, (j <= retries)%nat ->
               retryable (store (trace w ++ repeat ev j)) = true) ->
    retry attempt retries w
    = (settled accessToken (store (trace w ++ repeat ev retries)),
       logEvents (repeat ev (S retries)) w).
Proof.
  induction retries as [|retries IH]; intros w Hall;
    pose proof (Hall 0%nat ltac:(lia)) as H0;
    simpl in H0; rewrite app_nil_r in H0;
    simpl retry; rewrite storeAttempt_run;
    unfold retryable in H0.
  - simpl. rewrite app_nil_r. unfold settled.
    destruct (store (trace w)) as [[]|e]; [discriminate|].
    destruct (nonRetryable e); [discriminate|reflexivity].
  - destruct (store (trace w)) as [[]|e]; [discriminate|].
    destruct (nonRetryable e); [discriminate|].
    rewrite (IH (logEvent ev w)).
    + rewrite logEvent_logEvents. simpl trace.
      now rewrite <- app_assoc.
    + intros j Hj. simpl trace. rewrite <- app_assoc.
      apply (Hall (S j)). lia.
Qed.

(** However the outcomes fall, the call is made at least once and at most
    once more than there are retries. *)
Lemma retry_bounded retries :
  forall w,
    exists n, (1 <= n <= S retries)%nat
              /\ snd (retry attempt retries w) = logEvents (repeat ev n) w.
Proof.
  induction retries as [|retries IH]; intros w; simpl retry;
    rewrite storeAttempt_run.
  - exists 1%nat. split; [lia|].
    destruct (store (trace w)) as [[]|e]; [reflexivity|].
    destruct (nonRetryable e); reflexivity.
  - destruct (store (trace w)) as [[]|e].
    + exists 1%nat. split; [lia|reflexivity].
    + destruct (nonRetryable e).
      * exists 1%nat. split; [lia|reflexivity].
      * destruct (IH (logEvent ev w)) as (n & Hn & Hrun).
        exists (S n). split; [lia|].
        rewrite Hrun. apply logEvent_logEvents.
Qed.

End Retry.

Lemma storeEncryptedSeed_prepared env username password token w :
  storeEncryptedSeed env username password token w
  = bind (prepareStore env username password token)
         (fun '(accessToken, seedHexWithMethod, encryptionKey) =>
            retry (storeAttempt env accessToken seedHexWithMethod encryptionKey)
                  3) w.
Proof.
  unfold storeEncryptedSeed, prepareStore.
  rewrite bind_assoc. apply bind_ext. intros _ w1. cbv zeta.
  rewrite bind_assoc. apply bind_ext. intros accessToken w2.
  rewrite bind_assoc. apply bind_ext. intros seedHexWithMethod w3.
  rewrite bind_assoc. apply bind_ext. intros encryptionKey w4.
  reflexivity.
Qed.

Lemma retry_again {A} (fn : M (Attempt A)) retries w e w' :
  fn w = (Err e, w') -> retry fn (S retries) w = retry fn retries w'.
Proof. intros H. simpl. now rewrite H. Qed.

(** C9.  Once the access token, the seed and the encryption key are
    settled, [storeEncryptedSeed] makes the store call at least once and at
    most four times, the first run and three retries.  The first outcome that
    is a success or a failure with code COR-1 or WAL-2 ends it at once: no
    further call is made and, for such a failure, the error thrown is the
    original one; in particular a first call that fails with COR-1 or WAL-2
    is the only call.  Any other failure is wrapped as COR-18 and the call is
    made again; after the fourth such failure the wrapped error is thrown. *)
Theorem seed_upload_is_retried_three_times
    env username password token w accessToken seedHexWithMethod encryptionKey w0 :
  prepareStore env username password token w
  = (Ok (accessToken, seedHexWithMethod, encryptionKey), w0) ->
  let ev := EvStoreEncryptedSeed accessToken seedHexWithMethod encryptionKey in
  let outcome j :=
    walletStorage_storeEncryptedSeed env accessToken seedHexWithMethod
      encryptionKey (trace w0 ++ repeat ev j) in
  let run := storeEncryptedSeed env username password token w in
  (exists n, (1 <= n <= 4)%nat /\ snd run = logEvents (repeat ev n) w0)
  /\ (forall k, (k <= 3)%nat ->
        (forall j, (j < k)%nat -> retryable (outcome j) = true) ->
        retryable (outcome k) = false ->
        run = (outcome k, logEvents (repeat ev (S k)) w0))
  /\ (forall e,
        outcome 0%nat = Err e ->
        errorCode e = Some "COR-1" \/ errorCode e = Some "WAL-2" ->
        run = (Err e, logEvents [ev] w0))
  /\ (forall e,
        outcome 0%nat = Err e ->
        errorCode e <> Some "COR-1" -> errorCode e <> Some "WAL-2" ->
        exists n, (2 <= n <= 4)%nat /\ snd run = logEvents (repeat ev n) w0)
  /\ ((forall j, (j <= 3)%nat -> retryable (outcome j) = true) ->
      exists e,
        outcome 3%nat = Err e
        /\ run = (Err (SdkError "COR-18" (CtxAccessToken accessToken) (Some e)),
                  logEvents (repeat ev 4) w0)).
Proof.
  intros Hprep ev outcome run.
  assert (Hrun : run = retry (storeAttempt env accessToken seedHexWithMethod
                                encryptionKey) 3 w0).
  { unfold run. rewrite storeEncryptedSeed_prepared.
    now rewrite (bind_ok _ _ _ _ _ Hprep). }
  rewrite Hrun.
  assert (Hstops : forall k, (k <= 3)%nat ->
    (forall j, (j < k)%nat -> retryable (outcome j) = true) ->
    retryable (outcome k) = false ->
    retry (storeAttempt env accessToken seedHexWithMethod encryptionKey) 3 w0
    = (outcome k, logEvents (repeat ev (S k)) w0)).
  { intros k Hk Hbefore Hstop.
    rewrite (retry_stops _ _ _ _ k 3 w0 Hk Hbefore Hstop).
    f_equal. unfold settled. fold ev. fold (outcome k).
    unfold retryable in Hstop.
    destruct (outcome k) as [[]|e]; [reflexivity|].
    destruct (nonRetryable e); [reflexivity|discriminate]. }
  split; [|split; [|split; [|split]]].
  - apply retry_bounded.
  - exact Hstops.
  - intros e He Hcode.
    rewrite (Hstops 0%nat); [now rewrite He | lia | intros j Hj; lia |].
    rewrite He. unfold retryable, nonRetryable.
    destruct Hcode as [->| ->]; reflexivity.
  - intros e He H1 H2.
    assert (Hretry : nonRetryable e = false).
    { unfold nonRetryable. destruct (errorCode e) as [code|]; [|reflexivity].
      destruct (String.eqb_spec code "COR-1") as [->|_]; [congruence|].
      destruct (String.eqb_spec code "WAL-2") as [->|_]; [congruence|].
      reflexivity. }
    change (outcome 0%nat)
      with (walletStorage_storeEncryptedSeed env accessToken seedHexWithMethod
              encryptionKey (trace w0 ++ [])) in He.
    rewrite app_nil_r in He.
    rewrite (retry_again _ 2 w0
               (SdkError "COR-18" (CtxAccessToken accessToken) (Some e))
               (logEvent ev w0))
      by (rewrite storeAttempt_run, He, Hretry; reflexivity).
    destruct (retry_bounded env accessToken seedHexWithMethod encryptionKey 2
                (logEvent ev w0)) as (n & Hn & Hlog).
    exists (S n). split; [lia|].
    fold ev in Hlog. rewrite Hlog.
    unfold logEvents, logEvent. simpl. now rewrite <- app_assoc.
  - intros Hall.
    rewrite (retry_exhausted _ _ _ _ 3 w0 Hall).
    pose proof (Hall 3%nat ltac:(lia)) as H3.
    unfold settled. fold ev. fold (outcome 3%nat).
    unfold retryable in H3.
    destruct (outcome 3%nat) as [[]|e]; [discriminate|].
    exists e. destruct (nonRetryable e); [discriminate|]. now split.
Qed.

Lemma seed_upload_is_retried_three_times_witness :
  storeEncryptedSeed Demo.env "user@example.org" "password" (Some "jwt.access")
    Demo.world
  = (Ok tt,
     logEvents
       (repeat (EvStoreEncryptedSeed "jwt.access" "seed++elem" "key") 3)
       (logEvent (EvPullEncryptionKey "jwt.access") Demo.world))
  /\ storeEncryptedSeed (Demo.memberWith Demo.conflictingStore)
       "user@example.org" "password" (Some "jwt.access") Demo.world
     = (Err (SdkError "WAL-2" (CtxErrors ["seed exists"]) None),
        logEvents [EvStoreEncryptedSeed "jwt.access" "seed++elem" "key"]
          (logEvent (EvPullEncryptionKey "jwt.access") Demo.world)).
Proof.
  split.
  - destruct (seed_upload_is_retried_three_times Demo.env "user@example.org"
                "password" (Some "jwt.access") Demo.world
                "jwt.access" "seed++elem" "key"
                (logEvent (EvPullEncryptionKey "jwt.access") Demo.world)
                eq_refl)
      as (_ & Hstop & _).
    apply (Hstop 2%nat).
    + lia.
    + intros [|[|j]] Hj; [reflexivity|reflexivity|lia].
    + reflexivity.
  - destruct (seed_upload_is_retried_three_times
                (Demo.memberWith Demo.conflictingStore) "user@example.org"
                "password" (Some "jwt.access") Demo.world
                "jwt.access" "seed++elem" "key"
                (logEvent (EvPullEncryptionKey "jwt.access") Demo.world)
                eq_refl)
      as (_ & _ & Hbail & _).
    apply Hbail; [reflexivity | right; reflexivity].
Defined.

(** A known error code ends the retries at the first call, unwrapped. *)
Example seed_upload_bails_out :
  storeEncryptedSeed (Demo.memberWith Demo.conflictingStore)
    "user@example.org" "password" (Some "jwt.access") Demo.world
  = (Err (SdkError "WAL-2" (CtxErrors ["seed exists"]) None),
     logEvents [EvPullEncryptionKey "jwt.access";
                EvStoreEncryptedSeed "jwt.access" "seed++elem" "key"]
       Demo.world).
Proof. reflexivity. Qed.

(** A service that never answers is called four times. *)
Example seed_upload_gives_up :
  storeEncryptedSeed (Demo.memberWith Demo.deadStore)
    "user@example.org" "password" None Demo.world
  = (Err (SdkError "COR-18" (CtxAccessToken "access.user@example.org")
            (Some (JsError "Error" "socket hang up" (Some "ECONNRESET")))),
     {| trace :=
          EvCognitoSignIn "user@example.org" "password"
          :: EvPullEncryptionKey "access.user@example.org"
          :: repeat (EvStoreEncryptedSeed "access.user@example.org"
                       "seed++elem" "key") 4;
        heap := [];
        cognitoUserTokens :=
          Some {| accessToken := "access.user@example.org"; idToken := "id" |} |}).
Proof. reflexivity. Qed.

(** * Further properties *)

(** ** Requested credential types *)

Lemma collectCredentialTypes_spec env requirements credentialTypes :
  collectCredentialTypes env requirements credentialTypes
  = credentialTypes
    ++ map (fun r => secondTag (cr_type r))
           (List.filter (isW3cCredential env) requirements).
Proof.
  revert credentialTypes.
  induction requirements as [|r rest IH]; intros acc; simpl.
  - now rewrite app_nil_r.
  - destruct (isW3cCredential env r); rewrite IH; simpl.
    + now rewrite <- app_assoc.
    + reflexivity.
Qed.

Lemma filter_length_le {A} (f : A -> bool) (l : list A) :
  (length (List.filter f l) <= length l)%nat.
Proof.
  induction l as [|x l IH]; simpl; [lia|].
  destruct (f x); simpl; lia.
Qed.

(** X1.  [getCredentialTypes] lists, in the order of the request, the second
    type tag of each requirement that is a W3C credential and of no other:
    it never has more entries than the request has requirements, and a
    requirement with a single tag contributes [undefined]. *)
Theorem getCredentialTypes_lists_w3c_requirements env request :
  let requirements := credentialRequirements (interactionToken (payload request)) in
  getCredentialTypes env request
  = map (fun r => secondTag (cr_type r))
        (List.filter (isW3cCredential env) requirements)
  /\ (length (getCredentialTypes env request) <= length requirements)%nat
  /\ (forall tag,
        tag ∈ getCredentialTypes env request
        <-> exists r, r ∈ requirements /\ isW3cCredential env r = true
                      /\ cr_type r !! 1%nat = tag).
Proof.
  intros requirements.
  assert (H : getCredentialTypes env request
              = map (fun r => secondTag (cr_type r))
                    (List.filter (isW3cCredential env) requirements))
    by apply (collectCredentialTypes_spec env requirements []).
  split; [exact H|]. split.
  - rewrite H, length_map. apply filter_length_le.
  - intros tag. rewrite H, list_elem_of_In, in_map_iff. split.
    + intros (r & Htag & Hin). apply filter_In in Hin as [Hin Hw].
      exists r. now rewrite list_elem_of_In.
    + intros (r & Hin & Hw & Htag). exists r. split; [exact Htag|].
      apply filter_In. now rewrite <- list_elem_of_In.
Qed.

(** ** Selecting credentials for a share request *)

Lemma filter_sublist_bool {A} (f : A -> bool) (l : list A) :
  sublist (List.filter f l) l.
Proof.
  induction l as [|x l IH]; simpl.
  - constructor.
  - destruct (f x); now constructor.
Qed.

Lemma filter_idempotent {A} (f : A -> bool) (l : list A) :
  List.filter f (List.filter f l) = List.filter f l.
Proof.
  induction l as [|x l IH]; simpl; [reflexivity|].
  destruct (f x) eqn:E; simpl; [rewrite E|]; now rewrite ?IH.
Qed.

(** X2.  For a request token that decodes, [getShareCredential] returns
    exactly the supplied credentials whose second type tag is among the
    request's credential types, each as often as it was supplied and in the
    order of the supply: the result is that filtering of the input.  Hence
    it is a sub-sequence of what was supplied, a credential is in it if and
    only if it was supplied and has a requested tag, and selecting again
    from the selection changes nothing. *)
Theorem getShareCredential_selects
    env token (credentials : list SignedCredential) request :
  fromJWT env token = Ok request ->
  let selected :=
    List.filter
      (fun c =>
         bool_decide (sc_type c !! 1%nat ∈ getCredentialTypes env request))
      credentials in
  getShareCredential env token credentials = Ok selected
  /\ sublist selected credentials
  /\ (forall c, c ∈ selected
                <-> c ∈ credentials
                    /\ sc_type c !! 1%nat ∈ getCredentialTypes env request)
  /\ getShareCredential env token selected = Ok selected.
Proof.
  intros Hd selected. unfold getShareCredential. rewrite Hd. cbv zeta.
  split; [reflexivity|]. split; [apply filter_sublist_bool|]. split.
  - intros c. unfold selected.
    rewrite list_elem_of_In, filter_In, bool_decide_eq_true, <- list_elem_of_In.
    reflexivity.
  - unfold selected, includes. now rewrite filter_idempotent.
Qed.

Lemma getShareCredential_selects_witness :
  getShareCredential Demo.env "jwt.email.request"
    [Demo.emailCredential; Sample.phoneCredential; Demo.emailCredential]
  = Ok [Demo.emailCredential; Demo.emailCredential].
Proof.
  exact (proj1 (getShareCredential_selects Demo.env "jwt.email.request"
                  [Demo.emailCredential; Sample.phoneCredential;
                   Demo.emailCredential]
                  Demo.emailRequest eq_refl)).
Defined.

(** Only the credential of the requested type is selected. *)
Example getShareCredential_by_type :
  getShareCredential Demo.env "jwt.email.request"
    [ {| sc_id := Some "claimId:cc33";
         sc_type := ["Credential"; "PhoneCredentialPersonV1"];
         issued := None; issuanceDate := None; claim := None;
         credentialSubject := None; sc_holder := None |};
      Demo.emailCredential ]
  = Ok [Demo.emailCredential].
Proof. reflexivity. Qed.

(** A token that does not decode: the decoder's error is thrown. *)
Example getShareCredential_undecodable :
  getShareCredential Demo.env "garbage" [Demo.emailCredential]
  = Err (JsError "Error" "Token can not be decoded" None).
Proof. reflexivity. Qed.

(** A DID-auth request asks for no credential. *)
Example getShareCredential_did_auth :
  getShareCredential Demo.env "jwt.didauth.request" [Demo.emailCredential]
  = Ok [].
Proof. reflexivity. Qed.

(** ** Presentations from already selected credentials *)

Lemma createPresentation_run env challenge vcs domain w decodedChallenge :
  validate env (presentationRules challenge vcs) = None ->
  fromJWT env challenge = Ok decodedChallenge ->
  createPresentationFromChallenge env challenge vcs domain w
  = (let w1 := logEvent (EvRandomBytes 8) w in
     match randomBytes env 8 (trace w) with
     | Err e => (Err e, w1)
     | Ok bytes =>
         let vp :=
           buildVPV1Unsigned env ("presentationId:" +:+ hexOfBytes env bytes)
             (requestedCredentials env decodedChallenge vcs) (did env) in
         (affinity_signPresentation env vp (_encryptedSeed env) (_password env)
            challenge domain (trace w1),
          logEvent (EvSignPresentation vp challenge domain) w1)
     end).
Proof.
  intros Hv Hd. unfold createPresentationFromChallenge.
  rewrite (bind_ok _ _ w tt w) by now apply validateParams_ok.
  rewrite (bind_ok _ _ w decodedChallenge w) by (unfold lift; now rewrite Hd).
  unfold bind, call. cbv zeta.
  destruct (randomBytes env 8 (trace w)); reflexivity.
Qed.

(** X3.  Selecting first changes nothing: a presentation created from the
    credentials that answer the challenge is the presentation created from
    all of them, result and calls alike. *)
Theorem presentation_from_selected_credentials
    env challenge (vcs : list VCV1) domain w decodedChallenge :
  validate env (presentationRules challenge vcs) = None ->
  validate env (presentationRules challenge
                  (requestedCredentials env decodedChallenge vcs)) = None ->
  fromJWT env challenge = Ok decodedChallenge ->
  createPresentationFromChallenge env challenge
    (requestedCredentials env decodedChallenge vcs) domain w
  = createPresentationFromChallenge env challenge vcs domain w.
Proof.
  intros Hv Hv' Hd.
  rewrite (createPresentation_run _ _ _ _ _ _ Hv Hd).
  rewrite (createPresentation_run _ _ _ _ _ _ Hv' Hd).
  unfold requestedCredentials. now rewrite filter_idempotent.
Qed.

Lemma presentation_from_selected_credentials_witness :
  createPresentationFromChallenge Demo.env "jwt.email.request"
    [Demo.emailVC] "domain" Demo.world
  = createPresentationFromChallenge Demo.env "jwt.email.request"
      [Demo.phoneVC; Demo.emailVC] "domain" Demo.world.
Proof.
  apply (presentation_from_selected_credentials Demo.env "jwt.email.request"
           [Demo.phoneVC; Demo.emailVC] "domain" Demo.world Demo.emailRequest);
    reflexivity.
Defined.

(** ** What gets signed *)

Lemma signingRequests_app h1 h2 :
  signingRequests (h1 ++ h2) = signingRequests h1 ++ signingRequests h2.
Proof.
  induction h1 as [|ev h1 IH]; simpl; [reflexivity|].
  destruct ev; simpl; now rewrite ?IH.
Qed.

Lemma quiet_ret {A} (a : A) : quiet (ret a).
Proof. intros w. reflexivity. Qed.

Lemma quiet_throw {A} e : quiet (@throw A e).
Proof. intros w. reflexivity. Qed.

Lemma quiet_lift {A} (r : Result A) : quiet (lift r).
Proof. intros w. reflexivity. Qed.

Lemma quiet_validateParams env rules : quiet (validateParams env rules).
Proof. intros w. unfold validateParams. destruct (validate env rules); reflexivity. Qed.

Lemma quiet_currentTime env : quiet (currentTime env).
Proof.
  intros w. unfold currentTime. simpl.
  now rewrite signingRequests_app, app_nil_r.
Qed.

Lemma quiet_call {A} ev (oracle : Oracle A) :
  signingRequests [ev] = [] -> quiet (call ev oracle).
Proof.
  intros H w. unfold call. simpl.
  now rewrite signingRequests_app, H, app_nil_r.
Qed.

Lemma quiet_bind {A B} (m : M A) (k : A -> M B) :
  quiet m -> (forall a, quiet (k a)) -> quiet (bind m k).
Proof.
  intros Hm Hk w. unfold bind. specialize (Hm w).
  destruct (m w) as [[a|e] w']; simpl in *.
  - now rewrite Hk.
  - exact Hm.
Qed.

Ltac solve_quiet :=
  repeat first
    [ apply quiet_ret | apply quiet_throw | apply quiet_lift
    | apply quiet_validateParams | apply quiet_currentTime
    | apply quiet_call; reflexivity
    | apply quiet_bind; [|intros ?]
    | match goal with
      | |- quiet (match ?x with _ => _ end) => destruct x
      end ].

Lemma signsOnce_bind {A B} kind (result : A -> Prop) (m : M A)
    (k : A -> M B) :
  quiet m ->
  (forall w a w', m w = (Ok a, w') -> result a) ->
  (forall a, result a -> signsOnce kind (k a)) ->
  signsOnce kind (bind m k).
Proof.
  intros Hm Hresult Hk w. unfold bind. specialize (Hm w).
  destruct (m w) as [[a|e] w'] eqn:Hrun; simpl in *.
  - rewrite <- Hm. apply Hk. exact (Hresult _ _ _ Hrun).
  - left. split; [exact Hm | now exists e].
Qed.

Lemma signsOnce_after {A B} kind (m : M A) (k : A -> M B) :
  quiet m -> (forall a, signsOnce kind (k a)) -> signsOnce kind (bind m k).
Proof.
  intros Hm Hk.
  apply (signsOnce_bind kind (fun _ => True)); auto.
Qed.

Lemma signsOnce_call (kind : VCV1Unsigned -> Prop) unsigned
    (oracle : Oracle VCV1) :
  kind unsigned ->
  signsOnce kind (call (EvSignCredential unsigned) oracle).
Proof.
  intros H w. right. exists unsigned. split; [|exact H].
  unfold call. simpl. now rewrite signingRequests_app.
Qed.

Lemma requester_found env input w requester w' :
  (if truthy (soi_credentialOfferResponseToken input)
   then
     bind (lift (fromJWTValue env (soi_credentialOfferResponseToken input)))
          (fun credentialOfferResponse =>
             ret (Value (iss (payload credentialOfferResponse))))
   else ret (requesterDid input)) w
  = (Ok requester, w') ->
  requesterIs env input requester.
Proof.
  unfold requesterIs.
  destruct (truthy (soi_credentialOfferResponseToken input)).
  - unfold bind, lift, ret.
    destruct (fromJWTValue env _) as [response|e]; [|discriminate].
    intros H. injection H as <- _. now exists response.
  - unfold ret. intros H. now injection H as <- _.
Qed.

Lemma expiration_found env expiresAt w expirationDate w' :
  match expiresAt with
  | Some expiry =>
      if truthyString expiry
      then bind (lift (isoOfDateString env expiry)) (fun iso => ret (Some iso))
      else ret None
  | None => ret None
  end w = (Ok expirationDate, w') ->
  expirationDate = expirationOf env expiresAt.
Proof.
  unfold expirationOf.
  destruct expiresAt as [expiry|]; [|intros H; now injection H as <- _].
  destruct (truthyString expiry); [|intros H; now injection H as <- _].
  unfold bind, lift, ret.
  destruct (isoOfDateString env expiry); [|discriminate].
  intros H. now injection H as <- _.
Qed.

(** [signCredential] asks [Affinity.signCredential] at most once, for the
    credential built from its arguments. *)
Lemma signCredential_signsOnce env subject claimMetadata input expiresAt :
  signsOnce (builtBy env subject claimMetadata input expiresAt)
    (signCredential env subject claimMetadata input expiresAt).
Proof.
  unfold signCredential.
  apply signsOnce_after; [solve_quiet | intros _].
  apply signsOnce_after; [solve_quiet | intros _].
  apply (signsOnce_bind _ (requesterIs env input));
    [solve_quiet | apply requester_found | intros requester Hrequester].
  apply signsOnce_after; [solve_quiet | intros bytes].
  apply (signsOnce_bind _ (fun holderDid =>
                             parseDid env requester = Ok holderDid));
    [solve_quiet | | intros holderDid Hholder].
  { unfold lift. intros w a w' H. now injection H as -> _. }
  apply (signsOnce_bind _ (fun now : Z => True));
    [solve_quiet | auto | intros now _].
  apply (signsOnce_bind _ (fun expirationDate =>
                             expirationDate = expirationOf env expiresAt));
    [solve_quiet | apply expiration_found | intros expirationDate ->].
  apply signsOnce_call.
  exists requester, holderDid, bytes, now. auto.
Qed.





(** One of two parameters was selected: one credential is signed, for it.
    The sample library puts the base type and context first, also where the
    parameter has them already. *)
Example signCredentials_signs_the_selected_one :
  signingRequests
    (trace (snd (signCredentials Demo.env "jwt.offer.response"
                   [Demo.phoneParams; Sample.emailParams] Demo.world)))
  = [ {| u_context := ["https://www.w3.org/2018/credentials/v1";
                       "https://www.w3.org/2018/credentials/v1"];
         u_id := "claimId:00";
         u_type := ["VerifiableCredential"; "VerifiableCredential";
                    "EmailCredentialPersonV1"];
         u_holder := "did:elem:holder";
         u_credentialSubject := "email subject";
         u_issuanceDate := "2021-01-01T00:00:00.000Z";
         u_expirationDate := None |} ].
Proof. reflexivity. Qed.

(** ** Expiry dates and the holder of a signed credential *)

Lemma failsQuietly_bind {A B} (m : M A) (k : A -> M B) :
  quiet m -> (forall a, failsQuietly (k a)) -> failsQuietly (bind m k).
Proof.
  intros Hm Hk w. unfold bind. specialize (Hm w).
  destruct (m w) as [[a|e] w']; simpl in *.
  - rewrite <- Hm. apply Hk.
  - split; [exact Hm | now exists e].
Qed.

Lemma failsQuietly_fail {A B} (m : M A) (k : A -> M B) :
  failsQuietly m -> failsQuietly (bind m k).
Proof.
  intros Hm w. unfold bind. destruct (Hm w) as [Hq [e He]].
  destruct (m w) as [[a|e'] w']; simpl in *; [discriminate|].
  split; [exact Hq | now exists e'].
Qed.

Lemma failsQuietly_lift_err {A} e : failsQuietly (@lift A (Err e)).
Proof. intros w. split; [reflexivity | now exists e]. Qed.

Lemma signCredential_expired env subject claimMetadata input expiry w t :
  validate env (signCredentialRules subject claimMetadata input (Some expiry))
  = None ->
  dateGetTime env expiry = Some t ->
  (t < dateNow env (trace w))%Z ->
  signCredential env subject claimMetadata input (Some expiry) w
  = (Err expiryError, logEvent EvDateNow w).
Proof.
  intros Hv Ht Hlt. apply Z.ltb_lt in Hlt. unfold signCredential.
  rewrite (bind_ok _ _ w tt w) by now apply validateParams_ok.
  apply bind_err. unfold bind, currentTime. now rewrite Ht, Hlt.
Qed.

Lemma signCredential_no_date env subject claimMetadata input expiry :
  dateGetTime env expiry = None ->
  truthyString expiry = true ->
  failsQuietly (signCredential env subject claimMetadata input (Some expiry)).
Proof.
  intros Ht Htruthy. unfold signCredential, isoOfDateString.
  rewrite Ht, Htruthy.
  do 6 (apply failsQuietly_bind; [solve_quiet | intros ?]).
  apply failsQuietly_fail, failsQuietly_fail, failsQuietly_lift_err.
Qed.

(** X5.  An expiry date never lets [signCredential] sign something it should
    not: with parameters that validate, an expiry date that lies before the
    clock makes it throw the expiry error right after reading the clock; a
    non-empty expiry date that is no date passes that check but fails where
    it is converted; in both cases [Affinity.signCredential] is not
    called. *)
Theorem signCredential_rejects_bad_expiry
    env subject claimMetadata input (expiry : string) w :
  validate env (signCredentialRules subject claimMetadata input (Some expiry))
  = None ->
  match dateGetTime env expiry with
  | Some t => (t < dateNow env (trace w))%Z
  | None => truthyString expiry = true
  end ->
  let run := signCredential env subject claimMetadata input (Some expiry) w in
  (exists e, fst run = Err e)
  /\ signingRequests (trace (snd run)) = signingRequests (trace w)
  /\ match dateGetTime env expiry with
     | Some _ => run = (Err expiryError, logEvent EvDateNow w)
     | None => True
     end.
Proof.
  intros Hv Hexp run. unfold run.
  destruct (dateGetTime env expiry) as [t|] eqn:Ht.
  - rewrite (signCredential_expired _ _ _ _ _ _ t Hv Ht Hexp). simpl.
    rewrite signingRequests_app, app_nil_r.
    split; [eexists; reflexivity|]. now split.
  - destruct (signCredential_no_date env subject claimMetadata input expiry
                Ht Hexp w) as [Hq He].
    split; [exact He|]. now split.
Qed.

Lemma signCredential_rejects_bad_expiry_witness :
  signCredential Sample.datedMember "email subject" Sample.emailMetadata
    {| requesterDid := Value "did:elem:holder";
       soi_credentialOfferResponseToken := Undefined |}
    (Some "2020-06-01T00:00:00.000Z") Demo.world
  = (Err expiryError, logEvent EvDateNow Demo.world).
Proof.
  destruct (signCredential_rejects_bad_expiry Sample.datedMember
              "email subject" Sample.emailMetadata
              {| requesterDid := Value "did:elem:holder";
                 soi_credentialOfferResponseToken := Undefined |}
              "2020-06-01T00:00:00.000Z" Demo.world eq_refl)
    as (_ & _ & H).
  - simpl. lia.
  - exact H.
Defined.

(** An expiry that is no date: a [RangeError], after the identifier was
    drawn and the clock read, and nothing signed. *)
Example signCredential_unparsable_expiry :
  signCredential Sample.datedMember "email subject" Sample.emailMetadata
    {| requesterDid := Value "did:elem:holder";
       soi_credentialOfferResponseToken := Undefined |}
    (Some "next year") Demo.world
  = (Err (JsError "RangeError" "Invalid time value" None),
     logEvents [EvDateNow; EvRandomBytes 8; EvDateNow] Demo.world).
Proof. reflexivity. Qed.

(** X6.  When an offer response token is given and decodes,
    [signCredential] takes the holder from the issuer of that token and
    never from [requesterDid]: whatever [requesterDid] is, the run either
    fails without a call to [Affinity.signCredential], or makes one such
    call, for the credential that the credential library builds with the
    DID of the token's issuer as the holder. *)
Theorem signCredential_holder_is_token_issuer
    env subject claimMetadata (did : JsOpt string) (token : string)
    expiresAt w response :
  truthyString token = true ->
  fromJWT env token = Ok response ->
  let run :=
    signCredential env subject claimMetadata
      {| requesterDid := did;
         soi_credentialOfferResponseToken := Value token |}
      expiresAt w in
  (signingRequests (trace (snd run)) = signingRequests (trace w)
   /\ exists e, fst run = Err e)
  \/ (exists holderDid bytes now,
        parseDid env (Value (iss (payload response))) = Ok holderDid
        /\ signingRequests (trace (snd run))
           = signingRequests (trace w)
             ++ [credentialFor env subject claimMetadata holderDid
                   (expirationOf env expiresAt) bytes now]).
Proof.
  intros Ht Hd run.
  destruct (signCredential_signsOnce env subject claimMetadata
              {| requesterDid := did;
                 soi_credentialOfferResponseToken := Value token |}
              expiresAt w) as [Hquiet|(u & Hu & Hbuilt)].
  - left. exact Hquiet.
  - right.
    destruct Hbuilt
      as (requester & holderDid & bytes & now & Hrequester & Hholder & ->).
    exists holderDid, bytes, now. split; [|exact Hu].
    unfold requesterIs in Hrequester. simpl in Hrequester.
    rewrite Ht in Hrequester.
    destruct Hrequester as (response' & Hresponse & ->).
    rewrite Hd in Hresponse. now injection Hresponse as <-.
Qed.

Lemma signCredential_holder_is_token_issuer_witness :
  exists bytes now,
    signingRequests
      (trace (snd (signCredential Demo.env "email subject"
                     Sample.emailMetadata
                     {| requesterDid := Value "did:elem:somebody-else";
                        soi_credentialOfferResponseToken :=
                          Value "jwt.offer.response" |}
                     None Demo.world)))
    = [credentialFor Demo.env "email subject" Sample.emailMetadata
         "did:elem:holder" None bytes now].
Proof.
  destruct (signCredential_holder_is_token_issuer Demo.env "email subject"
              Sample.emailMetadata (Value "did:elem:somebody-else")
              "jwt.offer.response" None Demo.world Demo.offerResponse
              eq_refl eq_refl)
    as [[_ [e He]]|(holderDid & bytes & now & Hholder & Hrun)].
  - discriminate He.
  - injection Hholder as <-. exists bytes, now. exact Hrun.
Defined.

(** The credential goes to the issuer of the offer response. *)
Example signCredential_for_the_responder :
  fst (signCredential Demo.env "email subject" Sample.emailMetadata
         {| requesterDid := Value "did:elem:somebody-else";
            soi_credentialOfferResponseToken := Value "jwt.offer.response" |}
         None Demo.world)
  = Ok {| vc_id := "claimId:00";
          vc_type := ["VerifiableCredential"; "EmailCredentialPersonV1"];
          vc_holder := "did:elem:holder";
          vc_credentialSubject := "email subject"; vc_proof := "proof" |}.
Proof. reflexivity. Qed.

(** ** Metrics of a verification *)

Lemma logEvents_nil w : logEvents [] w = w.
Proof. destruct w. unfold logEvents. simpl. now rewrite app_nil_r. Qed.

Lemma logEvents_logEvent ev evs w :
  logEvents evs (logEvent ev w) = logEvents (ev :: evs) w.
Proof. unfold logEvents, logEvent. simpl. now rewrite <- app_assoc. Qed.

Lemma sendMetrics_run env credentials w :
  _sendVCVerifiedPerPartyMetrics env credentials w
  = (Ok tt, logEvents (verifiedMetrics env credentials) w).
Proof.
  unfold _sendVCVerifiedPerPartyMetrics. revert w.
  induction credentials as [|c rest IH]; intros w; simpl.
  - unfold ret. now rewrite logEvents_nil.
  - unfold bind, _sendVCVerifiedPerPartyMetric, fireAndForget.
    rewrite IH. now rewrite logEvents_logEvent.
Qed.

(** X7.  Verifying a share response against a given request token makes one
    call to the holder service and, when the service answers, returns that
    answer.  Metrics are sent after it, one per supplied credential in their
    order, exactly when the answer is valid and the member does not run in
    the test environment; otherwise none is sent. *)
Theorem verification_metrics
    env responseToken (requestToken : JsOpt string) shouldOwn w response :
  validate env (verifyShareResponseRules responseToken requestToken
                  (default true shouldOwn)) = None ->
  holder_verifyCredentialShareResponse env responseToken requestToken
    (default true shouldOwn) (trace w) = Ok response ->
  verifyCredentialShareResponseToken env responseToken
    (RequestToken requestToken) shouldOwn w
  = (Ok (outputOf response),
     logEvents
       (EvVerifyCredentialShareResponse responseToken requestToken
          (default true shouldOwn)
        :: (if sv_isValid response && negb (isTestEnvironment env)
            then verifiedMetrics env (sv_suppliedCredentials response)
            else []))
       w).
Proof.
  intros Hv Hs.
  rewrite (verifyShareResponse_literal _ _ _ _ _ Hv).
  unfold verifyAgainstRequest. unfold bind at 1. unfold call at 1.
  rewrite Hs. unfold bind at 1.
  destruct (sv_isValid response && negb (isTestEnvironment env)).
  - rewrite sendMetrics_run. unfold ret, outputOf.
    now rewrite logEvents_logEvent.
  - unfold ret, outputOf. reflexivity.
Qed.

Lemma verification_metrics_witness :
  verifyCredentialShareResponseToken Demo.env "jwt.share.response"
    (RequestToken (Value "jwt.email.request")) (Some false) Demo.world
  = (Ok {| isValid := true; out_did := "did:elem:holder";
           out_nonce := "nonce-2"; out_suppliedCredentials := [];
           out_errors := [] |},
     logEvents
       [EvVerifyCredentialShareResponse "jwt.share.response"
          (Value "jwt.email.request") false]
       Demo.world).
Proof.
  apply (verification_metrics Demo.env "jwt.share.response"
           (Value "jwt.email.request") (Some false) Demo.world
           {| sv_isValid := true; sv_did := "did:elem:holder";
              sv_jti := "nonce-2"; sv_suppliedCredentials := [];
              sv_errors := [] |}); reflexivity.
Defined.

(** Two credentials in a valid response: two metrics events. *)
Example verification_metrics_per_credential :
  trace (snd (verifyCredentialShareResponseToken Sample.datedMember
                "jwt.share.response" (RequestToken Undefined) None Demo.world))
  = [ EvVerifyCredentialShareResponse "jwt.share.response" Undefined true;
      EvMetricsSend (Some "claimId:aa11") "did:elem:holder" "metadata";
      EvMetricsSend (Some "claimId:63b5d11c0d1b5566") "did:elem:holder"
        "metadata" ].
Proof. reflexivity. Qed.

(** ** Revocation status: edge cases *)

(** X8.  A credential object without ["@context"]: the revocation service
    has already been asked, and has answered, when
    [buildRevocationListStatus] throws a [TypeError] at the push.  Nothing
    is signed or published, whatever the service said about publishing, and
    the object passed in is as it was. *)
Theorem status_for_credential_without_context
    env l token w fields response :
  heap w !! l = Some (CObj fields) ->
  fields !! "@context" = None ->
  revocation_buildRevocationListStatus env
    (default VUndefined (fields !! "id"))
    (readProperty (heap w) (default VUndefined (fields !! "holder")) "id")
    token (trace w) = Ok response ->
  let run := buildRevocationListStatus env (VRef l) token w in
  fst run
  = Err (JsError "TypeError"
           "Cannot read properties of undefined (reading 'push')" None)
  /\ trace (snd run)
     = trace w
       ++ [EvBuildRevocationListStatus
             (default VUndefined (fields !! "id"))
             (readProperty (heap w)
                (default VUndefined (fields !! "holder")) "id")
             token]
  /\ heap (snd run) !! l = Some (CObj fields)
  /\ heap (snd run)
     = heap w ++ [CObj (<["credentialStatus" := credentialStatus response]> fields)].
Proof.
  intros Hl Hc Hs run.
  assert (Hrun :
    run
    = (Err (JsError "TypeError"
              "Cannot read properties of undefined (reading 'push')" None),
       setHeap
         (heap w
          ++ [CObj (<["credentialStatus" := credentialStatus response]> fields)])
         (logEvent
            (EvBuildRevocationListStatus
               (default VUndefined (fields !! "id"))
               (readProperty (heap w)
                  (default VUndefined (fields !! "holder")) "id")
               token) w))).
  { unfold run, buildRevocationListStatus.
    rewrite (bind_ok _ _ w _ w (getProperty_object _ _ _ _ Hl)).
    rewrite (bind_ok _ _ w _ w (getProperty_object _ _ _ _ Hl)).
    rewrite (bind_ok _ _ w _ w (getOptionalProperty_read _ _ _)).
    unfold bind at 1. unfold call at 1. rewrite Hs.
    set (w1 := logEvent _ w).
    assert (Hl1 : heap w1 !! l = Some (CObj fields)) by exact Hl.
    rewrite (bind_ok _ _ w1 _ _ (assignWith_object _ _ _ _ _ Hl1)).
    change (heap w1) with (heap w).
    unfold bind at 1. unfold pushToProperty. simpl heap.
    rewrite (list_lookup_middle (heap w) [] _ (length (heap w)) eq_refl).
    rewrite lookup_insert_ne by discriminate. now rewrite Hc. }
  rewrite Hrun. simpl. repeat split.
  rewrite lookup_app_l by (eapply lookup_lt_Some; exact Hl). exact Hl.
Qed.

Lemma status_for_credential_without_context_witness :
  let before :=
    {| trace := [];
       heap := [CObj (<["id" := VStr "credId:1"]> ∅)];
       cognitoUserTokens := None |} in
  let run := buildRevocationListStatus Demo.env (VRef 0) "access-token" before in
  fst run
  = Err (JsError "TypeError"
           "Cannot read properties of undefined (reading 'push')" None)
  /\ trace (snd run)
     = [EvBuildRevocationListStatus (VStr "credId:1") VUndefined "access-token"]
  /\ heap (snd run) !! 0%nat = Some (CObj (<["id" := VStr "credId:1"]> ∅)).
Proof.
  pose proof (status_for_credential_without_context Demo.env 0 "access-token"
                {| trace := [];
                   heap := [CObj (<["id" := VStr "credId:1"]> ∅)];
                   cognitoUserTokens := None |}
                (<["id" := VStr "credId:1"]> ∅)
                {| credentialStatus := VStr "list#1"; isPublisRequired := true;
                   bs_revocationListCredential := "list" |}
                eq_refl eq_refl eq_refl) as (H1 & H2 & H3 & _).
  cbv zeta. split; [exact H1 | split; [exact H2 | exact H3]].
Defined.

Lemma credentialAt_after env l token w fields a context response :
  credentialAt w l fields a context ->
  revocation_buildRevocationListStatus env
    (default VUndefined (fields !! "id"))
    (readProperty (heap w) (default VUndefined (fields !! "holder")) "id")
    token (trace w) = Ok response ->
  credentialAt (snd (buildRevocationListStatus env (VRef l) token w)) l fields a
    (context ++ [VStr revocationListContext]).
Proof.
  intros Hshape Hs. unfold credentialAt.
  rewrite (buildRevocationListStatus_heap _ _ _ _ _ _ _ _ Hshape Hs).
  destruct Hshape as (Hl & Hc & Ha).
  assert (Hla : l <> a) by (intros ->; rewrite Hl in Ha; discriminate).
  split; [|split; [exact Hc | now apply revokableHeap_context]].
  rewrite revokableHeap_other by exact Hla.
  rewrite lookup_app_l by (eapply lookup_lt_Some; exact Hl). exact Hl.
Qed.

Lemma buildRevocationListStatus_length env l token w fields a context response :
  credentialAt w l fields a context ->
  revocation_buildRevocationListStatus env
    (default VUndefined (fields !! "id"))
    (readProperty (heap w) (default VUndefined (fields !! "holder")) "id")
    token (trace w) = Ok response ->
  length (heap (snd (buildRevocationListStatus env (VRef l) token w)))
  = S (length (heap w)).
Proof.
  intros Hshape Hs.
  rewrite (buildRevocationListStatus_heap _ _ _ _ _ _ _ _ Hshape Hs).
  unfold revokableHeap. rewrite length_insert, length_app. simpl. lia.
Qed.

(** X9.  Attaching a status twice to the same unsigned credential, the
    revocation service answering both times: the two returned objects and
    the object passed in all refer to one context array, and that array has
    been given the revocation-list context twice. *)
Theorem status_built_twice env l token w fields a context first second :
  credentialAt w l fields a context ->
  revocation_buildRevocationListStatus env
    (default VUndefined (fields !! "id"))
    (readProperty (heap w) (default VUndefined (fields !! "holder")) "id")
    token (trace w) = Ok first ->
  let w1 := snd (buildRevocationListStatus env (VRef l) token w) in
  revocation_buildRevocationListStatus env
    (default VUndefined (fields !! "id"))
    (readProperty (heap w1) (default VUndefined (fields !! "holder")) "id")
    token (trace w1) = Ok second ->
  let after := heap (snd (buildRevocationListStatus env (VRef l) token w1)) in
  after !! a
  = Some (CArr (context ++ [VStr revocationListContext;
                            VStr revocationListContext]))
  /\ after !! l = Some (CObj fields)
  /\ after !! length (heap w)
     = Some (CObj (<["credentialStatus" := credentialStatus first]> fields))
  /\ after !! S (length (heap w))
     = Some (CObj (<["credentialStatus" := credentialStatus second]> fields))
  /\ readProperty after (VRef (length (heap w))) "@context" = VRef a
  /\ readProperty after (VRef (S (length (heap w)))) "@context" = VRef a.
Proof.
  intros Hshape Hfirst w1 Hsecond after.
  pose proof (credentialAt_after _ _ _ _ _ _ _ _ Hshape Hfirst) as Hshape1.
  fold w1 in Hshape1.
  pose proof (buildRevocationListStatus_length _ _ _ _ _ _ _ _ Hshape Hfirst)
    as Hlen. fold w1 in Hlen.
  pose proof (buildRevocationListStatus_heap _ _ _ _ _ _ _ _ Hshape Hfirst)
    as Hheap1. fold w1 in Hheap1.
  destruct Hshape as (Hl & Hc & Ha).
  assert (Hlt : (a < length (heap w))%nat) by now apply lookup_lt_Some in Ha.
  assert (Hfirst_object :
    heap w1 !! length (heap w)
    = Some (CObj (<["credentialStatus" := credentialStatus first]> fields))).
  { rewrite Hheap1. now apply revokableHeap_output. }
  unfold after.
  rewrite (buildRevocationListStatus_heap _ _ _ _ _ _ _ _ Hshape1 Hsecond).
  destruct Hshape1 as (Hl1 & _ & Ha1).
  assert (Ha' :
    revokableHeap (heap w1) fields a
      (context ++ [VStr revocationListContext]) (credentialStatus second) !! a
    = Some (CArr (context ++ [VStr revocationListContext;
                              VStr revocationListContext]))).
  { rewrite revokableHeap_context by exact Ha1. now rewrite <- app_assoc. }
  assert (Hl' :
    revokableHeap (heap w1) fields a
      (context ++ [VStr revocationListContext]) (credentialStatus second) !! l
    = Some (CObj fields)).
  { rewrite revokableHeap_other
      by (intros ->; rewrite Hl in Ha; discriminate).
    rewrite lookup_app_l by (eapply lookup_lt_Some; exact Hl1). exact Hl1. }
  assert (H1' :
    revokableHeap (heap w1) fields a
      (context ++ [VStr revocationListContext]) (credentialStatus second)
      !! length (heap w)
    = Some (CObj (<["credentialStatus" := credentialStatus first]> fields))).
  { rewrite revokableHeap_other by lia.
    rewrite lookup_app_l by (rewrite Hlen; lia). exact Hfirst_object. }
  assert (H2' :
    revokableHeap (heap w1) fields a
      (context ++ [VStr revocationListContext]) (credentialStatus second)
      !! S (length (heap w))
    = Some (CObj (<["credentialStatus" := credentialStatus second]> fields))).
  { rewrite <- Hlen. now apply revokableHeap_output. }
  split; [exact Ha'|]. split; [exact Hl'|]. split; [exact H1'|].
  split; [exact H2'|].
  unfold readProperty, loc. rewrite H1', H2'.
  now rewrite !lookup_insert_ne, Hc by discriminate.
Qed.

Lemma status_built_twice_witness :
  let before := Demo.issuing [Demo.credentialsContext] in
  let w1 := snd (buildRevocationListStatus Demo.env (VRef 2) "access-token"
                   before) in
  let after :=
    heap (snd (buildRevocationListStatus Demo.env (VRef 2) "access-token" w1)) in
  after !! 0%nat
  = Some (CArr [Demo.credentialsContext; VStr revocationListContext;
                VStr revocationListContext])
  /\ after !! 2%nat = Some (CObj Demo.credentialFields).
Proof.
  assert (Hshape : credentialAt (Demo.issuing [Demo.credentialsContext]) 2
                     Demo.credentialFields 0 [Demo.credentialsContext])
    by (repeat split).
  pose proof (status_built_twice Demo.env 2 "access-token"
                (Demo.issuing [Demo.credentialsContext])
                Demo.credentialFields 0 [Demo.credentialsContext]
                {| credentialStatus := VStr "list#1"; isPublisRequired := true;
                   bs_revocationListCredential := "list" |}
                {| credentialStatus := VStr "list#1"; isPublisRequired := false;
                   bs_revocationListCredential := "list" |}
                Hshape eq_refl eq_refl) as (H1 & H2 & _).
  cbv zeta. split; [exact H1 | exact H2].
Defined.

(** ** The access token of the seed upload *)

Lemma forallb_repeat {A} (f : A -> bool) x n :
  f x = true -> forallb f (repeat x n) = true.
Proof. intros H. induction n; simpl; [reflexivity|]. now rewrite H. Qed.

Lemma storeWith_run env token w0 :
  exists r evs,
    storeWith env token w0 = (r, logEvents evs w0)
    /\ forallb (isStorageCallWith token) evs = true.
Proof.
  unfold storeWith, bind, lift, call.
  destruct (decryptSeed env) as [seed|e].
  - destruct (walletStorage_pullEncryptionKey env token (trace w0)) as [key|e].
    + destruct (retry_bounded env token seed key 3
                  (logEvent (EvPullEncryptionKey token) w0))
        as (n & _ & Hn).
      destruct (retry _ 3 _) as [r w2]. simpl in Hn. subst w2.
      exists r, (EvPullEncryptionKey token
                 :: repeat (EvStoreEncryptedSeed token seed key) n).
      split.
      * now rewrite logEvents_logEvent.
      * simpl. rewrite String.eqb_refl. apply forallb_repeat.
        simpl. apply String.eqb_refl.
    + exists (Err e), [EvPullEncryptionKey token].
      split; [reflexivity|]. simpl. now rewrite String.eqb_refl.
  - exists (Err e), []. split; [|reflexivity]. now rewrite logEvents_nil.
Qed.

Lemma storeWith_calls env token w0 :
  cognitoUserTokens (snd (storeWith env token w0)) = cognitoUserTokens w0
  /\ exists evs,
       trace (snd (storeWith env token w0)) = trace w0 ++ evs
       /\ forallb (isStorageCallWith token) evs = true.
Proof.
  destruct (storeWith_run env token w0) as (r & evs & Hrun & Hall).
  rewrite Hrun. split; [reflexivity|]. exists evs. now split.
Qed.

Lemma storeEncryptedSeed_given_token env username password t w :
  validate env (storeSeedRules username password (Some t)) = None ->
  truthyString t = true ->
  storeEncryptedSeed env username password (Some t) w = storeWith env t w.
Proof.
  intros Hv Ht. unfold storeEncryptedSeed.
  rewrite (bind_ok _ _ w tt w) by now apply validateParams_ok.
  cbv zeta. rewrite Ht. reflexivity.
Qed.

Lemma storeEncryptedSeed_signing_in env username password token w :
  validate env (storeSeedRules username password token) = None ->
  match token with Some t => truthyString t = false | None => True end ->
  storeEncryptedSeed env username password token w
  = (let normalized := normalizeShortPassword env password username in
     let w1 := logEvent (EvCognitoSignIn username normalized) w in
     match
       cognito_signIn env (userPoolId env) (clientId env) username normalized
         (trace w)
     with
     | Err e => (Err e, w1)
     | Ok tokens =>
         storeWith env (accessToken tokens) (setCognitoUserTokens tokens w1)
     end).
Proof.
  intros Hv Ht. unfold storeEncryptedSeed.
  rewrite (bind_ok _ _ w tt w) by now apply validateParams_ok.
  cbv zeta.
  assert (Hsign :
    forall B (k : string -> M B),
      bind
        (let! tokens :=
           call (EvCognitoSignIn username
                   (normalizeShortPassword env password username))
                (cognito_signIn env (userPoolId env) (clientId env) username
                   (normalizeShortPassword env password username)) in
         let! w := getWorld in
         let! _ := putWorld (setCognitoUserTokens tokens w) in
         ret (accessToken tokens)) k w
      = match
          cognito_signIn env (userPoolId env) (clientId env) username
            (normalizeShortPassword env password username) (trace w)
        with
        | Err e =>
            (Err e,
             logEvent (EvCognitoSignIn username
                         (normalizeShortPassword env password username)) w)
        | Ok tokens =>
            k (accessToken tokens)
              (setCognitoUserTokens tokens
                 (logEvent (EvCognitoSignIn username
                              (normalizeShortPassword env password username))
                    w))
        end).
  { intros B k. unfold bind, call, getWorld, putWorld, ret.
    destruct (cognito_signIn env _ _ _ _ _); reflexivity. }
  destruct token as [t|]; [rewrite Ht; simpl|]; rewrite Hsign;
    destruct (cognito_signIn env _ _ _ _ _); reflexivity.
Qed.

(** X10.  Which access token [storeEncryptedSeed] uses.  Given a non-empty
    token, it never signs in: it calls only the wallet storage service, with
    that token, and the member's Cognito tokens stay as they are.  Given no
    token, or an empty one, it first signs in with the normalised password;
    an error of the sign-in ends the operation; otherwise the tokens received
    are kept by the member, whatever happens next, and every later call uses
    their access token. *)
Theorem seed_upload_access_token env username password token w :
  validate env (storeSeedRules username password token) = None ->
  let run := storeEncryptedSeed env username password token w in
  match token with
  | Some t =>
      if truthyString t
      then storesUnder w [] t (cognitoUserTokens w) run
      else signsInFirst env username password w run
  | None => signsInFirst env username password w run
  end.
Proof.
  intros Hv run.
  assert (Hsign :
    match token with Some t => truthyString t = false | None => True end ->
    signsInFirst env username password w run).
  { intros Ht. unfold signsInFirst, run.
    rewrite (storeEncryptedSeed_signing_in _ _ _ _ _ Hv Ht). cbv zeta.
    destruct (cognito_signIn env _ _ _ _ _) as [tokens|e]; [|reflexivity].
    destruct (storeWith_calls env (accessToken tokens)
                (setCognitoUserTokens tokens
                   (logEvent
                      (EvCognitoSignIn username
                         (normalizeShortPassword env password username)) w)))
      as (Hk & evs & Htr & Hall).
    split; [exact Hk|]. exists evs. split; [|exact Hall].
    rewrite Htr. simpl. now rewrite <- app_assoc. }
  destruct token as [t|]; [|now apply Hsign].
  destruct (truthyString t) eqn:Ht; [|now apply Hsign].
  unfold run. rewrite (storeEncryptedSeed_given_token _ _ _ _ _ Hv Ht).
  destruct (storeWith_calls env t w) as (Hk & evs & Htr & Hall).
  split; [exact Hk|]. exists evs. now split.
Qed.

Lemma seed_upload_access_token_witness :
  signsInFirst Demo.env "user@example.org" "password" Demo.world
    (storeEncryptedSeed Demo.env "user@example.org" "password" None Demo.world).
Proof.
  exact (seed_upload_access_token Demo.env "user@example.org" "password" None
           Demo.world eq_refl).
Defined.

(** A short password is normalised before the sign-in, and the access token
    of the answer is the one the storage calls carry. *)
Example seed_upload_signs_in :
  trace (snd (storeEncryptedSeed Sample.datedMember "user@example.org" "pw"
                None Demo.world))
  = EvCognitoSignIn "user@example.org" "pwuser@example.org"
    :: EvPullEncryptionKey "access.user@example.org"
    :: repeat (EvStoreEncryptedSeed "access.user@example.org" "seed++elem"
                 "key") 3.
Proof. reflexivity. Qed.

(** ** Presentation challenges and share requests *)

Lemma shareRequest_run env credentialRequirements issuerDid options keyId w :
  bind (validateParams env
          (shareRequestRules credentialRequirements issuerDid options))
       (fun _ =>
          bind (call (EvBuildCredentialRequest
                        (shareRequestParams credentialRequirements issuerDid
                           options))
                     (verifierApi_BuildCredentialRequest env
                        (shareRequestParams credentialRequirements issuerDid
                           options)))
               (fun request => lift (signedWith env keyId request))) w
  = match validate env
            (shareRequestRules credentialRequirements issuerDid options) with
    | Some e => (Err e, w)
    | None =>
        let params :=
          shareRequestParams credentialRequirements issuerDid options in
        (match verifierApi_BuildCredentialRequest env params (trace w) with
         | Ok request => signedWith env keyId request
         | Err e => Err e
         end,
         logEvent (EvBuildCredentialRequest params) w)
    end.
Proof.
  unfold bind, validateParams, call, lift, throw, ret.
  destruct (validate env _) as [e|]; [reflexivity|].
  cbv zeta.
  destruct (verifierApi_BuildCredentialRequest env _ (trace w)); reflexivity.
Qed.

Lemma signedWith_bind env keyId request w :
  bind (lift (signJWT env request keyId))
       (fun signedObject => lift (encodeObjectToJWT env signedObject)) w
  = lift (signedWith env keyId request) w.
Proof.
  unfold bind, lift, signedWith.
  destruct (signJWT env request keyId); reflexivity.
Qed.

Lemma generatePresentationChallenge_run env credentialRequirements issuerDid
    options w :
  generatePresentationChallenge env credentialRequirements issuerDid options w
  = match validate env
            (shareRequestRules credentialRequirements issuerDid options) with
    | Some e => (Err e, w)
    | None =>
        let params :=
          shareRequestParams credentialRequirements issuerDid options in
        (match verifierApi_BuildCredentialRequest env params (trace w) with
         | Ok request => signedWith env None request
         | Err e => Err e
         end,
         logEvent (EvBuildCredentialRequest params) w)
    end.
Proof.
  rewrite <- shareRequest_run.
  unfold generatePresentationChallenge.
  apply bind_ext. intros _ w1.
  destruct options; apply bind_ext; intros request w2; apply signedWith_bind.
Qed.

Lemma generateCredentialShareRequestToken_run env credentialRequirements
    issuerDid options w :
  generateCredentialShareRequestToken env credentialRequirements issuerDid
    options w
  = match validate env
            (shareRequestRules credentialRequirements issuerDid options) with
    | Some e => (Err e, w)
    | None =>
        let params :=
          shareRequestParams credentialRequirements issuerDid options in
        (match verifierApi_BuildCredentialRequest env params (trace w) with
         | Ok request => signedWith env (Some (didDocumentKeyId env)) request
         | Err e => Err e
         end,
         logEvent (EvBuildCredentialRequest params) w)
    end.
Proof.
  rewrite <- shareRequest_run.
  unfold generateCredentialShareRequestToken.
  apply bind_ext. intros _ w1.
  destruct options; apply bind_ext; intros request w2; apply signedWith_bind.
Qed.

(** X11. A presentation challenge is a credential share request signed
    without a key identifier: [generatePresentationChallenge] and
    [generateCredentialShareRequestToken] validate the same parameters, send
    the same request to the verifier API and leave the same state; when both
    steps succeed, each returns the encoding of the API's answer, signed with
    no key identifier by the first and with the member's key identifier by
    the second; when one fails, both fail with its error. *)
Theorem presentation_challenge_is_unkeyed_share_request env
    credentialRequirements issuerDid options w :
  let challenge :=
    generatePresentationChallenge env credentialRequirements issuerDid
      options w in
  let token :=
    generateCredentialShareRequestToken env credentialRequirements issuerDid
      options w in
  let params := shareRequestParams credentialRequirements issuerDid options in
  snd challenge = snd token
  /\ (forall request,
        validate env
          (shareRequestRules credentialRequirements issuerDid options) = None ->
        verifierApi_BuildCredentialRequest env params (trace w) = Ok request ->
        fst challenge = signedWith env None request
        /\ fst token = signedWith env (Some (didDocumentKeyId env)) request
        /\ snd challenge = logEvent (EvBuildCredentialRequest params) w)
  /\ (forall e,
        validate env
          (shareRequestRules credentialRequirements issuerDid options) = Some e
        \/ (validate env
              (shareRequestRules credentialRequirements issuerDid options)
            = None
            /\ verifierApi_BuildCredentialRequest env params (trace w)
               = Err e) ->
        fst challenge = Err e /\ fst token = Err e).
Proof.
  cbv zeta.
  rewrite generatePresentationChallenge_run,
    generateCredentialShareRequestToken_run.
  split; [|split].
  - destruct (validate env _); reflexivity.
  - intros request Hv Ha. rewrite Hv. cbv zeta. rewrite Ha. simpl. auto.
  - intros e [Hv|[Hv Ha]]; rewrite Hv; cbv zeta; [|rewrite Ha]; simpl; auto.
Qed.

Lemma presentation_challenge_is_unkeyed_share_request_witness :
  let requirements :=
    [ {| cr_type := ["Credential"; "EmailCredentialPersonV1"];
         cr_constraints := [] |} ] in
  exists request,
    validate Demo.env (shareRequestRules requirements Null None) = None
    /\ verifierApi_BuildCredentialRequest Demo.env
         (shareRequestParams requirements Null None) (trace Demo.world)
       = Ok request
    /\ fst (generatePresentationChallenge Demo.env requirements Null None
              Demo.world)
       = signedWith Demo.env None request
    /\ fst (generateCredentialShareRequestToken Demo.env requirements Null None
              Demo.world)
       = signedWith Demo.env (Some (didDocumentKeyId Demo.env)) request.
Proof.
  cbv zeta. eexists.
  split; [vm_compute; reflexivity|].
  split; [vm_compute; reflexivity|].
  pose proof
    (presentation_challenge_is_unkeyed_share_request Demo.env
       [ {| cr_type := ["Credential"; "EmailCredentialPersonV1"];
            cr_constraints := [] |} ] Null None Demo.world) as H.
  cbv zeta in H. destruct H as [_ [H _]].
  destruct (H _ eq_refl eq_refl) as [H1 [H2 _]].
  split; [exact H1 | exact H2].
Defined.

(** ** Keys, DID documents and accounts *)

Lemma pbind_done {A B} (m : Account.P A) (k : A -> Account.P B) st a st' :
  m st = (Account.Done a, st') -> Account.pbind m k st = k a st'.
Proof. intros H. unfold Account.pbind. now rewrite H. Qed.

Lemma pbind_failed {A B} (m : Account.P A) (k : A -> Account.P B) st e st' :
  m st = (Account.Failed e, st') ->
  Account.pbind m k st = (Account.Failed e, st').
Proof. intros H. unfold Account.pbind. now rewrite H. Qed.

Lemma validateAll_ok sv rules st :
  Account.validateRules sv rules = None ->
  Account.validateAll sv rules st = (Account.Done tt, st).
Proof. intros H. unfold Account.validateAll. now rewrite H. Qed.

Lemma logCalls_nil st : logCalls [] st = st.
Proof. destruct st. unfold logCalls. simpl. now rewrite app_nil_r. Qed.

Lemma logCalls_logCall c log st :
  logCalls log (Account.logCall c st) = logCalls (c :: log) st.
Proof. unfold logCalls, Account.logCall. simpl. now rewrite <- app_assoc. Qed.

Lemma logCall_logCalls c st : Account.logCall c st = logCalls [c] st.
Proof. reflexivity. Qed.

Lemma truthyString_nonempty s :
  truthyString s && negb (String.eqb s EmptyString)
  = negb (String.eqb s EmptyString).
Proof. destruct s; reflexivity. Qed.

(** X12. A member whose DID is not a [did:jolo] one can never update a DID
    document: whatever the document, [updateDidDocument] fails and leaves the
    state as it was, with no call to the registry; once the parameter is
    valid the error is COR-20 for a document of another DID method and
    COR-21 for a [did:jolo] document, which cannot be the member's own. *)
Theorem updateDidDocument_needs_jolo_member sv didDocument st :
  String.prefix "did:jolo" (Account.member_did sv) = false ->
  exists e,
    Account.updateDidDocument sv didDocument st = (Account.Failed e, st)
    /\ (Account.validateRules sv (updateDidDocumentRules didDocument) = None ->
        Account.failureCode e
        = Some (if String.prefix "did:jolo" (Account.dd_id didDocument)
                then "COR-21" else "COR-20")).
Proof.
  intros Hmember.
  unfold Account.updateDidDocument, Account.validateAll, Account.pbind,
    Account.pthrow, Account.pret, updateDidDocumentRules.
  destruct (Account.validateRules sv _) as [e|].
  - exists e. split; [reflexivity | discriminate].
  - destruct (String.prefix "did:jolo" (Account.dd_id didDocument)) eqn:Hjolo;
      simpl.
    + destruct (String.eqb (Account.member_did sv) (Account.dd_id didDocument))
        eqn:Hsame; simpl.
      * apply String.eqb_eq in Hsame. congruence.
      * eexists. split; reflexivity.
    + eexists. split; reflexivity.
Qed.

Lemma updateDidDocument_needs_jolo_member_witness :
  exists e,
    Account.updateDidDocument AccountSample.elemServices
      AccountSample.elemDocument AccountSample.fresh
    = (Account.Failed e, AccountSample.fresh)
    /\ (Account.validateRules AccountSample.elemServices
          (updateDidDocumentRules AccountSample.elemDocument) = None ->
        Account.failureCode e
        = Some (if String.prefix "did:jolo"
                     (Account.dd_id AccountSample.elemDocument)
                then "COR-21" else "COR-20")).
Proof.
  exact (updateDidDocument_needs_jolo_member AccountSample.elemServices
           AccountSample.elemDocument AccountSample.fresh eq_refl).
Defined.

(** A [did:jolo] document of another member is refused with COR-21. *)
Example updateDidDocument_of_another_member :
  Account.updateDidDocument AccountSample.services
    {| Account.dd_id := "did:jolo:another"; Account.dd_content := "keys" |}
    AccountSample.fresh
  = (Account.Failed
       (Account.SdkFailure "COR-21"
          [("did", "did:jolo:another");
           ("instanceDid", Account.dd_id AccountSample.joloDocument)] None),
     AccountSample.fresh).
Proof. reflexivity. Qed.

(** X13. For a seed of the sidetree network [anchorDid] cannot fail once the
    seed is decrypted: it makes one registry call, [AnchorDid] with the DID
    and an empty address, public key and signature (and no nonce), and
    returns; when that call fails, the error is written to the console and
    swallowed.  The document is neither signed nor stored. *)
Theorem anchorDid_sidetree sv encryptedSeed password didDocument nonce st
    keys :
  seedMethod sv encryptedSeed password keys true ->
  Account.anchorDid sv encryptedSeed password didDocument nonce st
  = (Account.Done tt,
     logCalls
       (Account.CallRegistry "AnchorDid"
          (elemAnchorParams (Account.dd_id didDocument))
        :: match
             Account.registry_execute sv "AnchorDid"
               (elemAnchorParams (Account.dd_id didDocument))
               (Account.calls st)
           with
           | Account.Done _ => []
           | Account.Failed error =>
               [Account.CallConsoleLog "to check logs at the backend" error]
           end)
       st).
Proof.
  intros [Hkeys Helem].
  unfold Account.anchorDid, Account.pbind, Account.plift, Account.ptry,
    Account.pcall, Account.pret, Account.consoleLog, elemAnchorParams.
  rewrite Hkeys, Helem. simpl.
  destruct (Account.registry_execute sv "AnchorDid" _ (Account.calls st));
    simpl.
  - reflexivity.
  - unfold logCalls, Account.logCall. simpl. now rewrite <- app_assoc.
Qed.

Lemma anchorDid_sidetree_witness :
  Account.anchorDid AccountSample.elemServices "elem-seed" "password"
    AccountSample.elemDocument 0 AccountSample.fresh
  = (Account.Done tt,
     logCalls
       [ Account.CallRegistry "AnchorDid"
           (elemAnchorParams (Account.dd_id AccountSample.elemDocument));
         Account.CallConsoleLog "to check logs at the backend"
           (Account.JsFailure "Error" "registry is down" (Some "ECONNRESET")) ]
       AccountSample.fresh).
Proof.
  exact (anchorDid_sidetree AccountSample.elemServices "elem-seed" "password"
           AccountSample.elemDocument 0 AccountSample.fresh
           {| Account.seedHex := "5eed"; Account.didMethod := "elem";
              Account.seedHexWithMethod := "elem-seed" |}
           (conj eq_refl eq_refl)).
Defined.

Lemma anchorDid_anchored sv encryptedSeed password didDocument nonce st st'
    keys :
  seedMethod sv encryptedSeed password keys false ->
  Account.anchorDid sv encryptedSeed password didDocument nonce st
  = (Account.Done tt, st') ->
  exists signedDidDocument stored transaction signature,
    anchoringAnswers sv keys encryptedSeed password didDocument nonce
      (Account.calls st) signedDidDocument stored transaction signature
    /\ st' = logCalls
               (anchoringCalls sv keys didDocument signedDidDocument nonce
                  (Account.body_hash stored)
                  (Account.body_digestHex transaction) signature)
               st.
Proof.
  intros [Hkeys Helem].
  unfold Account.anchorDid, Account.pbind, Account.plift, Account.ptry,
    Account.pcall, Account.pret, Account.consoleLog.
  rewrite Hkeys, Helem. simpl.
  destruct (Account.signDidDocument sv _ _ _ _) as [signed|] eqn:Hsigned;
    [|discriminate].
  destruct (Account.registry_execute sv "PutDocumentInIpfs" _ _)
    as [stored|] eqn:Hstored; [|discriminate].
  destruct (Account.registry_execute sv "CreateAnchorTransaction" _ _)
    as [transaction|] eqn:Htransaction; [|discriminate].
  rewrite <- app_assoc in Htransaction. simpl in Htransaction.
  assert (Hanswers : forall signature,
    signedDigest sv keys encryptedSeed password
      (Account.body_digestHex transaction)
      (Account.calls st
       ++ [Account.CallSignDidDocument didDocument;
           Account.CallRegistry "PutDocumentInIpfs"
             [("document", Account.ADocument signed)];
           Account.CallRegistry "CreateAnchorTransaction"
             (transactionParams (Account.dd_id didDocument) nonce
                (Account.body_hash stored))])
    = Account.Done signature ->
    anchoringAnswers sv keys encryptedSeed password didDocument nonce
      (Account.calls st) signed stored transaction signature).
  { intros signature Hsignature. unfold anchoringAnswers. cbv zeta. auto. }
  destruct (Account.body_digestHex transaction) as [| |digest] eqn:Hdigest.
  - destruct (Account.registry_execute sv "AnchorDid" _ _); [|discriminate].
    intros H. injection H as <-.
    exists signed, stored, transaction, EmptyString.
    split; [apply Hanswers; unfold signedDigest; now rewrite ?Hdigest|].
    unfold anchoringCalls. rewrite Hdigest.
    unfold logCalls, Account.logCall. simpl.
    now rewrite <- !app_assoc.
  - destruct (Account.registry_execute sv "AnchorDid" _ _); [|discriminate].
    intros H. injection H as <-.
    exists signed, stored, transaction, EmptyString.
    split; [apply Hanswers; unfold signedDigest; now rewrite ?Hdigest|].
    unfold anchoringCalls. rewrite Hdigest.
    unfold logCalls, Account.logCall. simpl.
    now rewrite <- !app_assoc.
  - rewrite truthyString_nonempty.
    destruct (String.eqb digest EmptyString) eqn:Hempty; simpl.
    + destruct (Account.registry_execute sv "AnchorDid" _ _); [|discriminate].
      intros H. injection H as <-.
      exists signed, stored, transaction, EmptyString.
      split;
        [apply Hanswers; unfold signedDigest; now rewrite ?Hdigest, ?Hempty|].
      unfold anchoringCalls. rewrite Hdigest, Hempty.
      unfold logCalls, Account.logCall. simpl.
      now rewrite <- !app_assoc.
    + destruct (Account.createTransactionSignature sv _ _ _ _ _)
        as [signature|] eqn:Hsignature; [|discriminate].
      rewrite <- !app_assoc in Hsignature. simpl in Hsignature.
      destruct (Account.registry_execute sv "AnchorDid" _ _); [|discriminate].
      intros H. injection H as <-.
      exists signed, stored, transaction, signature.
      split;
        [apply Hanswers; unfold signedDigest; now rewrite ?Hdigest, ?Hempty|].
      unfold anchoringCalls. rewrite Hdigest, Hempty.
      unfold logCalls, Account.logCall. simpl.
      now rewrite <- !app_assoc.
Qed.

(** X14. When [updateDidDocument] returns for a member whose seed is not of
    the sidetree network, the document is the member's own and the calls it
    made are, in this order: the registry's [TransactionCount] for the
    member's public key, the signing of the document, [PutDocumentInIpfs]
    with the document as the keys service signed it, [CreateAnchorTransaction],
    the signing of the transaction's digest if it has one, and [AnchorDid].
    The transaction count that the registry answered is the nonce of both
    [CreateAnchorTransaction] and [AnchorDid]; the hash that the registry
    answered for the stored document is the address sent with both; the
    signature sent with [AnchorDid] is the one that the keys service made of
    the digest that [CreateAnchorTransaction] answered, and the empty string
    if there was no digest. *)
Theorem updateDidDocument_anchors_with_transaction_count sv didDocument st st'
    keys :
  seedMethod sv (Account.member_encryptedSeed sv) (Account.member_password sv)
    keys false ->
  Account.updateDidDocument sv didDocument st = (Account.Done tt, st') ->
  let countParams :=
    [("ethereumPublicKeyHex",
      Account.AString
        (Account.getAnchorTransactionPublicKey sv (Account.seedHex keys)
           (Account.didMethod keys)))] in
  let count := Account.CallRegistry "TransactionCount" countParams in
  Account.dd_id didDocument = Account.member_did sv
  /\ exists body signedDidDocument stored transaction signature,
       Account.registry_execute sv "TransactionCount" countParams
         (Account.calls st)
       = Account.Done body
       /\ anchoringAnswers sv keys (Account.member_encryptedSeed sv)
            (Account.member_password sv) didDocument
            (Account.body_transactionCount body)
            (Account.calls st ++ [count])
            signedDidDocument stored transaction signature
       /\ st' = logCalls
                  (count
                   :: anchoringCalls sv keys didDocument signedDidDocument
                        (Account.body_transactionCount body)
                        (Account.body_hash stored)
                        (Account.body_digestHex transaction) signature)
                  st.
Proof.
  intros Hseed. pose proof Hseed as [Hkeys _].
  unfold Account.updateDidDocument, Account.validateAll.
  destruct (Account.validateRules sv _); [discriminate|].
  unfold Account.pbind at 1, Account.pret at 1.
  destruct (String.prefix "did:jolo" (Account.dd_id didDocument));
    [|discriminate].
  destruct (String.eqb (Account.member_did sv) (Account.dd_id didDocument))
    eqn:Hsame; [|discriminate].
  apply String.eqb_eq in Hsame.
  cbn [negb].
  unfold Account.pbind, Account.plift, Account.pcall.
  rewrite Hkeys.
  destruct (Account.registry_execute sv "TransactionCount" _ _) as [body|]
    eqn:Hcount; [|discriminate].
  intros Hrun. cbv zeta. split; [congruence|].
  destruct (anchorDid_anchored _ _ _ _ _ _ _ _ Hseed Hrun)
    as (signed & stored & transaction & signature & Hanswers & Hstate).
  exists body, signed, stored, transaction, signature.
  split; [reflexivity|]. split; [exact Hanswers|].
  rewrite Hstate. apply logCalls_logCall.
Qed.

Lemma updateDidDocument_anchors_with_transaction_count_witness :
  snd (Account.updateDidDocument AccountSample.services
         AccountSample.joloDocument AccountSample.fresh)
  = logCalls
      [ Account.CallRegistry "TransactionCount"
          [("ethereumPublicKeyHex", Account.AString "045eed")];
        Account.CallSignDidDocument AccountSample.joloDocument;
        Account.CallRegistry "PutDocumentInIpfs"
          [("document",
            Account.ADocument
              {| Account.dd_id := Account.dd_id AccountSample.joloDocument;
                 Account.dd_content := "keys.signed" |})];
        Account.CallRegistry "CreateAnchorTransaction"
          [("nonce", Account.ANumber 7);
           ("did", Account.AString (Account.dd_id AccountSample.joloDocument));
           ("didDocumentAddress", Account.AString "QmHash")];
        Account.CallCreateTransactionSignature "d1935" "5eed";
        Account.CallRegistry "AnchorDid"
          [("did", Account.AString (Account.dd_id AccountSample.joloDocument));
           ("didDocumentAddress", Account.AString "QmHash");
           ("ethereumPublicKeyHex", Account.AString "045eed");
           ("transactionSignatureJson",
            Account.AString "signature-of-d1935");
           ("nonce", Account.ANumber 7)] ]
      AccountSample.fresh.
Proof.
  assert (Hseed :
    seedMethod AccountSample.services
      (Account.member_encryptedSeed AccountSample.services)
      (Account.member_password AccountSample.services)
      {| Account.seedHex := "5eed"; Account.didMethod := "jolo";
         Account.seedHexWithMethod := "jolo-seed" |} false)
    by (split; reflexivity).
  assert (Hrun :
    Account.updateDidDocument AccountSample.services AccountSample.joloDocument
      AccountSample.fresh
    = (Account.Done tt,
       snd (Account.updateDidDocument AccountSample.services
              AccountSample.joloDocument AccountSample.fresh)))
    by (vm_compute; reflexivity).
  destruct (updateDidDocument_anchors_with_transaction_count
              AccountSample.services AccountSample.joloDocument
              AccountSample.fresh _ _ Hseed Hrun)
    as (_ & body & signed & stored & transaction & signature
        & Hbody & (Hsigned & Hstored & Htransaction & Hsignature) & Hstate).
  injection Hbody as <-.
  injection Hsigned as <-.
  injection Hstored as <-.
  injection Htransaction as <-.
  injection Hsignature as <-.
  exact Hstate.
Defined.

(** The calls of an update, with the sample registry's transaction count 7
    as the nonce. *)
Example updateDidDocument_calls :
  map (fun c =>
         match c with
         | Account.CallRegistry operation params =>
             (operation,
              match params with
              | ("nonce", Account.ANumber n) :: _ => Some n
              | [_; _; _; _; ("nonce", Account.ANumber n)] => Some n
              | _ => None
              end)
         | Account.CallSignDidDocument _ => ("signDidDocument", None)
         | Account.CallCreateTransactionSignature _ _ =>
             ("createTransactionSignature", None)
         | _ => ("other", None)
         end)
      (Account.calls
         (snd (Account.updateDidDocument AccountSample.services
                 AccountSample.joloDocument AccountSample.fresh)))
  = [ ("TransactionCount", None); ("signDidDocument", None);
      ("PutDocumentInIpfs", None); ("CreateAnchorTransaction", Some 7%Z);
      ("createTransactionSignature", None); ("AnchorDid", Some 7%Z) ].
Proof. vm_compute. reflexivity. Qed.

(** X15. [_validateKeys] accepts exactly the keys whose seed decrypts to one
    of the supported DID methods.  Every other outcome is an error: COR-24,
    wrapping the error of the keys service, when the seed does not decrypt,
    and COR-25, naming the method, when the method is not supported. *)
Theorem _validateKeys_accepts_supported_methods sv keyParams :
  (Account._validateKeys sv keyParams = Account.Done tt <->
   exists keys,
     Account.decryptSeed sv (Account.kp_encryptedSeed keyParams)
       (Account.kp_password keyParams) = Account.Done keys
     /\ Account.didMethod keys ∈ Account.SUPPORTED_DID_METHODS sv)
  /\ (forall e, Account._validateKeys sv keyParams = Account.Failed e ->
        (exists error,
           Account.decryptSeed sv (Account.kp_encryptedSeed keyParams)
             (Account.kp_password keyParams) = Account.Failed error
           /\ e = Account.SdkFailure "COR-24" [] (Some error))
        \/ (exists keys context,
              Account.decryptSeed sv (Account.kp_encryptedSeed keyParams)
                (Account.kp_password keyParams) = Account.Done keys
              /\ (Account.didMethod keys ∉ Account.SUPPORTED_DID_METHODS sv)
              /\ e = Account.SdkFailure "COR-25" context None
              /\ head context = Some ("didMethod", Account.didMethod keys))).
Proof.
  unfold Account._validateKeys, includes.
  destruct (Account.decryptSeed sv _ _) as [keys|error].
  - destruct (bool_decide_reflect
                (Account.didMethod keys ∈ Account.SUPPORTED_DID_METHODS sv))
      as [Hin|Hout]; simpl.
    + split.
      * split; [intros _; exists keys; auto | reflexivity].
      * discriminate.
    + split.
      * split; [discriminate|].
        intros (keys' & Hk & Hin). injection Hk as <-. contradiction.
      * intros e He. injection He as <-. right.
        eexists keys, _. repeat split; auto.
  - split.
    + split; [discriminate|]. intros (keys & Hk & _). discriminate.
    + intros e He. injection He as <-. left. exists error. auto.
Qed.

Lemma _validateKeys_accepts_supported_methods_witness :
  Account._validateKeys AccountSample.services
    {| Account.kp_encryptedSeed := "jolo-seed";
       Account.kp_password := "password" |}
  = Account.Done tt.
Proof.
  apply (proj1 (_validateKeys_accepts_supported_methods AccountSample.services
                  {| Account.kp_encryptedSeed := "jolo-seed";
                     Account.kp_password := "password" |})).
  eexists. split; [reflexivity|].
  rewrite list_elem_of_In. simpl. tauto.
Defined.

(** A seed of a network that the SDK does not support. *)
Example _validateKeys_unsupported_method :
  Account._validateKeys AccountSample.services
    {| Account.kp_encryptedSeed := "ethr-seed";
       Account.kp_password := "password" |}
  = Account.Failed
      (Account.SdkFailure "COR-25"
         [("didMethod", "ethr"); ("supportedDidMethods", "jolo, elem")] None).
Proof. reflexivity. Qed.

(** *** Sign-up tokens *)

Lemma append_first c s t : String c s +:+ t = String c (s +:+ t).
Proof. reflexivity. Qed.

Lemma append_to_empty t : EmptyString +:+ t = t.
Proof. reflexivity. Qed.

Lemma append_empty s : s +:+ EmptyString = s.
Proof.
  induction s as [|c s IH]; [reflexivity | now rewrite append_first, IH].
Qed.

Lemma append_character s c t :
  (s +:+ String c EmptyString) +:+ t = s +:+ String c t.
Proof.
  induction s as [|d s IH]; [reflexivity | now rewrite !append_first, IH].
Qed.

Lemma prefix_first a s1 b s2 :
  String.prefix (String a s1) (String b s2)
  = if ascii_dec a b then String.prefix s1 s2 else false.
Proof. reflexivity. Qed.

Lemma prefix_other_character c rest :
  Ascii.eqb c ":"%char = false -> String.prefix "::" (String c rest) = false.
Proof.
  intros Hc. rewrite prefix_first.
  destruct (ascii_dec ":"%char c) as [<-|_]; [|reflexivity].
  discriminate.
Qed.

Lemma prefix_separator rest :
  String.prefix "::" (String ":" (String ":" rest)) = true.
Proof.
  rewrite !prefix_first.
  destruct (ascii_dec ":"%char ":"%char) as [_|Hne]; [|congruence].
  destruct rest; reflexivity.
Qed.

Lemma splitFrom_nonempty separator s skip piece :
  exists first rest,
    Account.splitFrom separator s skip piece = first :: rest.
Proof.
  revert skip piece.
  induction s as [|c s IH]; intros skip piece; simpl.
  - eauto.
  - destruct skip as [|k]; [|apply IH].
    match goal with |- context [if ?b then _ else _] => destruct b end;
      [eauto | apply IH].
Qed.

(** The first piece of a sign-up token is the username, if that has no
    colon. *)
Lemma splitFrom_username username password piece :
  noColon username = true ->
  Account.splitFrom "::" (username +:+ "::" +:+ password) 0 piece
  = (piece +:+ username) :: Account.splitFrom "::" password 0 EmptyString.
Proof.
  revert piece.
  induction username as [|c u IH]; intros piece Hu.
  - rewrite append_empty, append_to_empty, !append_first, append_to_empty.
    cbn [Account.splitFrom]. rewrite prefix_separator.
    reflexivity.
  - simpl in Hu. apply andb_true_iff in Hu as [Hc Hu].
    apply negb_true_iff in Hc.
    rewrite append_first.
    cbn [Account.splitFrom].
    rewrite (prefix_other_character _ _ Hc).
    rewrite (IH _ Hu). now rewrite append_character.
Qed.

(** A sign-up token has at least two pieces, whatever the username. *)
Lemma splitFrom_token username password piece :
  exists first second rest,
    Account.splitFrom "::" (username +:+ "::" +:+ password) 0 piece
    = first :: second :: rest.
Proof.
  revert piece.
  induction username as [|c u IH]; intros piece.
  - rewrite append_to_empty, !append_first, append_to_empty.
    cbn [Account.splitFrom]. rewrite prefix_separator.
    cbn [String.length Nat.sub Account.splitFrom].
    destruct (splitFrom_nonempty "::" password 0 EmptyString)
      as (first & rest & ->).
    eauto.
  - rewrite append_first.
    cbn [Account.splitFrom].
    destruct (String.prefix "::" (String c (u +:+ "::" +:+ password))).
    + destruct (splitFrom_nonempty "::" (u +:+ "::" +:+ password)
                  (String.length "::" - 1) EmptyString)
        as (first & rest & ->).
      eauto.
    + apply IH.
Qed.

Lemma split_colons token :
  Account.split token "::" = Account.splitFrom "::" token 0 EmptyString.
Proof. reflexivity. Qed.

Lemma _signUp_result sv username password options messageParameters st r st' :
  Account._signUp sv username password options messageParameters st
  = (Account.Done r, st') ->
  exists registered,
    r = {| Account.su_token := username +:+ "::" +:+ registered;
           Account.su_isUsername :=
             Account.isUsername (Account.validateUsername sv username) |}.
Proof.
  unfold Account._signUp, Account.validateAll.
  destruct (Account.validateRules sv _); [discriminate|].
  unfold Account.pbind, Account.pret, Account.pcall.
  destruct (Account.randomBytesHex sv 32 _); [|discriminate].
  destruct (Account.cognito_signUp sv _ _ _ _); [|discriminate].
  intros H. injection H as <- _. eauto.
Qed.

(** X16. The token that [_signUp] returns confirms the account it was
    returned for: for a username without a colon, [_confirmSignUpUser] on
    that token confirms the very username that was signed up, once, through
    the wallet storage service (without the code) if the sign-up took it for
    an arbitrary username, and through Cognito with the confirmation code
    otherwise. *)
Theorem sign_up_token_confirms_its_username sv username password options
    messageParameters st st' r confirmationCode options' st2 :
  noColon username = true ->
  Account._signUp sv username password options messageParameters st
  = (Account.Done r, st') ->
  Account._confirmSignUpUser sv (Account.su_token r) confirmationCode options'
    st2
  = if Account.su_isUsername r
    then (Account.walletStorage_adminConfirmUser sv username (Account.calls st2),
          logCalls [Account.CallAdminConfirmUser username] st2)
    else (Account.cognito_confirmSignUp sv username confirmationCode
            (Account.calls st2),
          logCalls [Account.CallCognitoConfirmSignUp username confirmationCode]
            st2).
Proof.
  intros Hu Hrun.
  destruct (_signUp_result _ _ _ _ _ _ _ _ Hrun) as [registered ->].
  unfold Account._confirmSignUpUser. cbn [Account.su_token Account.su_isUsername].
  rewrite split_colons, (splitFrom_username _ _ _ Hu).
  cbn [lookup list_lookup default from_option id].
  rewrite append_to_empty. unfold Account.pcall.
  destruct (Account.isUsername (Account.validateUsername sv username));
    reflexivity.
Qed.

Lemma sign_up_token_confirms_its_username_witness :
  let r :=
    {| Account.su_token := "user@example.org::0123456789Abcdef";
       Account.su_isUsername := false |} in
  Account._confirmSignUpUser AccountSample.services (Account.su_token r)
    "123456" None AccountSample.fresh
  = if Account.su_isUsername r
    then (Account.walletStorage_adminConfirmUser AccountSample.services
            "user@example.org" (Account.calls AccountSample.fresh),
          logCalls [Account.CallAdminConfirmUser "user@example.org"]
            AccountSample.fresh)
    else (Account.cognito_confirmSignUp AccountSample.services
            "user@example.org" "123456" (Account.calls AccountSample.fresh),
          logCalls
            [Account.CallCognitoConfirmSignUp "user@example.org" "123456"]
            AccountSample.fresh).
Proof.
  assert (Hrun :
    Account._signUp AccountSample.services "user@example.org" Null None None
      AccountSample.fresh
    = (Account.Done
         {| Account.su_token := "user@example.org::0123456789Abcdef";
            Account.su_isUsername := false |},
       logCalls
         [ Account.CallRandomBytes 32;
           Account.CallCognitoSignUp "user@example.org" "0123456789Abcdef"
             None ]
         AccountSample.fresh))
    by (vm_compute; reflexivity).
  exact (sign_up_token_confirms_its_username AccountSample.services
           "user@example.org" Null None None AccountSample.fresh _ _
           "123456" None AccountSample.fresh eq_refl Hrun).
Defined.

(** A username with the separator in it: the account that is confirmed is
    not the one that was signed up. *)
Example sign_up_token_of_username_with_separator :
  exists r st,
    Account._signUp AccountSample.services "bob::alice" (Value "Passw0rd")
      None None AccountSample.fresh
    = (Account.Done r, st)
    /\ Account.calls
         (snd (Account._confirmSignUpUser AccountSample.services
                 (Account.su_token r) "123456" None AccountSample.fresh))
       = [Account.CallAdminConfirmUser "bob"].
Proof. eexists _, _. split; vm_compute; reflexivity. Qed.

(** X17. [confirmSignIn] takes every token that [_signUp] has returned for a
    sign-up token, whatever the username and password: once its parameters
    are valid it completes the sign-up with [confirmSignUp] and reports a new
    account; [completeLoginChallenge] is not called. *)
Theorem confirmSignIn_of_sign_up_token (Member : Type)
    (confirmSignUp completeLoginChallenge :
       string -> string -> option Account.SdkOptions -> Account.P Member)
    sv username password options messageParameters st0 st1 r
    confirmationCode options' st :
  Account._signUp sv username password options messageParameters st0
  = (Account.Done r, st1) ->
  Account.validateRules sv
    (confirmSignInRules (Account.su_token r) confirmationCode options')
  = None ->
  Account.confirmSignIn Member confirmSignUp completeLoginChallenge sv
    (Account.su_token r) confirmationCode options' st
  = match confirmSignUp (Account.su_token r) confirmationCode options' st with
    | (Account.Done member, st') =>
        (Account.Done {| Account.isNew := true;
                         Account.commonNetworkMember := member |}, st')
    | (Account.Failed e, st') => (Account.Failed e, st')
    end.
Proof.
  intros Hrun Hvalid.
  destruct (_signUp_result _ _ _ _ _ _ _ _ Hrun) as [registered ->].
  cbn [Account.su_token] in *.
  unfold Account.confirmSignIn.
  rewrite (pbind_done _ _ st tt st)
    by (apply validateAll_ok; exact Hvalid).
  rewrite split_colons.
  destruct (splitFrom_token username registered EmptyString)
    as (first & second & rest & ->).
  cbn [lookup list_lookup].
  unfold Account.pbind, Account.pret.
  destruct (confirmSignUp _ _ _ st) as [[member|e] st']; reflexivity.
Qed.

Lemma confirmSignIn_of_sign_up_token_witness :
  let token := "user@example.org::0123456789Abcdef" in
  let confirmSignUp token (code : string) (options : option Account.SdkOptions)
      : Account.P string :=
    Account.pret ("member of " +:+ token) in
  let completeLoginChallenge (token code : string)
      (options : option Account.SdkOptions) : Account.P string :=
    Account.pthrow (Account.SdkFailure "COR-5" [] None) in
  Account.confirmSignIn string confirmSignUp completeLoginChallenge
    AccountSample.services token "123456" None AccountSample.fresh
  = match confirmSignUp token "123456" None AccountSample.fresh with
    | (Account.Done member, st') =>
        (Account.Done {| Account.isNew := true;
                         Account.commonNetworkMember := member |}, st')
    | (Account.Failed e, st') => (Account.Failed e, st')
    end.
Proof.
  assert (Hrun :
    Account._signUp AccountSample.services "user@example.org" Null None None
      AccountSample.fresh
    = (Account.Done
         {| Account.su_token := "user@example.org::0123456789Abcdef";
            Account.su_isUsername := false |},
       logCalls
         [ Account.CallRandomBytes 32;
           Account.CallCognitoSignUp "user@example.org" "0123456789Abcdef"
             None ]
         AccountSample.fresh))
    by (vm_compute; reflexivity).
  cbv zeta.
  exact (confirmSignIn_of_sign_up_token string
           (fun token _ _ => Account.pret ("member of " +:+ token))
           (fun _ _ _ => Account.pthrow (Account.SdkFailure "COR-5" [] None))
           AccountSample.services "user@example.org" Null None None
           AccountSample.fresh _ _ "123456" None AccountSample.fresh
           Hrun eq_refl).
Defined.

(** A login token, which has no separator, goes to the login challenge. *)
Example confirmSignIn_of_login_token :
  Account.confirmSignIn string
    (fun token _ _ => Account.pret ("new " +:+ token))
    (fun token _ _ => Account.pret ("known " +:+ token))
    AccountSample.services "{ChallengeName:CUSTOM_CHALLENGE}" "123456" None
    AccountSample.fresh
  = (Account.Done
       {| Account.isNew := false;
          Account.commonNetworkMember :=
            "known {ChallengeName:CUSTOM_CHALLENGE}" |},
     AccountSample.fresh).
Proof. vm_compute. reflexivity. Qed.

(** X18. Signing in a user who is registered already: when the parameters
    are valid and Cognito refuses the sign-up with COR-7, [signIn] has tried
    to sign the user up with a password of its own (the random bytes in hex,
    with the first letter from a to f replaced by [A], then normalised) and
    goes on to [passwordlessLogin], whose token or error is the result.  Any
    other error of the sign-up is thrown on and no login is attempted. *)
Theorem signIn_falls_back_to_login (Member : Type)
    (confirmSignUp :
       string -> string -> option Account.SdkOptions -> Account.P Member)
    (passwordlessLogin :
       string -> option Account.SdkOptions ->
       option Account.MessageParameters -> Account.P string)
    sv username options messageParameters st random e :
  Account.validateRules sv (signInRules username options messageParameters)
  = None ->
  Account.validateRules sv
    (signUpRules sv username Null options messageParameters) = None ->
  Account.randomBytesHex sv 32 (Account.calls st) = Account.Done random ->
  let password :=
    Account.normalizeShortPassword sv (Account.replaceFirstHexLetter random)
      username in
  Account.cognito_signUp sv username password messageParameters
    (Account.calls st ++ [Account.CallRandomBytes 32])
  = Account.Failed e ->
  let st' :=
    logCalls
      [ Account.CallRandomBytes 32;
        Account.CallCognitoSignUp username password messageParameters ] st in
  Account.signIn Member confirmSignUp passwordlessLogin sv username options
    messageParameters st
  = if bool_decide (Account.failureCode e = Some "COR-7")
    then
      match passwordlessLogin username options messageParameters st' with
      | (Account.Done token, st'') =>
          (Account.Done (Account.TokenToConfirm Member token), st'')
      | (Account.Failed e', st'') => (Account.Failed e', st'')
      end
    else (Account.Failed e, st').
Proof.
  intros Hin Hup Hrandom password Hsign st'.
  unfold Account.signIn.
  rewrite (pbind_done _ _ st tt st) by (apply validateAll_ok; exact Hin).
  unfold Account.ptry, Account.signUp.
  assert (Hrun :
    Account._signUp sv username Null options messageParameters st
    = (Account.Failed e, st')).
  { unfold Account._signUp.
    rewrite (pbind_done _ _ st tt st) by (apply validateAll_ok; exact Hup).
    unfold Account.pbind, Account.pcall. rewrite Hrandom.
    cbn [Account.calls Account.logCall].
    fold password. rewrite Hsign.
    unfold st', logCalls, Account.logCall. cbn.
    now rewrite <- app_assoc. }
  rewrite (pbind_failed _ _ _ _ _ Hrun).
  destruct (bool_decide (Account.failureCode e = Some "COR-7"));
    [|reflexivity].
  unfold Account.pbind, Account.pret.
  destruct (passwordlessLogin _ _ _ st') as [[token|e'] st'']; reflexivity.
Qed.

Lemma signIn_falls_back_to_login_witness :
  Account.signIn string
    (fun token _ _ => Account.pret ("member of " +:+ token))
    (fun username _ _ => Account.pret ("login token of " +:+ username))
    AccountSample.takenServices "user@example.org" None None
    AccountSample.fresh
  = (Account.Done
       (Account.TokenToConfirm string "login token of user@example.org"),
     logCalls
       [ Account.CallRandomBytes 32;
         Account.CallCognitoSignUp "user@example.org" "0123456789Abcdef"
           None ]
       AccountSample.fresh).
Proof.
  exact (signIn_falls_back_to_login string
           (fun token _ _ => Account.pret ("member of " +:+ token))
           (fun username _ _ =>
              Account.pret ("login token of " +:+ username))
           AccountSample.takenServices "user@example.org" None None
           AccountSample.fresh "0123456789abcdef"
           (Account.SdkFailure "COR-7" [] None)
           eq_refl eq_refl eq_refl eq_refl).
Defined.

(** *** The credentials of a wallet *)

Lemma getCredentials_selected sv credentialShareRequestToken credentials st :
  (if truthy credentialShareRequestToken
   then
     match credentialShareRequestToken with
     | Value token =>
         Account.plift
           (Account.walletStorage_filterCredentials sv token credentials)
     | _ => Account.pret credentials
     end
   else Account.pret credentials) st
  = (filteredBy sv credentialShareRequestToken credentials, st).
Proof.
  unfold filteredBy.
  destruct credentialShareRequestToken as [| |t]; [reflexivity | reflexivity |].
  cbn [truthy]. destruct (truthyString t); reflexivity.
Qed.

Lemma getCredentials_offline sv credentialShareRequestToken st :
  Account.getCredentials sv credentialShareRequestToken false st
  = (filteredBy sv credentialShareRequestToken (Account._credentials st), st).
Proof.
  unfold Account.getCredentials, Account.pbind.
  apply getCredentials_selected.
Qed.

Lemma getCredentials_backup sv credentialShareRequestToken st :
  Account.getCredentials sv credentialShareRequestToken true st
  = match
      Account.walletStorage_fetchAllDecryptedCredentials sv (Account.calls st)
    with
    | Account.Done credentials =>
        (filteredBy sv credentialShareRequestToken credentials,
         Account.setCredentials credentials
           (logCalls [Account.CallFetchAllDecryptedCredentials] st))
    | Account.Failed e =>
        (Account.Failed e,
         logCalls [Account.CallFetchAllDecryptedCredentials] st)
    end.
Proof.
  unfold Account.getCredentials, Account.fetchAllCredentials.
  unfold Account.pbind at 1 2 3, Account.pcall.
  destruct (Account.walletStorage_fetchAllDecryptedCredentials sv _)
    as [credentials|e]; [|reflexivity].
  unfold Account.pret at 1.
  apply getCredentials_selected.
Qed.

(** X19. [getCredentials] keeps what it fetched from the backup: when the
    storage answers with a list, that list is the wallet's [_credentials]
    afterwards, also when filtering by the share request token has failed,
    and a later call without the backup makes no storage call and returns
    that list, or its filtering by a share request token.  When the storage
    fails, [getCredentials] fails with its error and the credentials of the
    wallet stay as they were. *)
Theorem getCredentials_keeps_the_backup sv credentialShareRequestToken st :
  let run := Account.getCredentials sv credentialShareRequestToken true st in
  match
    Account.walletStorage_fetchAllDecryptedCredentials sv (Account.calls st)
  with
  | Account.Done credentials =>
      fst run = filteredBy sv credentialShareRequestToken credentials
      /\ snd run
         = Account.setCredentials credentials
             (logCalls [Account.CallFetchAllDecryptedCredentials] st)
      /\ forall token,
           Account.getCredentials sv token false (snd run)
           = (filteredBy sv token credentials, snd run)
  | Account.Failed e =>
      run = (Account.Failed e,
             logCalls [Account.CallFetchAllDecryptedCredentials] st)
  end.
Proof.
  cbv zeta. rewrite getCredentials_backup.
  destruct (Account.walletStorage_fetchAllDecryptedCredentials sv _)
    as [credentials|e]; [|reflexivity].
  split; [reflexivity|]. split; [reflexivity|].
  intros token. apply getCredentials_offline.
Qed.

(** A fetch whose filtering fails still fills the wallet. *)
Example getCredentials_after_failed_filter :
  let st :=
    snd (Account.getCredentials AccountSample.services (Value "garbage") true
           AccountSample.fresh) in
  fst (Account.getCredentials AccountSample.services (Value "garbage") true
         AccountSample.fresh)
  = Account.Failed (Account.JsFailure "Error" "Token can not be decoded" None)
  /\ Account.getCredentials AccountSample.services Null false st
     = (Account.Done [Demo.emailCredential; Demo.undatedCredential], st).
Proof. split; vm_compute; reflexivity. Qed.
